(** * generateIconFiles: the incremental icon-artifact generator

    A shallow embedding of [generateIconFiles] (the sprite / type-declaration /
    identifier-array / hash-module generator) together with the properties of
    its staleness pre-check, of its change-detected writes and of its summary
    report.

    Conventions of the embedding:
    - JavaScript strings are [string]s, arrays are [list]s, optional boolean
      options are [option bool] read through their truthiness;
    - the file system is a finite map from paths to nodes; an [async] function
      is a computation in a state-and-exception monad [M] over that map;
    - every call that leaves [generateIconFiles] (file system, assembly,
      optimizer, digest, console) is recorded, in order, in a trace of
      [event]s kept next to the file system, so that "this run did not
      assemble" or "this run wrote nothing" are statements about the trace;
      a [WriteIfChanged] event is recorded when a change-detected write
      resolves and carries the [changed] flag it resolved to. *)

From Stdlib Require Import Ascii String List Bool Arith Lia.
From stdpp Require Import base option gmap strings pretty.
Import ListNotations.

(** ** JavaScript string primitives used by the program *)

Module Js.

(** Characters that cannot be written inside a literal here. *)
Definition LF : string := String "010"%char EmptyString.
Definition TAB : string := String "009"%char EmptyString.
Definition DQ : string := String "034"%char EmptyString.

(** [s.startsWith(t)]. *)
Fixpoint starts_with (s t : string) : bool :=
  match t with
  | EmptyString => true
  | String b t' =>
      match s with
      | EmptyString => false
      | String a s' => Ascii.eqb a b && starts_with s' t'
      end
  end.

(** [s.includes(t)]: [t] occurs in [s] at some position. *)
Fixpoint includes (s t : string) : bool :=
  starts_with s t ||
  match s with
  | EmptyString => false
  | String _ s' => includes s' t
  end.

(** [xs.join(sep)]. *)
Fixpoint join (sep : string) (xs : list string) : string :=
  match xs with
  | [] => EmptyString
  | [x] => x
  | x :: xs' => x +:+ sep +:+ join sep xs'
  end.

(** The global replace of line 101: every double quote of [s] becomes a
    single quote. *)
Fixpoint replace_dq (s : string) : string :=
  match s with
  | EmptyString => EmptyString
  | String c s' =>
      String (if Ascii.eqb c "034"%char then "'"%char else c) (replace_dq s')
  end.

Definition hex_digit (n : nat) : ascii :=
  match n with
  | 0 => "0" | 1 => "1" | 2 => "2" | 3 => "3" | 4 => "4" | 5 => "5"
  | 6 => "6" | 7 => "7" | 8 => "8" | 9 => "9" | 10 => "a" | 11 => "b"
  | 12 => "c" | 13 => "d" | 14 => "e" | _ => "f"
  end%char.

(** The escape of one character inside [JSON.stringify] of a string:
    the two-character escapes, [\u00xx] for the other control characters,
    the character itself otherwise. *)
Definition json_escape (c : ascii) : string :=
  let n := nat_of_ascii c in
  if n =? 8 then "\b"
  else if n =? 9 then "\t"
  else if n =? 10 then "\n"
  else if n =? 12 then "\f"
  else if n =? 13 then "\r"
  else if n =? 34 then String "\"%char DQ
  else if n =? 92 then "\\"
  else if n <? 32 then
    "\u00" +:+ String (hex_digit (n / 16)) (String (hex_digit (n mod 16)) EmptyString)
  else String c EmptyString.

Fixpoint json_escape_all (s : string) : string :=
  match s with
  | EmptyString => EmptyString
  | String c s' => json_escape c +:+ json_escape_all s'
  end.

(** [JSON.stringify(s)] for a string [s]. *)
Definition JSON_stringify (s : string) : string :=
  DQ +:+ json_escape_all s +:+ DQ.

(** [s.endsWith(t)]. *)
Fixpoint ends_with (s t : string) : bool :=
  String.eqb s t ||
  match s with
  | EmptyString => false
  | String _ s' => ends_with s' t
  end.

(** [s.replace(/\.svg$/, r)] for a replacement [r] without [$] patterns
    (here [r] is built from a hexadecimal digest): a final [.svg] is
    replaced by [r], any other string is returned as it is. *)
Fixpoint replace_svg_suffix (s r : string) : string :=
  if String.eqb s ".svg" then r
  else match s with
       | EmptyString => EmptyString
       | String c s' => String c (replace_svg_suffix s' r)
       end.

(** The character [c] occurs in [s]. *)
Fixpoint has_char (c : ascii) (s : string) : bool :=
  match s with
  | EmptyString => false
  | String a s' => Ascii.eqb a c || has_char c s'
  end.

(** The last character of [s]. *)
Fixpoint last_char (s : string) : option ascii :=
  match s with
  | EmptyString => None
  | String c EmptyString => Some c
  | String _ s' => last_char s'
  end.

(** The text [t] occurs in [s]: what [s.includes(t)] tests. *)
Definition occurs_in (t s : string) : Prop :=
  exists a b, s = a +:+ t +:+ b.

(** Truthiness of an optional boolean option ([undefined] is falsy). *)
Definition truthy (b : option bool) : bool :=
  match b with
  | Some true => true
  | _ => false
  end.

(** A possibly [undefined] string interpolated into a template literal. *)
Definition interpolate (s : option string) : string :=
  match s with
  | Some v => v
  | None => "undefined"
  end.

End Js.

(** ** Reading the string literals of a generated source text

    The generated artifacts are TypeScript sources. What they list is
    observed the way a reader of the source does: by the string literals
    between quotes, with their escapes decoded. *)

Module Literal.

Inductive mode : Type := Outside | Inside | Escaped.

(** One pass over the text [s] for the quote character [q]. Outside a
    literal, characters are skipped up to the next [q]; inside, characters
    are collected up to the closing [q], a backslash protecting the
    character after it. The result is the rest of the literal being read,
    if any, and the literals that follow. *)
Fixpoint lex (q : ascii) (m : mode) (s : string) : string * list string :=
  match s with
  | EmptyString => (EmptyString, [])
  | String c s' =>
      match m with
      | Outside =>
          if Ascii.eqb c q
          then let (b, ls) := lex q Inside s' in (EmptyString, b :: ls)
          else lex q Outside s'
      | Inside =>
          if Ascii.eqb c q
          then (EmptyString, snd (lex q Outside s'))
          else if Ascii.eqb c "\"
          then let (b, ls) := lex q Escaped s' in (String c b, ls)
          else let (b, ls) := lex q Inside s' in (String c b, ls)
      | Escaped => let (b, ls) := lex q Inside s' in (String c b, ls)
      end
  end.

(** The bodies of the string literals of [s] quoted with [q], in the order
    of the text. *)
Definition literals (q : ascii) (s : string) : list string :=
  snd (lex q Outside s).

Definition hex_value (c : ascii) : option nat :=
  let n := nat_of_ascii c in
  if (48 <=? n) && (n <=? 57) then Some (n - 48)
  else if (97 <=? n) && (n <=? 102) then Some (n - 87)
  else if (65 <=? n) && (n <=? 70) then Some (n - 55)
  else None.

Definition prepend (c : ascii) (r : option string) : option string :=
  match r with
  | Some s => Some (String c s)
  | None => None
  end.

(** The string a literal body denotes: the escapes [\b \t \n \f \r],
    an escaped quote or backslash, and [\uXXXX] below 256 are decoded. *)
Fixpoint unescape (s : string) : option string :=
  match s with
  | EmptyString => Some EmptyString
  | String c s' =>
      if Ascii.eqb c "\" then
        match s' with
        | EmptyString => None
        | String e s'' =>
            if Ascii.eqb e "b" then prepend "008" (unescape s'')
            else if Ascii.eqb e "t" then prepend "009" (unescape s'')
            else if Ascii.eqb e "n" then prepend "010" (unescape s'')
            else if Ascii.eqb e "f" then prepend "012" (unescape s'')
            else if Ascii.eqb e "r" then prepend "013" (unescape s'')
            else if Ascii.eqb e "034" || Ascii.eqb e "'" || Ascii.eqb e "\"
            then prepend e (unescape s'')
            else if Ascii.eqb e "u" then
              match s'' with
              | String h1 (String h2 (String h3 (String h4 rest))) =>
                  match hex_value h1, hex_value h2, hex_value h3,
                        hex_value h4 with
                  | Some 0, Some 0, Some v3, Some v4 =>
                      prepend (ascii_of_nat (16 * v3 + v4)) (unescape rest)
                  | _, _, _, _ => None
                  end
              | _ => None
              end
            else None
        end
      else prepend c (unescape s')
  end.

Fixpoint unescape_all (ls : list string) : option (list string) :=
  match ls with
  | [] => Some []
  | l :: ls' =>
      match unescape l, unescape_all ls' with
      | Some s, Some ss => Some (s :: ss)
      | _, _ => None
      end
  end.

(** The strings listed by the literals of [s] quoted with [q]. *)
Definition listed (q : ascii) (s : string) : option (list string) :=
  unescape_all (literals q s).

(** The literal body of escaped text in a source quoted with [q]: with
    single quotes, the double quotes of the escapes are replaced. *)
Definition replace_dq_if (q : ascii) (s : string) : string :=
  if Ascii.eqb q "'" then Js.replace_dq s else s.

(** The literal with body [b] in a source quoted with [q]. *)
Definition quoted (q : ascii) (b : string) : string :=
  String q (b +:+ String q EmptyString).

(** A string without quote character. *)
Definition quote_free (s : string) : Prop :=
  Js.has_char "034" s = false /\ Js.has_char "'" s = false.

End Literal.

(** ** File system, trace and the monad of asynchronous computations *)

Inductive error : Type :=
| ENOENT
| EACCES
| EIO
| EISDIR
| EEXIST
| ENOTDIR
| Failure (message : string).

(** What a path holds: a regular file, a directory, or a node on which every
    file-system call rejects (permission denied, I/O error). *)
Inductive node : Type :=
| File (content : string)
| Dir
| Faulty (e : error).

Inductive event : Type :=
| EnsureDir (dir : string)
| ReadFile (path : string)
| WriteFile (path content : string)
| GenerateSvgSprite (files : list string) (inputDir : string)
| LoadConfig
| Optimize (input : string)
| Md5 (input : string)
| WriteIfChanged (filepath newContent : string) (hash : option string)
                 (force : option bool) (changed : bool)
| ConsoleLog (line : string).

Record world : Type := World {
  disk : gmap string node;
  trace : list event
}.

Inductive outcome (A : Type) : Type :=
| Returned (a : A)
| Thrown (e : error).
Arguments Returned {A} a.
Arguments Thrown {A} e.

Definition M (A : Type) : Type := world -> outcome A * world.

Definition ret {A} (a : A) : M A := fun w => (Returned a, w).

Definition throw {A} (e : error) : M A := fun w => (Thrown e, w).

Definition bind {A B} (m : M A) (k : A -> M B) : M B :=
  fun w =>
    match m w with
    | (Returned a, w') => k a w'
    | (Thrown e, w') => (Thrown e, w')
    end.

(** [m.catch(h)]. *)
Definition catch {A} (m : M A) (h : error -> M A) : M A :=
  fun w =>
    match m w with
    | (Returned a, w') => (Returned a, w')
    | (Thrown e, w') => h e w'
    end.

Notation "'let*' x ':=' m 'in' k" := (bind m (fun x => k))
  (at level 10, x name, m at level 100, k at level 200).
Notation "m1 ';;' m2" := (bind m1 (fun _ => m2))
  (at level 100, m2 at level 200, right associativity).

Definition emit (e : event) : M unit :=
  fun w => (Returned tt, World (disk w) (trace w ++ [e])).

(** Lifts a pure, possibly failing computation over the current disk. *)
Definition on_disk {A} (f : gmap string node -> outcome A) : M A :=
  fun w => (f (disk w), w).

Definition set_node (p : string) (n : node) : M unit :=
  fun w => (Returned tt, World (<[p := n]> (disk w)) (trace w)).

(** [for (const x of xs) body(x)]. *)
Fixpoint for_each {A} (body : A -> M unit) (xs : list A) : M unit :=
  match xs with
  | [] => ret tt
  | x :: xs' => body x;; for_each body xs'
  end.

(** *** File-system calls (fs-extra) *)

Definition read_node (p : string) (d : gmap string node) : outcome string :=
  match d !! p with
  | None => Thrown ENOENT
  | Some (File c) => Returned c
  | Some Dir => Thrown EISDIR
  | Some (Faulty e) => Thrown e
  end.

(** [fsExtra.readFile(p, 'utf8')]. *)
Definition readFile (p : string) : M string :=
  emit (ReadFile p);; on_disk (read_node p).

(** [fsExtra.writeFile(p, content)]. *)
Definition writeFile (p content : string) : M unit :=
  emit (WriteFile p content);;
  let* n := on_disk (fun d => Returned (d !! p)) in
  match n with
  | None | Some (File _) => set_node p (File content)
  | Some Dir => throw EISDIR
  | Some (Faulty e) => throw e
  end.

(** The texts before each slash of a path, the shortest first. *)
Fixpoint cuts (s : string) : list string :=
  match s with
  | EmptyString => []
  | String c s' =>
      (if Ascii.eqb c "/" then [EmptyString] else []) ++
      map (String c) (cuts s')
  end.

(** The proper ancestors of a path, the innermost first: [a/b] and [a] for
    [a/b/c]. *)
Definition ancestors (p : string) : list string :=
  rev (List.filter (fun q => negb (String.eqb q EmptyString)) (cuts p)).

(** The directories a recursive [mkdir] of [p] has to make, the outermost
    first, [up] being the ancestors of [p], the innermost first. A directory
    that is there needs nothing, and nothing above it is looked at; a
    missing path needs its parent and then itself; a regular file at [p]
    rejects with [on_file], a regular file at an ancestor with [ENOTDIR]. *)
Fixpoint missing_dirs (on_file : error) (p : string) (up : list string)
    (d : gmap string node) : outcome (list string) :=
  match d !! p with
  | Some Dir => Returned []
  | Some (File _) => Thrown on_file
  | Some (Faulty e) => Thrown e
  | None =>
      match up with
      | [] => Returned [p]
      | q :: up' =>
          match missing_dirs ENOTDIR q up' d with
          | Returned ds => Returned (ds ++ [p])
          | Thrown e => Thrown e
          end
      end
  end.

(** The disk [d] with directories made at [ds]. *)
Definition with_dirs (ds : list string) (d : gmap string node)
    : gmap string node :=
  fold_left (fun d' q => <[q := Dir]> d') ds d.

(** [fsExtra.ensureDir(p)], a recursive [mkdir]: the directory and every
    missing ancestor of it are made; when it rejects, nothing is made. *)
Definition ensureDir (p : string) : M unit :=
  emit (EnsureDir p);;
  let* ds := on_disk (missing_dirs EEXIST p (ancestors p)) in
  for_each (fun q => set_node q Dir) ds.

(** The text a read guarded by [.catch(() => '')] resolves to. *)
Definition text_of (r : outcome string) : string :=
  match r with
  | Returned c => c
  | Thrown _ => EmptyString
  end.

(** The existing content a change-detected write compares with: a missing
    file is no error and gives no content, any other failure rejects. *)
Definition read_existing (p : string) (d : gmap string node)
    : outcome (option string) :=
  match read_node p d with
  | Returned c => Returned (Some c)
  | Thrown ENOENT => Returned None
  | Thrown e => Thrown e
  end.

(** [w] with the events [t] recorded after its trace. *)
Definition record (w : world) (t : list event) : world :=
  World (disk w) (trace w ++ t).

(** [console.log(line)]. *)
Definition console_log (line : string) : M unit := emit (ConsoleLog line).

(** ** Collaborators of [generateIconFiles]

    The functions imported by the module whose code is not part of the
    sources at hand: the identifier deriver, the sprite assembler, svgo, the
    md5 digest of node's crypto, node's path functions and the size helper. *)

Class Externals : Type := {
  (** [iconName(file)] of ./icon-name *)
  iconName : string -> string;
  (** [generateSvgSprite({ files, inputDir })] of ./generate-svg-sprite; it
      reads the source files and may reject *)
  assemble : gmap string node -> list string -> string -> outcome string;
  (** svgo *)
  Config : Type;
  load_config : gmap string node -> outcome (option Config);
  svgo_optimize : string -> option Config -> outcome string;
  (** [crypto.createHash('md5').update(s).digest('hex')] *)
  md5_hex : string -> string;
  (** [path.join(a, b)], [path.dirname(p)], [path.relative(from, to)],
      [process.cwd()] *)
  path_join : string -> string -> string;
  path_dirname : string -> string;
  path_relative : string -> string -> string;
  cwd : string;
  (** [calculateFileSizeInKB(s)] of ../utils/file, as it prints *)
  calculateFileSizeInKB : string -> string
}.

Record GenerateIconFilesOptions : Type := {
  files : list string;
  inputDir : string;
  outputDir : string;
  spriteOutputDir : string;
  shouldOptimize : option bool;
  shouldHash : option bool;
  force : option bool
}.

Section Generator.

Context `{Externals}.

Import Js.

Definition generateSvgSprite (fs : list string) (dir : string) : M string :=
  emit (GenerateSvgSprite fs dir);; on_disk (fun d => assemble d fs dir).

Definition loadConfig : M (option Config) :=
  emit LoadConfig;; on_disk load_config.

Definition optimize (input : string) (config : option Config) : M string :=
  emit (Optimize input);; on_disk (fun _ => svgo_optimize input config).

Definition md5 (input : string) : M string :=
  emit (Md5 input);; ret (md5_hex input).

(** Modelled from the spec: [writeIfChanged] of ../utils/validations, the
    change-detected writer. It reads the existing content at [filepath], a
    missing file being no error; with [force] it always writes and reports
    [true]; else with a supplied hash it compares that hash with a fresh
    digest of the existing content and writes when they differ or when there
    is no prior file; else it compares the existing content (empty when
    absent) with [newContent] and writes on difference. Before writing it
    ensures the parent directory. Any other file-system failure
    propagates. The flag it resolves to is recorded in the trace. *)
Definition writeIfChanged (filepath newContent : string)
    (hash : option string) (force : option bool) : M bool :=
  let write : M bool :=
    ensureDir (path_dirname filepath);;
    writeFile filepath newContent;;
    ret true in
  let* existing :=
    catch (let* c := readFile filepath in ret (Some c))
          (fun e => match e with
                    | ENOENT => ret None
                    | _ => throw e
                    end) in
  let* changed :=
    if truthy force then write
    else
      match hash with
      | Some h =>
          match existing with
          | None => write
          | Some c =>
              let* current := md5 c in
              if String.eqb current h then ret false else write
          end
      | None =>
          if String.eqb (default EmptyString existing) newContent
          then ret false
          else write
      end in
  emit (WriteIfChanged filepath newContent hash force changed);;
  ret changed.

(** The three target paths computed on entry (lines 29-31) and the two
    computed later (lines 116 and 140). *)
Definition spriteFilepath (o : GenerateIconFilesOptions) : string :=
  path_join (spriteOutputDir o) "sprite.svg".
Definition typesDir (o : GenerateIconFilesOptions) : string :=
  path_join (outputDir o) "types".
Definition typeOutputFilepath (o : GenerateIconFilesOptions) : string :=
  path_join (typesDir o) "icon-name.d.ts".
Definition iconsOutputFilepath (o : GenerateIconFilesOptions) : string :=
  path_join (outputDir o) "icons.ts".
Definition hashOutputFilepath (o : GenerateIconFilesOptions) : string :=
  path_join (outputDir o) "hash.ts".

(** Line 42. *)
Definition iconNames (o : GenerateIconFilesOptions) : list string :=
  map iconName (files o).

(** Lines 44-49: the two halves of the staleness pre-check. *)
Definition spriteUpToDate (names : list string) (currentSprite : string) : bool :=
  forallb (fun name => includes currentSprite ("id=" +:+ name)) names.
Definition typesUpToDate (names : list string) (currentTypes : string) : bool :=
  forallb (fun name => includes currentTypes (DQ +:+ name +:+ DQ)) names.

(** Line 99. *)
Definition stringifiedIconNames (names : list string) : list string :=
  map JSON_stringify names.

(** Lines 100-102. *)
Definition typeOutputContent (names : list string) : string :=
  "export type IconName =" +:+ LF +:+
  "    " +:+ TAB +:+ "| " +:+
  replace_dq (join (LF +:+ TAB +:+ "| ") (stringifiedIconNames names)) +:+
  ";" +:+ LF +:+
  "    ".

(** Lines 117-122. *)
Definition iconsOutputContent (names : list string) : string :=
  "import { IconName } from './types/icon-name';" +:+ LF +:+
  "  " +:+ LF +:+
  "  export const icons = [" +:+ LF +:+
  "  " +:+ TAB +:+ join ("," +:+ LF +:+ TAB) (stringifiedIconNames names) +:+
  "," +:+ LF +:+
  "  ] satisfies Array<IconName>;" +:+ LF +:+
  "  ".

(** An identifier as a single-quoted literal: its JSON escapes between
    single quotes, every double quote replaced. *)
Definition single_quoted (name : string) : string :=
  "'" +:+ replace_dq (json_escape_all name) +:+ "'".

(** Line 141. *)
Definition hashFileContent (hash : option string) : string :=
  "export const hash = '" +:+ interpolate hash +:+ "';" +:+ LF.

(** Lines 78-96: what is printed once the sprite has been written. *)
Definition report_sprite (o : GenerateIconFilesOptions) (output : string)
    (hash : option string) : M unit :=
  console_log ("Generating sprite for " +:+ inputDir o);;
  for_each (fun file => console_log ("✅ " +:+ file)) (files o);;
  console_log ("File size: " +:+ calculateFileSizeInKB output +:+ " KB");;
  if truthy (shouldHash o) then
    console_log ("Generated sprite with hash " +:+ interpolate hash);;
    console_log ("Saved to " +:+
      path_relative cwd
        (replace_svg_suffix (spriteFilepath o)
           ("." +:+ interpolate hash +:+ ".svg")))
  else
    console_log ("Saved to " +:+ path_relative cwd (spriteFilepath o)).

(** Lines 66-160: digest, the four change-detected writes and the
    summary, for the final sprite content [output]. *)
Definition write_artifacts (o : GenerateIconFilesOptions) (output : string)
    : M unit :=
  let* hash :=
    if truthy (shouldHash o) then
      let* h := md5 output in ret (Some h)
    else ret None in
  let* spriteChanged :=
    writeIfChanged (spriteFilepath o) output hash (force o) in
  (if spriteChanged then report_sprite o output hash else ret tt);;
  let* typesChanged :=
    writeIfChanged (typeOutputFilepath o) (typeOutputContent (iconNames o))
      None (force o) in
  (if typesChanged then
     console_log ("Types saved to " +:+
                  path_relative cwd (typeOutputFilepath o))
   else ret tt);;
  let* iconsChanged :=
    writeIfChanged (iconsOutputFilepath o) (iconsOutputContent (iconNames o))
      None (force o) in
  (if iconsChanged then
     console_log ("Icons names saved to " +:+
                  path_relative cwd (iconsOutputFilepath o))
   else ret tt);;
  (if truthy (shouldHash o) then
     let* hashFileChanged :=
       writeIfChanged (hashOutputFilepath o) (hashFileContent hash)
         None (force o) in
     if hashFileChanged then
       console_log ("Hash file saved to " +:+
                    path_relative cwd (hashOutputFilepath o))
     else ret tt
   else ret tt);;
  if spriteChanged || typesChanged || iconsChanged then
    console_log ("Generated " +:+ pretty (length (files o)) +:+ " icons")
  else
    console_log "Icons are up to date".

(** Lines 56-160: the regeneration path. *)
Definition regenerate (o : GenerateIconFilesOptions) : M unit :=
  let* output := generateSvgSprite (files o) (inputDir o) in
  let* output :=
    if truthy (shouldOptimize o) then
      let* config := loadConfig in
      optimize output config
    else ret output in
  write_artifacts o output.

(** Lines 20-161. *)
Definition generateIconFiles (o : GenerateIconFilesOptions) : M unit :=
  ensureDir (typesDir o);;
  let* currentSprite :=
    catch (readFile (spriteFilepath o)) (fun _ => ret EmptyString) in
  let* currentTypes :=
    catch (readFile (typeOutputFilepath o)) (fun _ => ret EmptyString) in
  if spriteUpToDate (iconNames o) currentSprite
     && typesUpToDate (iconNames o) currentTypes
  then console_log "Icons are up to date"
  else regenerate o.

End Generator.

(** ** Observations on a trace *)

(** The physical writes [(path, content)] of a trace, in order. *)
Definition written (t : list event) : list (string * string) :=
  omap (fun e => match e with
                 | WriteFile p c => Some (p, c)
                 | _ => None
                 end) t.

(** The resolved change-detected writes [(filepath, changed)] of a trace. *)
Definition changes (t : list event) : list (string * bool) :=
  omap (fun e => match e with
                 | WriteIfChanged p _ _ _ b => Some (p, b)
                 | _ => None
                 end) t.

(** The resolved change-detected writes of a trace with all their
    arguments. *)
Definition calls (t : list event) : list event :=
  omap (fun e => match e with
                 | WriteIfChanged _ _ _ _ _ => Some e
                 | _ => None
                 end) t.

(** The inputs of the digests computed in a trace. *)
Definition hashed (t : list event) : list string :=
  omap (fun e => match e with
                 | Md5 s => Some s
                 | _ => None
                 end) t.

(** The console lines of a trace. *)
Definition logged (t : list event) : list string :=
  omap (fun e => match e with
                 | ConsoleLog l => Some l
                 | _ => None
                 end) t.

(** The summary of a run is its last console line. *)
Definition reports_up_to_date (t : list event) : Prop :=
  last (logged t) = Some "Icons are up to date".

Definition reports_generated (n : nat) (t : list event) : Prop :=
  last (logged t) = Some ("Generated " +:+ pretty n +:+ " icons").

(** The events of the pipeline behind the staleness pre-check: assembly,
    optimization, digest, change-detected and physical writes. *)
Definition pipeline_event (e : event) : bool :=
  match e with
  | GenerateSvgSprite _ _ | LoadConfig | Optimize _ | Md5 _
  | WriteIfChanged _ _ _ _ _ | WriteFile _ _ => true
  | _ => false
  end.

(** The events a change-detected write performs before it resolves: file
    system calls, and a digest only when a hash was supplied. *)
Definition writer_event (hash : option string) (e : event) : Prop :=
  match e with
  | ReadFile _ | EnsureDir _ | WriteFile _ _ => True
  | Md5 _ => hash <> None
  | _ => False
  end.

(** ** Relations between the world before and after a computation *)

(** Every run of [m] relates the world it starts from to the world it
    leaves, whether it returns or throws. *)
Definition respects (R : world -> world -> Prop) {A} (m : M A) : Prop :=
  forall w r w', m w = (r, w') -> R w w'.

(** [w'] comes from [w] by physical writes at [paths] only and by creating
    directories at [dirs] only: the trace is extended, every physical write
    targets one of [paths], no path outside [paths] and [dirs] changes, no
    regular file appears or changes outside [paths], and directories
    stay. *)
Definition footprint (paths dirs : list string) (w w' : world) : Prop :=
  (exists t, trace w' = trace w ++ t /\
             Forall (fun pc => pc.1 ∈ paths) (written t)) /\
  (forall q, q ∉ paths -> q ∉ dirs -> disk w' !! q = disk w !! q) /\
  (forall q c, q ∉ paths ->
     disk w' !! q = Some (File c) -> disk w !! q = Some (File c)) /\
  (forall q, disk w !! q = Some Dir -> disk w' !! q = Some Dir).

(** [w'] comes from [w] by physical writes, attempted or performed, that
    are, path and content, among [l], each at most once and in the order of
    [l]. *)
Definition writes_within (l : list (string * string)) (w w' : world) : Prop :=
  exists t, trace w' = trace w ++ t /\ written t `sublist_of` l.

(** Outside [paths], the disk of [w'] is the disk of [w] but for missing
    paths among [dirs] that have become directories. *)
Definition creates_only (paths dirs : list string) (w w' : world) : Prop :=
  forall q, q ∉ paths ->
    disk w' !! q = disk w !! q \/
    (disk w !! q = None /\ disk w' !! q = Some Dir /\ q ∈ dirs).

(** An event that is not the computation of a digest. *)
Definition no_digest (e : event) : Prop :=
  match e with
  | Md5 _ => False
  | _ => True
  end.

(** An event that is no call of the optimizer library: neither the loading
    of its configuration nor an optimization. *)
Definition no_svgo (e : event) : Prop :=
  match e with
  | LoadConfig | Optimize _ => False
  | _ => True
  end.

(** An event that is no resolved change-detected write. *)
Definition no_call (e : event) : Prop :=
  match e with
  | WriteIfChanged _ _ _ _ _ => False
  | _ => True
  end.

(** [w'] comes from [w] by recording events that satisfy [P]. *)
Definition emits_only (P : event -> Prop) (w w' : world) : Prop :=
  exists t, trace w' = trace w ++ t /\ Forall P t.

Section Layout.

Context `{Externals}.

(** The four artifact paths. *)
Definition artifact_paths (o : GenerateIconFilesOptions) : list string :=
  [spriteFilepath o; typeOutputFilepath o; iconsOutputFilepath o;
   hashOutputFilepath o].

(** The directories the run ensures. *)
Definition ensured_dirs (o : GenerateIconFilesOptions) : list string :=
  typesDir o :: map path_dirname (artifact_paths o).

(** The directories the run may create: the ones it ensures and their
    ancestors. *)
Definition artifact_dirs (o : GenerateIconFilesOptions) : list string :=
  ensured_dirs o ++ concat (map ancestors (ensured_dirs o)).

(** The artifact paths are four different paths and none of them is one of
    the directories the run ensures or an ancestor of one: what [path.join]
    and [path.dirname] give for the four different base names. *)
Definition layout_ok (o : GenerateIconFilesOptions) : Prop :=
  NoDup (artifact_paths o) /\
  Forall (fun p => p ∉ artifact_dirs o) (artifact_paths o).

(** [path.join] keeps the base name it is given last: each artifact path
    ends with its base name. *)
Definition joined_names (o : GenerateIconFilesOptions) : Prop :=
  Js.ends_with (spriteFilepath o) "sprite.svg" = true /\
  Js.ends_with (typeOutputFilepath o) "icon-name.d.ts" = true /\
  Js.ends_with (iconsOutputFilepath o) "icons.ts" = true /\
  Js.ends_with (hashOutputFilepath o) "hash.ts" = true.

(** Two disks that differ at most on the artifact paths and directories. *)
Definition same_sources (o : GenerateIconFilesOptions)
    (d d' : gmap string node) : Prop :=
  forall p, p ∉ artifact_paths o -> p ∉ artifact_dirs o -> d' !! p = d !! p.

(** The source files and the optimizer configuration are not among the
    artifacts: assembly and configuration loading give the same result on
    every disk that differs from [d] only on the artifacts. *)
Definition sources_apart (o : GenerateIconFilesOptions)
    (d : gmap string node) : Prop :=
  forall d', same_sources o d d' ->
    assemble d' (files o) (inputDir o) = assemble d (files o) (inputDir o) /\
    load_config d' = load_config d.

(** The decision of [writeIfChanged], once the existing content is
    known. *)
Definition needs_write (existing : option string) (c : string)
    (hash : option string) (force : option bool) : bool :=
  if Js.truthy force then true
  else
    match hash with
    | Some h =>
        match existing with
        | None => true
        | Some c0 => negb (String.eqb (md5_hex c0) h)
        end
    | None => negb (String.eqb (default EmptyString existing) c)
    end.

(** The digest [writeIfChanged] computes of the existing content. *)
Definition comparison_digest (existing : option string)
    (hash : option string) (force : option bool) : list event :=
  if Js.truthy force then []
  else
    match hash, existing with
    | Some _, Some c0 => [Md5 c0]
    | _, _ => []
    end.

(** The disk needs no write of [c] at [p]: the existing content can be
    read and the comparison of [writeIfChanged] accepts it. *)
Definition settled (d : gmap string node) (p c : string)
    (hash : option string) : Prop :=
  exists existing,
    read_existing p d = Returned existing /\
    needs_write existing c hash None = false.

(** The final sprite content of a run on disk [d]: the assembled document,
    passed through the optimizer when [shouldOptimize] is set. *)
Definition final_sprite (o : GenerateIconFilesOptions)
    (d : gmap string node) : outcome string :=
  match assemble d (files o) (inputDir o) with
  | Thrown e => Thrown e
  | Returned raw =>
      if Js.truthy (shouldOptimize o) then
        match load_config d with
        | Thrown e => Thrown e
        | Returned config => svgo_optimize raw config
        end
      else Returned raw
  end.

(** The digest handed to the sprite write and to the hash module. *)
Definition run_hash (o : GenerateIconFilesOptions) (output : string)
    : option string :=
  if Js.truthy (shouldHash o) then Some (md5_hex output) else None.

(** The artifacts of a run whose final sprite content is [output], path
    and content, in the order in which they are written. *)
Definition artifacts (o : GenerateIconFilesOptions) (output : string)
    : list (string * string) :=
  [(spriteFilepath o, output);
   (typeOutputFilepath o, typeOutputContent (iconNames o));
   (iconsOutputFilepath o, iconsOutputContent (iconNames o))] ++
  (if Js.truthy (shouldHash o)
   then [(hashOutputFilepath o, hashFileContent (run_hash o output))]
   else []).

(** The summary line of lines 156-160. *)
Definition summary (o : GenerateIconFilesOptions) (changed : bool) : event :=
  ConsoleLog (if changed
              then "Generated " +:+ pretty (length (files o)) +:+ " icons"
              else "Icons are up to date").

(** The name the report gives to the sprite when hashing (lines 88-91). *)
Definition hashedSpritePath (o : GenerateIconFilesOptions) (output : string)
    : string :=
  Js.replace_svg_suffix (spriteFilepath o)
    ("." +:+ Js.interpolate (run_hash o output) +:+ ".svg").

(** The console lines of [report_sprite]. *)
Definition sprite_report (o : GenerateIconFilesOptions) (output : string)
    : list event :=
  ConsoleLog ("Generating sprite for " +:+ inputDir o) ::
  map (fun file => ConsoleLog ("✅ " +:+ file)) (files o) ++
  ConsoleLog ("File size: " +:+ calculateFileSizeInKB output +:+ " KB") ::
  (if Js.truthy (shouldHash o) then
     [ConsoleLog ("Generated sprite with hash " +:+
                  Js.interpolate (run_hash o output));
      ConsoleLog ("Saved to " +:+
                  path_relative cwd (hashedSpritePath o output))]
   else
     [ConsoleLog ("Saved to " +:+ path_relative cwd (spriteFilepath o))]).

Definition types_saved (o : GenerateIconFilesOptions) : event :=
  ConsoleLog ("Types saved to " +:+ path_relative cwd (typeOutputFilepath o)).
Definition icons_saved (o : GenerateIconFilesOptions) : event :=
  ConsoleLog ("Icons names saved to " +:+
              path_relative cwd (iconsOutputFilepath o)).
Definition hash_saved (o : GenerateIconFilesOptions) : event :=
  ConsoleLog ("Hash file saved to " +:+
              path_relative cwd (hashOutputFilepath o)).

(** The events of a forced write of [c] at [p] before it resolves. *)
Definition forced_write (p c : string) : list event :=
  [ReadFile p; EnsureDir (path_dirname p); WriteFile p c].

(** The events of the assembly and of the optional optimization of the
    assembled document [raw]. *)
Definition assembly_events (o : GenerateIconFilesOptions) (raw : string)
    : list event :=
  GenerateSvgSprite (files o) (inputDir o) ::
  (if Js.truthy (shouldOptimize o) then [LoadConfig; Optimize raw] else []).

(** The events of a returning [write_artifacts]: [b1] to [b4] are the
    flags the four change-detected writes resolve to and [t1] to [t4] the
    events each of them performs before it resolves. *)
Definition artifacts_trace (o : GenerateIconFilesOptions) (output : string)
    (b1 b2 b3 b4 : bool) (t1 t2 t3 t4 : list event) : list event :=
  (if Js.truthy (shouldHash o) then [Md5 output] else []) ++
  t1 ++
  [WriteIfChanged (spriteFilepath o) output (run_hash o output) (force o) b1]
  ++ (if b1 then sprite_report o output else []) ++
  t2 ++
  [WriteIfChanged (typeOutputFilepath o) (typeOutputContent (iconNames o))
     None (force o) b2]
  ++ (if b2 then [types_saved o] else []) ++
  t3 ++
  [WriteIfChanged (iconsOutputFilepath o) (iconsOutputContent (iconNames o))
     None (force o) b3]
  ++ (if b3 then [icons_saved o] else []) ++
  (if Js.truthy (shouldHash o) then
     t4 ++
     [WriteIfChanged (hashOutputFilepath o)
        (hashFileContent (run_hash o output)) None (force o) b4]
     ++ (if b4 then [hash_saved o] else [])
   else []) ++
  [summary o (b1 || b2 || b3)].

(** The lines of lines 79-95, printed when the sprite write reports a
    change. *)
Definition sprite_lines (o : GenerateIconFilesOptions) (output : string)
    : list string :=
  ("Generating sprite for " +:+ inputDir o) ::
  map (fun file => "✅ " +:+ file) (files o) ++
  ("File size: " +:+ calculateFileSizeInKB output +:+ " KB") ::
  (if Js.truthy (shouldHash o) then
     ["Generated sprite with hash " +:+ md5_hex output;
      "Saved to " +:+
        path_relative cwd
          (Js.replace_svg_suffix (spriteFilepath o)
             ("." +:+ md5_hex output +:+ ".svg"))]
   else
     ["Saved to " +:+ path_relative cwd (spriteFilepath o)]).

(** The artifact paths of a run without [shouldHash], and the directories
    such a run may create. *)
Definition plain_paths (o : GenerateIconFilesOptions) : list string :=
  [spriteFilepath o; typeOutputFilepath o; iconsOutputFilepath o].
Definition plain_dirs (o : GenerateIconFilesOptions) : list string :=
  (typesDir o :: map path_dirname (plain_paths o)) ++
  concat (map ancestors (typesDir o :: map path_dirname (plain_paths o))).

(** [w'] comes from [w] by change-detected writes at the paths [S]: every
    write that resolved in between targets one of [S] and its path is as
    its flag says, holding the new content when the flag is [true] and
    what it held in [w] when the flag is [false]; the artifact paths
    outside [S] are as they were. *)
Definition resolved_at (o : GenerateIconFilesOptions) (S : list string)
    (w w' : world) : Prop :=
  exists t,
    trace w' = trace w ++ t /\
    (forall p c h f (b : bool),
       WriteIfChanged p c h f b ∈ t ->
       p ∈ S /\
       if b then disk w' !! p = Some (File c)
       else disk w' !! p = disk w !! p) /\
    (forall q, q ∈ artifact_paths o -> q ∉ S -> disk w' !! q = disk w !! q).

(** The events of a run that the staleness pre-check cuts short. *)
Definition short_trace (o : GenerateIconFilesOptions) : list event :=
  [EnsureDir (typesDir o); ReadFile (spriteFilepath o);
   ReadFile (typeOutputFilepath o); ConsoleLog "Icons are up to date"].

(** The events of a run up to the staleness pre-check. *)
Definition check_trace (o : GenerateIconFilesOptions) : list event :=
  [EnsureDir (typesDir o); ReadFile (spriteFilepath o);
   ReadFile (typeOutputFilepath o)].

(** Every file of the run is listed by the artifacts on the disk [d]: its
    identifier occurs behind [id=] in the text of the sprite and between
    double quotes in the text of the type declarations, a text that cannot
    be read counting as empty. *)
Definition listed_in_artifacts (o : GenerateIconFilesOptions)
    (d : gmap string node) : Prop :=
  Forall (fun file =>
            Js.occurs_in ("id=" +:+ iconName file)
              (text_of (read_node (spriteFilepath o) d)) /\
            Js.occurs_in (Js.DQ +:+ iconName file +:+ Js.DQ)
              (text_of (read_node (typeOutputFilepath o) d)))
         (files o).

End Layout.

(** ** A sample environment

    One concrete choice of collaborators, used to run the generator on
    concrete inputs. *)

Module Sample.

Import Js.

(** The part of a path before its last slash, if it has one. *)
Fixpoint parent (s : string) : option string :=
  match s with
  | EmptyString => None
  | String c s' =>
      match parent s' with
      | Some d => Some (String c d)
      | None => if Ascii.eqb c "/" then Some EmptyString else None
      end
  end.

(** A small stand-in for the digest. *)
Fixpoint checksum (s : string) (acc : N) : N :=
  match s with
  | EmptyString => acc
  | String c s' => checksum s' ((acc * 31 + N_of_ascii c) mod 65521)%N
  end.

(** One [symbol] per source file, carrying the identifier of the file. *)
Fixpoint symbols (d : gmap string node) (dir : string) (fs : list string)
    : outcome string :=
  match fs with
  | [] => Returned EmptyString
  | f :: fs' =>
      match read_node (dir +:+ "/" +:+ f) d with
      | Thrown e => Thrown e
      | Returned c =>
          match symbols d dir fs' with
          | Thrown e => Thrown e
          | Returned r =>
              Returned ("<symbol id=" +:+ DQ +:+
                        replace_svg_suffix f EmptyString +:+ DQ +:+ ">" +:+
                        c +:+ "</symbol>" +:+ r)
          end
      end
  end.

#[local] Instance externals : Externals := {|
  iconName f := replace_svg_suffix f EmptyString;
  assemble d fs dir :=
    match symbols d dir fs with
    | Returned r => Returned ("<svg>" +:+ r +:+ "</svg>")
    | Thrown e => Thrown e
    end;
  Config := unit;
  load_config _ := Returned None;
  svgo_optimize s _ := Returned s;
  md5_hex s := pretty (checksum s 7);
  path_join a b := a +:+ "/" +:+ b;
  path_dirname p := default "." (parent p);
  path_relative _ p := p;
  cwd := "/";
  calculateFileSizeInKB s := pretty (String.length s / 1024)
|}.

Definition options (fs : list string) (hash force : option bool)
    : GenerateIconFilesOptions := {|
  files := fs;
  inputDir := "src";
  outputDir := "out";
  spriteOutputDir := "public";
  shouldOptimize := None;
  shouldHash := hash;
  force := force
|}.

(** A project with one source icon and no artifact yet. *)
Definition fresh : world :=
  World {[ "src/home.svg" := File "<path/>" ]} [].

Definition plain : GenerateIconFilesOptions :=
  options ["home.svg"] None None.
Definition hashing : GenerateIconFilesOptions :=
  options ["home.svg"] (Some true) None.
Definition forcing : GenerateIconFilesOptions :=
  options ["home.svg"] (Some true) (Some true).

(** The world in which a run with options [o] leaves [fresh]. *)
Definition first_run (o : GenerateIconFilesOptions) : world :=
  snd (generateIconFiles o fresh).

(** The sprite assembled for [fresh]. *)
Definition sprite : string :=
  "<svg><symbol id=" +:+ DQ +:+ "home" +:+ DQ +:+ "><path/></symbol></svg>".

(** The project [fresh] after one run of the generator with options [o],
    with a new trace. *)
Definition generated (o : GenerateIconFilesOptions) : world :=
  World (disk (snd (generateIconFiles o fresh))) [].

(** A project whose sprite cannot be read. *)
Definition unreadable : world :=
  World {[ "src/home.svg" := File "<path/>";
           "public/sprite.svg" := Faulty EACCES ]} [].

(** A project whose artifacts list the icon: the sprite carries the marker
    the pre-check looks for and the type declarations are the ones the
    generator writes. *)
Definition listed : world :=
  World {[ "src/home.svg" := File "<path/>";
           "public/sprite.svg" := File "<svg><symbol id=home><path/></symbol></svg>";
           "out/types" := Dir;
           "out/types/icon-name.d.ts" := File (typeOutputContent ["home"]) ]} [].

(** A project with two source icons whose artifacts were written by hand:
    the sprite carries the two markers the pre-check looks for and the type
    declarations hold the two identifiers between double quotes. *)
Definition handwritten : world :=
  World {[ "src/home.svg" := File "<path/>";
           "src/about.svg" := File "<circle/>";
           "public/sprite.svg" :=
             File "<svg><symbol id=home/><symbol id=about/></svg>";
           "out/types" := Dir;
           "out/types/icon-name.d.ts" :=
             File ("export type IconName = " +:+ DQ +:+ "home" +:+ DQ +:+
                   " | " +:+ DQ +:+ "about" +:+ DQ +:+ ";") ]} [].

Definition both : GenerateIconFilesOptions :=
  options ["home.svg"; "about.svg"] None None.

(** A project in which a regular file is where the types directory
    belongs. *)
Definition blocked : world :=
  World {[ "out" := Dir; "out/types" := File "not a directory" ]} [].

(** The project generated from one source icon, to which a second source
    icon has been added since. *)
Definition extended : world :=
  World (<["src/about.svg" := File "<circle/>"]> (disk (generated plain))) [].

End Sample.

(** ** The monad and the file-system calls *)

Lemma bind_Returned {A B} (m : M A) (k : A -> M B) w b w' :
  bind m k w = (Returned b, w') ->
  exists a w1, m w = (Returned a, w1) /\ k a w1 = (Returned b, w').
Proof.
  unfold bind. destruct (m w) as [[a|e] w1]; [eauto | discriminate].
Qed.

Lemma with_dirs_app ds ds' d :
  with_dirs (ds ++ ds') d = with_dirs ds' (with_dirs ds d).
Proof. apply fold_left_app. Qed.

Lemma with_dirs_in ds d q : q ∈ ds -> with_dirs ds d !! q = Some Dir.
Proof.
  induction ds as [|x ds IH] using rev_ind; intros Hq.
  - apply elem_of_nil in Hq. destruct Hq.
  - rewrite with_dirs_app. simpl. destruct (decide (x = q)) as [-> | Hne].
    + apply lookup_insert_eq.
    + rewrite lookup_insert_ne by exact Hne. apply IH.
      apply elem_of_app in Hq as [Hq | Hq]; [exact Hq|].
      apply list_elem_of_singleton in Hq. congruence.
Qed.

Lemma with_dirs_out ds d q : q ∉ ds -> with_dirs ds d !! q = d !! q.
Proof.
  induction ds as [|x ds IH] using rev_ind; intros Hq; [reflexivity|].
  rewrite with_dirs_app. simpl.
  rewrite not_elem_of_app, not_elem_of_cons in Hq. destruct Hq as [Hq [Hne _]].
  rewrite lookup_insert_ne by congruence. apply IH, Hq.
Qed.

(** The directories to make are missing and are the path or ancestors of
    it; a missing path is among them. *)
Lemma missing_dirs_Returned f p up d ds :
  missing_dirs f p up d = Returned ds ->
  (forall q, q ∈ ds -> d !! q = None /\ q ∈ p :: up) /\
  (d !! p = None -> p ∈ ds) /\
  (d !! p = Some Dir -> ds = []).
Proof.
  revert f p ds. induction up as [|u up IH]; intros f p ds; simpl.
  - destruct (d !! p) as [[c| |e]|] eqn:E; try discriminate.
    + intros [= <-]. split; [|split; [discriminate | reflexivity]].
      intros q Hq. apply elem_of_nil in Hq. destruct Hq.
    + intros [= <-]. split; [|split; [|discriminate]].
      * intros q Hq. apply list_elem_of_singleton in Hq as ->.
        split; [exact E | apply list_elem_of_here].
      * intros _. apply list_elem_of_here.
  - destruct (d !! p) as [[c| |e]|] eqn:E; try discriminate.
    + intros [= <-]. split; [|split; [discriminate | reflexivity]].
      intros q Hq. apply elem_of_nil in Hq. destruct Hq.
    + destruct (missing_dirs ENOTDIR u up d) as [ds'|e] eqn:Em;
        [|discriminate].
      intros [= <-]. destruct (IH _ _ _ Em) as (Hin & _).
      split; [|split; [|discriminate]].
      * intros q Hq. apply elem_of_app in Hq as [Hq | Hq].
        -- destruct (Hin q Hq) as [Hn Hu].
           split; [exact Hn | apply list_elem_of_further, Hu].
        -- apply list_elem_of_singleton in Hq as ->.
           split; [exact E | apply list_elem_of_here].
      * intros _. apply elem_of_app. right. apply list_elem_of_here.
Qed.

Lemma make_dirs_run ds w :
  for_each (fun q => set_node q Dir) ds w =
  (Returned tt, World (with_dirs ds (disk w)) (trace w)).
Proof.
  revert w. induction ds as [|q ds IH]; intros [d t]; [reflexivity|].
  simpl. unfold bind at 1, set_node at 1. simpl. rewrite IH. reflexivity.
Qed.

Lemma ensureDir_missing p w :
  ensureDir p w =
  match missing_dirs EEXIST p (ancestors p) (disk w) with
  | Returned ds =>
      (Returned tt, World (with_dirs ds (disk w)) (trace w ++ [EnsureDir p]))
  | Thrown e => (Thrown e, World (disk w) (trace w ++ [EnsureDir p]))
  end.
Proof.
  unfold ensureDir, bind, emit, on_disk. simpl.
  destruct (missing_dirs EEXIST p (ancestors p) (disk w)) as [ds|e];
    [|reflexivity].
  rewrite make_dirs_run. reflexivity.
Qed.

Lemma ensureDir_run p w :
  ensureDir p w =
  match disk w !! p with
  | None =>
      match missing_dirs EEXIST p (ancestors p) (disk w) with
      | Returned ds =>
          (Returned tt,
           World (with_dirs ds (disk w)) (trace w ++ [EnsureDir p]))
      | Thrown e => (Thrown e, World (disk w) (trace w ++ [EnsureDir p]))
      end
  | Some Dir => (Returned tt, World (disk w) (trace w ++ [EnsureDir p]))
  | Some (File _) => (Thrown EEXIST, World (disk w) (trace w ++ [EnsureDir p]))
  | Some (Faulty e) => (Thrown e, World (disk w) (trace w ++ [EnsureDir p]))
  end.
Proof.
  rewrite ensureDir_missing.
  destruct (disk w !! p) as [[c| |e]|] eqn:E; [| | |reflexivity];
    destruct (ancestors p); simpl; rewrite E; reflexivity.
Qed.

(** What [ensureDir] does however it ends: it records itself; the only
    change on the disk is that missing paths among the directory and its
    ancestors become directories; after it has returned the directory is
    there, and after it has rejected the disk is as it was. *)
Lemma ensureDir_effect p w r w1 :
  ensureDir p w = (r, w1) ->
  trace w1 = trace w ++ [EnsureDir p] /\
  (forall q, disk w1 !! q = disk w !! q \/
             (disk w !! q = None /\ disk w1 !! q = Some Dir /\
              q ∈ p :: ancestors p)) /\
  (r = Returned tt -> disk w1 !! p = Some Dir) /\
  (forall e, r = Thrown e -> disk w1 = disk w).
Proof.
  rewrite ensureDir_missing.
  destruct (missing_dirs EEXIST p (ancestors p) (disk w)) as [ds|e] eqn:Em;
    intros [= <- <-]; cbn [trace disk].
  - destruct (missing_dirs_Returned _ _ _ _ _ Em) as (Hin & Hp & Hd).
    split; [reflexivity | split; [|split; [|discriminate]]].
    + intros q. destruct (decide (q ∈ ds)) as [Hq | Hq].
      * right. destruct (Hin q Hq) as [Hn Hu].
        split; [exact Hn | split; [apply with_dirs_in, Hq | exact Hu]].
      * left. apply with_dirs_out, Hq.
    + intros _. destruct (disk w !! p) as [[c| |e]|] eqn:E.
      * destruct (ancestors p); simpl in Em; rewrite E in Em; discriminate.
      * rewrite (Hd eq_refl). exact E.
      * destruct (ancestors p); simpl in Em; rewrite E in Em; discriminate.
      * apply with_dirs_in, Hp. reflexivity.
  - split; [reflexivity | split; [auto | split; [discriminate | auto]]].
Qed.

Lemma writeFile_run p c w :
  writeFile p c w =
  match disk w !! p with
  | None | Some (File _) =>
      (Returned tt, World (<[p := File c]> (disk w)) (trace w ++ [WriteFile p c]))
  | Some Dir => (Thrown EISDIR, World (disk w) (trace w ++ [WriteFile p c]))
  | Some (Faulty e) => (Thrown e, World (disk w) (trace w ++ [WriteFile p c]))
  end.
Proof.
  unfold writeFile, bind, emit, on_disk, set_node, ret, throw; simpl.
  destruct (disk w !! p) as [[c0| |e]|]; reflexivity.
Qed.

Lemma readFile_run p w :
  readFile p w = (read_node p (disk w), World (disk w) (trace w ++ [ReadFile p])).
Proof. reflexivity. Qed.

(** The guarded read of lines 35-40: whatever the read rejects with, the
    text is empty and nothing is thrown. *)
Lemma read_or_empty p w :
  catch (readFile p) (fun _ => ret EmptyString) w =
  (Returned (text_of (read_node p (disk w))),
   World (disk w) (trace w ++ [ReadFile p])).
Proof.
  unfold catch. rewrite readFile_run.
  destruct (read_node p (disk w)); reflexivity.
Qed.

Section Run.

Context `{Externals}.

Import Js.

(** [generateIconFiles] unfolded up to its branch on the staleness
    pre-check. *)
Lemma generateIconFiles_run o w :
  generateIconFiles o w =
  match ensureDir (typesDir o) w with
  | (Thrown e, w1) => (Thrown e, w1)
  | (Returned _, w1) =>
      let reads := [ReadFile (spriteFilepath o); ReadFile (typeOutputFilepath o)] in
      if spriteUpToDate (iconNames o)
           (text_of (read_node (spriteFilepath o) (disk w1)))
         && typesUpToDate (iconNames o)
              (text_of (read_node (typeOutputFilepath o) (disk w1)))
      then (Returned tt,
            World (disk w1)
              (trace w1 ++ reads ++ [ConsoleLog "Icons are up to date"]))
      else regenerate o (World (disk w1) (trace w1 ++ reads))
  end.
Proof.
  unfold generateIconFiles. unfold bind at 1.
  destruct (ensureDir (typesDir o) w) as [[[]|e] w1]; [|reflexivity].
  unfold bind at 1. rewrite read_or_empty.
  unfold bind at 1. rewrite read_or_empty. simpl.
  destruct (_ && _).
  - unfold console_log, emit; simpl. rewrite <- !app_assoc. reflexivity.
  - rewrite <- app_assoc. reflexivity.
Qed.

End Run.

(** ** The staleness pre-check *)

Section Staleness.

Context `{Externals}.

Import Js.

Lemma has_char_app c a b :
  has_char c (a +:+ b) = has_char c a || has_char c b.
Proof.
  induction a as [|x a IH]; simpl; [reflexivity|].
  rewrite IH. apply orb_assoc.
Qed.

Lemma starts_with_has_char s c t :
  starts_with s (String c t) = true -> has_char c s = true.
Proof.
  destruct s as [|a s]; simpl; [discriminate|].
  intros [Hc _]%andb_true_iff. rewrite Hc. reflexivity.
Qed.

(** A text that includes [t] has the first character of [t]. *)
Lemma includes_has_char s c t :
  includes s (String c t) = true -> has_char c s = true.
Proof.
  induction s as [|a s IH]; simpl.
  - discriminate.
  - intros [[Hc _]%andb_true_iff | Hi]%orb_true_iff.
    + rewrite Hc. reflexivity.
    + rewrite (IH Hi). apply orb_true_r.
Qed.

Lemma replace_dq_no_dq s : has_char "034" (replace_dq s) = false.
Proof.
  induction s as [|a s IH]; simpl; [reflexivity|].
  rewrite IH, orb_false_r.
  destruct (Ascii.eqb a "034") eqn:E; [reflexivity | exact E].
Qed.

(** The generated type declarations hold no double quote. *)
Lemma typeOutputContent_no_dq names :
  has_char "034" (typeOutputContent names) = false.
Proof.
  unfold typeOutputContent.
  rewrite !has_char_app, replace_dq_no_dq. reflexivity.
Qed.

Lemma spriteUpToDate_empty_text names :
  names <> [] -> spriteUpToDate names EmptyString = false.
Proof. destruct names; [congruence | reflexivity]. Qed.

Lemma typesUpToDate_empty_text names :
  names <> [] -> typesUpToDate names EmptyString = false.
Proof. destruct names; [congruence | reflexivity]. Qed.

(** A text without double quote lists no identifier for the pre-check. *)
Lemma typesUpToDate_no_dq names text :
  names <> [] -> has_char "034" text = false ->
  typesUpToDate names text = false.
Proof.
  intros Hne Hno. destruct names as [|n names]; [congruence|].
  simpl. apply andb_false_iff. left.
  destruct (includes text _) eqn:E; [|reflexivity].
  apply includes_has_char in E. congruence.
Qed.

(** The pre-check never accepts the type declarations that the generator
    itself writes. *)
Lemma typesUpToDate_own_output names names' :
  names <> [] -> typesUpToDate names (typeOutputContent names') = false.
Proof.
  intros Hne. apply typesUpToDate_no_dq; [exact Hne|].
  apply typeOutputContent_no_dq.
Qed.

Lemma iconNames_nonempty o : files o <> [] -> iconNames o <> [].
Proof. unfold iconNames. destruct (files o); [congruence | discriminate]. Qed.

(** With a text that is empty, the pre-check of a non-empty list fails and
    the run goes on with the regeneration. *)
Lemma regenerates_on_empty_text o w w1 :
  files o <> [] ->
  ensureDir (typesDir o) w = (Returned tt, w1) ->
  text_of (read_node (spriteFilepath o) (disk w1)) = EmptyString \/
  text_of (read_node (typeOutputFilepath o) (disk w1)) = EmptyString ->
  generateIconFiles o w =
  regenerate o
    (World (disk w1)
       (trace w1 ++
        [ReadFile (spriteFilepath o); ReadFile (typeOutputFilepath o)])).
Proof.
  intros Hne He Htext. rewrite generateIconFiles_run, He. cbv zeta.
  apply iconNames_nonempty in Hne.
  destruct Htext as [-> | ->].
  - rewrite spriteUpToDate_empty_text by exact Hne. reflexivity.
  - rewrite typesUpToDate_empty_text by exact Hne.
    rewrite andb_false_r. reflexivity.
Qed.

(** When both halves of the pre-check hold, the run stops after its two
    reads with the up-to-date report. *)
Lemma short_circuit o w w1 :
  ensureDir (typesDir o) w = (Returned tt, w1) ->
  spriteUpToDate (iconNames o)
    (text_of (read_node (spriteFilepath o) (disk w1))) = true ->
  typesUpToDate (iconNames o)
    (text_of (read_node (typeOutputFilepath o) (disk w1))) = true ->
  generateIconFiles o w =
  (Returned tt,
   World (disk w1)
     (trace w1 ++
      [ReadFile (spriteFilepath o); ReadFile (typeOutputFilepath o);
       ConsoleLog "Icons are up to date"])).
Proof.
  intros He Hs Ht. rewrite generateIconFiles_run, He. cbv zeta.
  rewrite Hs, Ht. reflexivity.
Qed.

Lemma ensureDir_trace p w w1 :
  ensureDir p w = (Returned tt, w1) -> trace w1 = trace w ++ [EnsureDir p].
Proof. intros He. apply (ensureDir_effect _ _ _ _ He). Qed.

Lemma ensureDir_disk p w w1 :
  ensureDir p w = (Returned tt, w1) ->
  disk w1 !! p = Some Dir /\
  forall q, q <> p -> q ∉ ancestors p -> disk w1 !! q = disk w !! q.
Proof.
  intros He. destruct (ensureDir_effect _ _ _ _ He) as (_ & Hm & Hd & _).
  split; [apply Hd; reflexivity|].
  intros q Hq Ha. destruct (Hm q) as [Heq | (_ & _ & Hin)]; [exact Heq|].
  apply elem_of_cons in Hin as [-> | Hin]; contradiction.
Qed.

(** C10 (as amended): with an empty [files] list both halves of the
    pre-check hold vacuously: whatever the flags and whatever the
    artifacts on disk hold, once the initial [ensureDir] of the types
    directory has returned the run reads the two artifacts, reports up to
    date and returns; it runs nothing of the pipeline (no assembly,
    optimization, digest or write). The disk it leaves is the one the
    initial [ensureDir] left: what was on the disk is as it was, and the
    only paths that are new are directories, the types directory or
    ancestors of it that were missing. *)
Theorem empty_files_up_to_date o w w1 :
  files o = [] ->
  ensureDir (typesDir o) w = (Returned tt, w1) ->
  let t := [EnsureDir (typesDir o); ReadFile (spriteFilepath o);
            ReadFile (typeOutputFilepath o);
            ConsoleLog "Icons are up to date"] in
  generateIconFiles o w = (Returned tt, World (disk w1) (trace w ++ t)) /\
  existsb pipeline_event t = false /\
  written t = [] /\
  reports_up_to_date t /\
  disk w1 !! typesDir o = Some Dir /\
  forall p,
    disk w1 !! p = disk w !! p \/
    (disk w !! p = None /\ disk w1 !! p = Some Dir /\
     p ∈ typesDir o :: ancestors (typesDir o)).
Proof.
  intros Hfiles He t. split; [|split; [|split; [|split; [|split]]]];
    try reflexivity.
  - rewrite (short_circuit o w w1 He).
    + rewrite (ensureDir_trace _ _ _ He), <- app_assoc. reflexivity.
    + unfold iconNames. rewrite Hfiles. reflexivity.
    + unfold iconNames. rewrite Hfiles. reflexivity.
  - apply (ensureDir_effect _ _ _ _ He). reflexivity.
  - apply (ensureDir_effect _ _ _ _ He).
Qed.

(** C8: a sprite or a type-declaration file that is missing on disk makes
    its guarded read resolve to the empty text instead of rejecting; with
    a non-empty [files] list the staleness pre-check then fails and the
    run, past its two reads, goes on with the regeneration. *)
Theorem missing_artifact_triggers_regeneration o w w1 :
  files o <> [] ->
  ensureDir (typesDir o) w = (Returned tt, w1) ->
  disk w !! spriteFilepath o = None \/
  disk w !! typeOutputFilepath o = None ->
  (disk w !! spriteFilepath o = None ->
   text_of (read_node (spriteFilepath o) (disk w1)) = EmptyString) /\
  (disk w !! typeOutputFilepath o = None ->
   text_of (read_node (typeOutputFilepath o) (disk w1)) = EmptyString) /\
  generateIconFiles o w =
  regenerate o
    (World (disk w1)
       (trace w ++
        [EnsureDir (typesDir o); ReadFile (spriteFilepath o);
         ReadFile (typeOutputFilepath o)])).
Proof.
  intros Hne He Hmiss.
  assert (Hread : forall p, disk w !! p = None ->
            text_of (read_node p (disk w1)) = EmptyString).
  { intros p Hp. destruct (ensureDir_effect _ _ _ _ He) as (_ & Hm & _).
    unfold read_node. destruct (Hm p) as [Heq | (_ & Hd & _)].
    - rewrite Heq, Hp. reflexivity.
    - rewrite Hd. reflexivity. }
  split; [apply Hread | split; [apply Hread |]].
  rewrite (regenerates_on_empty_text o w w1 Hne He).
  - rewrite (ensureDir_trace _ _ _ He), <- app_assoc. reflexivity.
  - destruct Hmiss as [Hm | Hm]; [left | right]; apply Hread; exact Hm.
Qed.

(** C9: the guarded reads swallow every rejection, whatever the error:
    when reading the sprite or the type declarations rejects with any
    error [e] (a missing file, a permission or an I/O error), the text is
    taken as empty, nothing is thrown by the read, and with a non-empty
    [files] list the run goes on with the regeneration. *)
Theorem read_failures_are_swallowed o w w1 e :
  files o <> [] ->
  ensureDir (typesDir o) w = (Returned tt, w1) ->
  read_node (spriteFilepath o) (disk w1) = Thrown e \/
  read_node (typeOutputFilepath o) (disk w1) = Thrown e ->
  (forall p w2, read_node p (disk w2) = Thrown e ->
     catch (readFile p) (fun _ => ret EmptyString) w2 =
     (Returned EmptyString, World (disk w2) (trace w2 ++ [ReadFile p]))) /\
  generateIconFiles o w =
  regenerate o
    (World (disk w1)
       (trace w ++
        [EnsureDir (typesDir o); ReadFile (spriteFilepath o);
         ReadFile (typeOutputFilepath o)])).
Proof.
  intros Hne He Hthrown. split.
  - intros p w2 Hp. rewrite read_or_empty, Hp. reflexivity.
  - rewrite (regenerates_on_empty_text o w w1 Hne He).
    + rewrite (ensureDir_trace _ _ _ He), <- app_assoc. reflexivity.
    + destruct Hthrown as [-> | ->]; [left | right]; reflexivity.
Qed.

End Staleness.

(** ** The pre-check on concrete projects *)

Section StalenessExamples.

Import Js.

#[local] Existing Instance Sample.externals.

Lemma empty_files_up_to_date_witness :
  files (Sample.options [] (Some true) (Some true)) = [] /\
  ensureDir (typesDir (Sample.options [] (Some true) (Some true)))
    Sample.fresh =
  (Returned tt,
   World (<["out/types" := Dir]> (<["out" := Dir]> (disk Sample.fresh))) [EnsureDir "out/types"]) /\
  generateIconFiles (Sample.options [] (Some true) (Some true)) Sample.fresh =
  (Returned tt,
   World (<["out/types" := Dir]> (<["out" := Dir]> (disk Sample.fresh)))
     [EnsureDir "out/types"; ReadFile "public/sprite.svg";
      ReadFile "out/types/icon-name.d.ts";
      ConsoleLog "Icons are up to date"]).
Proof.
  assert (He : ensureDir (typesDir (Sample.options [] (Some true) (Some true)))
                 Sample.fresh =
               (Returned tt,
                World (<["out/types" := Dir]> (<["out" := Dir]> (disk Sample.fresh)))
                  [EnsureDir "out/types"])) by reflexivity.
  split; [reflexivity | split; [exact He |]].
  exact (proj1 (empty_files_up_to_date
                  (Sample.options [] (Some true) (Some true)) Sample.fresh
                  _ eq_refl He)).
Defined.

Lemma missing_artifact_triggers_regeneration_witness :
  files Sample.plain <> [] /\
  disk Sample.fresh !! spriteFilepath Sample.plain
    = None /\
  generateIconFiles Sample.plain Sample.fresh =
  regenerate Sample.plain
    (World (<["out/types" := Dir]> (<["out" := Dir]> (disk Sample.fresh)))
       [EnsureDir "out/types"; ReadFile "public/sprite.svg";
        ReadFile "out/types/icon-name.d.ts"]).
Proof.
  assert (Hm : disk Sample.fresh
                 !! spriteFilepath Sample.plain
               = None) by reflexivity.
  split; [discriminate | split; [exact Hm |]].
  refine (proj2 (proj2 (missing_artifact_triggers_regeneration
            Sample.plain Sample.fresh
            (World (<["out/types" := Dir]> (<["out" := Dir]> (disk Sample.fresh)))
               [EnsureDir "out/types"]) _ _ _))).
  - discriminate.
  - reflexivity.
  - left. exact Hm.
Defined.

Lemma read_failures_are_swallowed_witness :
  files Sample.plain <> [] /\
  read_node (spriteFilepath Sample.plain)
    (<["out/types" := Dir]> (<["out" := Dir]> (disk Sample.unreadable))) = Thrown EACCES /\
  generateIconFiles Sample.plain Sample.unreadable =
  regenerate Sample.plain
    (World (<["out/types" := Dir]> (<["out" := Dir]> (disk Sample.unreadable)))
       [EnsureDir "out/types"; ReadFile "public/sprite.svg";
        ReadFile "out/types/icon-name.d.ts"]).
Proof.
  assert (Hr : read_node
                 (spriteFilepath Sample.plain)
                 (<["out/types" := Dir]> (<["out" := Dir]> (disk Sample.unreadable)))
               = Thrown EACCES) by reflexivity.
  split; [discriminate | split; [exact Hr |]].
  refine (proj2 (read_failures_are_swallowed
            Sample.plain Sample.unreadable
            (World (<["out/types" := Dir]> (<["out" := Dir]> (disk Sample.unreadable)))
               [EnsureDir "out/types"]) EACCES _ _ _)).
  - discriminate.
  - reflexivity.
  - left. exact Hr.
Defined.

(** C2: on a project whose sprite carries the marker [id=home] and whose
    type declarations, the ones the generator itself writes, list the
    identifier as the single-quoted literal ['home'], the pre-check on the
    sprite holds but the pre-check on the types fails: the run is not cut
    short, it assembles the sprite and writes artifacts. *)
Theorem single_quoted_types_are_regenerated :
  spriteUpToDate ["home"]
    "<svg><symbol id=home><path/></symbol></svg>" = true /\
  includes (typeOutputContent ["home"]) "'home'" = true /\
  typesUpToDate ["home"] (typeOutputContent ["home"]) = false /\
  exists w',
    generateIconFiles Sample.plain Sample.listed
      = (Returned tt, w') /\
    In (GenerateSvgSprite ["home.svg"] "src") (trace w') /\
    written (trace w') =
      [("public/sprite.svg",
        "<svg><symbol id=" +:+ DQ +:+ "home" +:+ DQ +:+
        "><path/></symbol></svg>");
       ("out/icons.ts", iconsOutputContent ["home"])] /\
    reports_generated 1 (trace w').
Proof.
  split; [reflexivity | split; [reflexivity | split; [reflexivity |]]].
  eexists. split; [vm_compute; reflexivity |].
  split; [| split]; vm_compute; auto.
Qed.

(** C10, as stated for every on-disk state, fails: when a regular file is
    where the types directory belongs, the initial [ensureDir] rejects and
    the run with an empty [files] list rejects with it, before the
    pre-check: it reports nothing and does not return. The same holds when
    a regular file is where an ancestor of the types directory belongs. *)
Lemma empty_files_reject_when_ensureDir_rejects :
  files (Sample.options [] None None) = [] /\
  generateIconFiles (Sample.options [] None None) Sample.blocked =
    (Thrown EEXIST, World (disk Sample.blocked) [EnsureDir "out/types"]) /\
  logged [EnsureDir "out/types"] = [] /\
  generateIconFiles (Sample.options [] None None)
    (World {[ "out" := File "not a directory" ]} []) =
    (Thrown ENOTDIR,
     World {[ "out" := File "not a directory" ]} [EnsureDir "out/types"]).
Proof.
  split; [reflexivity |].
  split; [vm_compute; reflexivity |].
  split; [reflexivity |].
  vm_compute. reflexivity.
Qed.

End StalenessExamples.

(** ** Combinators for relations that every step of a run respects *)

Section Respects.

Variable R : world -> world -> Prop.
Hypothesis R_refl : forall w, R w w.
Hypothesis R_trans : forall w1 w2 w3, R w1 w2 -> R w2 w3 -> R w1 w3.

Lemma respects_ret {A} (a : A) : respects R (ret a).
Proof. intros w r w' [= _ <-]. apply R_refl. Qed.

Lemma respects_throw {A} e : respects R (@throw A e).
Proof. intros w r w' [= _ <-]. apply R_refl. Qed.

Lemma respects_on_disk {A} (f : gmap string node -> outcome A) :
  respects R (on_disk f).
Proof. intros w r w' [= _ <-]. apply R_refl. Qed.

Lemma respects_bind {A B} (m : M A) (k : A -> M B) :
  respects R m -> (forall a, respects R (k a)) -> respects R (bind m k).
Proof.
  intros Hm Hk w r w' Hrun. unfold bind in Hrun.
  destruct (m w) as [[a|e] w1] eqn:Em.
  - apply (R_trans _ w1); [apply (Hm _ _ _ Em) | apply (Hk _ _ _ _ Hrun)].
  - injection Hrun as _ <-. apply (Hm _ _ _ Em).
Qed.

Lemma respects_catch {A} (m : M A) (h : error -> M A) :
  respects R m -> (forall e, respects R (h e)) -> respects R (catch m h).
Proof.
  intros Hm Hh w r w' Hrun. unfold catch in Hrun.
  destruct (m w) as [[a|e] w1] eqn:Em.
  - injection Hrun as _ <-. apply (Hm _ _ _ Em).
  - apply (R_trans _ w1); [apply (Hm _ _ _ Em) | apply (Hh _ _ _ _ Hrun)].
Qed.

Lemma respects_for_each {A} (body : A -> M unit) xs :
  (forall x, respects R (body x)) -> respects R (for_each body xs).
Proof.
  intros Hb. induction xs as [|x xs IH]; simpl.
  - apply respects_ret.
  - apply respects_bind; [apply Hb | intros _; exact IH].
Qed.

End Respects.

(** *** The footprint relation *)

Lemma written_app t1 t2 : written (t1 ++ t2) = written t1 ++ written t2.
Proof. apply omap_app. Qed.

Lemma changes_app t1 t2 : changes (t1 ++ t2) = changes t1 ++ changes t2.
Proof. apply omap_app. Qed.

Lemma calls_app t1 t2 : calls (t1 ++ t2) = calls t1 ++ calls t2.
Proof. apply omap_app. Qed.

Lemma hashed_app t1 t2 : hashed (t1 ++ t2) = hashed t1 ++ hashed t2.
Proof. apply omap_app. Qed.

Lemma logged_app t1 t2 : logged (t1 ++ t2) = logged t1 ++ logged t2.
Proof. apply omap_app. Qed.

Lemma footprint_refl paths dirs w : footprint paths dirs w w.
Proof.
  split; [|split; [|split]]; auto.
  exists []. split; [symmetry; apply app_nil_r | constructor].
Qed.

Lemma footprint_trans paths dirs w1 w2 w3 :
  footprint paths dirs w1 w2 -> footprint paths dirs w2 w3 ->
  footprint paths dirs w1 w3.
Proof.
  intros ([t1 [Ht1 Hw1]] & Hf1 & Hn1 & Hd1) ([t2 [Ht2 Hw2]] & Hf2 & Hn2 & Hd2).
  split; [|split; [|split]].
  - exists (t1 ++ t2). split.
    + rewrite Ht2, Ht1. symmetry. apply app_assoc.
    + rewrite written_app. apply Forall_app. split; assumption.
  - intros q Hp Hq. rewrite Hf2, Hf1 by assumption. reflexivity.
  - intros q c Hp Hq. apply Hn1; [exact Hp|]. apply Hn2; assumption.
  - intros q Hq. apply Hd2, Hd1, Hq.
Qed.

Lemma footprint_emit paths dirs e :
  match e with
  | WriteFile p _ => p ∈ paths
  | _ => True
  end ->
  respects (footprint paths dirs) (emit e).
Proof.
  intros He w r w' [= _ <-]. split; [|split; [|split]]; simpl; auto.
  exists [e]. split; [reflexivity|].
  destruct e; simpl; constructor; [exact He | constructor].
Qed.

Lemma footprint_readFile paths dirs p :
  respects (footprint paths dirs) (readFile p).
Proof.
  apply respects_bind; [apply footprint_trans | |].
  - apply footprint_emit. exact I.
  - intros _. apply respects_on_disk, footprint_refl.
Qed.

Lemma footprint_console_log paths dirs line :
  respects (footprint paths dirs) (console_log line).
Proof. apply footprint_emit. exact I. Qed.

Lemma footprint_ensureDir paths dirs p :
  (forall q, q ∈ p :: ancestors p -> q ∈ dirs) ->
  respects (footprint paths dirs) (ensureDir p).
Proof.
  intros Hp w r w' Hrun.
  destruct (ensureDir_effect _ _ _ _ Hrun) as (Ht & Hm & _).
  split; [|split; [|split]].
  - exists [EnsureDir p]. split; [exact Ht | constructor].
  - intros q _ Hq. destruct (Hm q) as [Heq | (_ & _ & Hin)]; [exact Heq|].
    destruct (Hq (Hp q Hin)).
  - intros q c _ Hq. destruct (Hm q) as [Heq | (_ & Hd & _)].
    + rewrite <- Heq. exact Hq.
    + rewrite Hd in Hq. discriminate.
  - intros q Hq. destruct (Hm q) as [Heq | (Hn & _)].
    + rewrite Heq. exact Hq.
    + rewrite Hn in Hq. discriminate.
Qed.

Lemma footprint_writeFile paths dirs p c :
  p ∈ paths -> respects (footprint paths dirs) (writeFile p c).
Proof.
  intros Hp w r w' Hrun. rewrite writeFile_run in Hrun.
  assert (Ht : exists t, trace w ++ [WriteFile p c] = trace w ++ t /\
                 Forall (fun pc => pc.1 ∈ paths) (written t)).
  { exists [WriteFile p c]. split; [reflexivity|].
    constructor; [exact Hp | constructor]. }
  assert (Hset : disk w !! p <> Some Dir ->
            footprint paths dirs w
              (World (<[p := File c]> (disk w)) (trace w ++ [WriteFile p c]))).
  { intros Hnd. split; [exact Ht | split; [|split]]; simpl.
    - intros q Hq _. apply lookup_insert_ne. intros ->. contradiction.
    - intros q c0 Hq. rewrite lookup_insert_ne; [auto|].
      intros ->. contradiction.
    - intros q Hq. rewrite lookup_insert_ne; [exact Hq|].
      intros ->. contradiction. }
  destruct (disk w !! p) as [[c0| |e]|] eqn:E; injection Hrun as _ <-;
    try (apply Hset; congruence);
    (split; [exact Ht | split; [|split]]); simpl; auto.
Qed.

(** ** The change-detected writer *)

Section Writer.

Context `{Externals}.

Import Js.

Lemma record_record w t1 t2 : record (record w t1) t2 = record w (t1 ++ t2).
Proof. unfold record; simpl. rewrite <- app_assoc. reflexivity. Qed.

Lemma emit_run e w : emit e w = (Returned tt, record w [e]).
Proof. reflexivity. Qed.

Lemma bind_run {A B} (m : M A) (k : A -> M B) w a w1 :
  m w = (Returned a, w1) -> bind m k w = k a w1.
Proof. intros Hm. unfold bind. rewrite Hm. reflexivity. Qed.

Lemma bind_thrown {A B} (m : M A) (k : A -> M B) w e w1 :
  m w = (Thrown e, w1) -> bind m k w = (Thrown e, w1).
Proof. intros Hm. unfold bind. rewrite Hm. reflexivity. Qed.

(** The read of the existing content. *)
Lemma read_existing_run p w :
  catch (let* c := readFile p in ret (Some c))
        (fun e => match e with
                  | ENOENT => ret None
                  | _ => throw e
                  end) w =
  (read_existing p (disk w), record w [ReadFile p]).
Proof.
  unfold catch, bind. rewrite readFile_run. unfold read_existing.
  destruct (read_node p (disk w)) as [c|[]]; reflexivity.
Qed.

(** The write branch: ensure the parent directory, write, report
    [true]. *)
Lemma write_Returned d p c w b w' :
  (ensureDir d;; writeFile p c;; ret true) w = (Returned b, w') ->
  b = true /\
  trace w' = trace w ++ [EnsureDir d; WriteFile p c] /\
  disk w' !! p = Some (File c) /\
  p <> d /\
  (disk w !! p = None \/ exists c0, disk w !! p = Some (File c0)) /\
  (disk w !! d = Some Dir -> disk w' = <[p := File c]> (disk w)).
Proof.
  intros Hrun.
  apply bind_Returned in Hrun as ([] & w1 & He & Hrun).
  apply bind_Returned in Hrun as ([] & w2 & Hw & [= <- <-]).
  destruct (ensureDir_effect _ _ _ _ He) as (Ht1 & Hm & Hd & _).
  specialize (Hd eq_refl).
  rewrite writeFile_run in Hw.
  assert (Hpd : p <> d).
  { intros ->. rewrite Hd in Hw. discriminate. }
  assert (Hsame : disk w !! d = Some Dir -> disk w1 = disk w).
  { intros Hdir. rewrite ensureDir_run, Hdir in He.
    injection He as <-. reflexivity. }
  assert (Hp : disk w1 !! p = disk w !! p).
  { destruct (Hm p) as [Heq | (_ & Hdir & _)]; [exact Heq|].
    rewrite Hdir in Hw. discriminate. }
  rewrite Hp in Hw.
  destruct (disk w !! p) as [[c0| |e]|] eqn:E; try discriminate;
    injection Hw as <-; simpl;
    (split; [reflexivity |
     split; [rewrite Ht1, <- app_assoc; reflexivity |
     split; [apply lookup_insert_eq |
     split; [exact Hpd |
     split; [eauto |
     intros Hdir; rewrite (Hsame Hdir); reflexivity]]]]]).
Qed.

Lemma md5_run s w : md5 s w = (Returned (md5_hex s), record w [Md5 s]).
Proof. reflexivity. Qed.

Lemma resolve_run (m : M bool) (ev : bool -> event) w :
  (let* changed := m in emit (ev changed);; ret changed) w =
  match m w with
  | (Returned b, w2) => (Returned b, record w2 [ev b])
  | (Thrown e, w2) => (Thrown e, w2)
  end.
Proof. unfold bind. destruct (m w) as [[b|e] w2]; reflexivity. Qed.

(** [writeIfChanged] as a function of the existing content. *)
Lemma writeIfChanged_run p c h f w :
  writeIfChanged p c h f w =
  match read_existing p (disk w) with
  | Thrown e => (Thrown e, record w [ReadFile p])
  | Returned existing =>
      let w1 := record w (ReadFile p :: comparison_digest existing h f) in
      if needs_write existing c h f then
        match (ensureDir (path_dirname p);; writeFile p c;; ret true) w1 with
        | (Returned b, w2) => (Returned b, record w2 [WriteIfChanged p c h f b])
        | (Thrown e, w2) => (Thrown e, w2)
        end
      else (Returned false, record w1 [WriteIfChanged p c h f false])
  end.
Proof.
  unfold writeIfChanged. cbv zeta.
  unfold bind at 1. rewrite read_existing_run.
  destruct (read_existing p (disk w)) as [existing|e]; [|reflexivity].
  rewrite (resolve_run _ (WriteIfChanged p c h f)).
  unfold needs_write, comparison_digest.
  destruct (truthy f); [reflexivity|].
  destruct h as [hh|].
  - destruct existing as [c0|]; [|reflexivity].
    rewrite (bind_run _ _ _ _ _ (md5_run c0 _)), record_record. simpl app.
    destruct (String.eqb (md5_hex c0) hh); reflexivity.
  - destruct (String.eqb (default EmptyString existing) c); reflexivity.
Qed.

End Writer.

Section WriterFacts.

Context `{Externals}.

Import Js.

Lemma record_nil w : record w [] = w.
Proof. destruct w as [d t]. unfold record; simpl. rewrite app_nil_r. reflexivity. Qed.

Lemma needs_write_falsy existing c h f :
  truthy f = false ->
  needs_write existing c h f = needs_write existing c h None.
Proof. intros Hf. unfold needs_write. rewrite Hf. reflexivity. Qed.

Lemma needs_write_false existing c h f :
  needs_write existing c h f = false ->
  truthy f = false /\ needs_write existing c h None = false.
Proof.
  unfold needs_write. destruct (truthy f); [discriminate|].
  intros Hn. split; [reflexivity | exact Hn].
Qed.

Lemma needs_write_forced existing c h f :
  truthy f = true -> needs_write existing c h f = true.
Proof. intros Hf. unfold needs_write. rewrite Hf. reflexivity. Qed.

(** Content that is on disk and whose digest was supplied needs no
    write. *)
Lemma needs_write_same c h :
  (forall hh, h = Some hh -> hh = md5_hex c) ->
  needs_write (Some c) c h None = false.
Proof.
  intros Hh. unfold needs_write; simpl. destruct h as [hh|].
  - rewrite (Hh hh eq_refl), String.eqb_refl. reflexivity.
  - rewrite String.eqb_refl. reflexivity.
Qed.

Lemma comparison_digest_writer existing h f :
  Forall (writer_event h) (comparison_digest existing h f).
Proof.
  unfold comparison_digest.
  destruct (truthy f), h, existing; repeat constructor; discriminate.
Qed.

Lemma comparison_digest_written existing h f :
  written (comparison_digest existing h f) = [].
Proof.
  unfold comparison_digest. destruct (truthy f), h, existing; reflexivity.
Qed.

(** What a change-detected write that resolves has done. *)
Lemma writeIfChanged_Returned p c h f w b w' :
  writeIfChanged p c h f w = (Returned b, w') ->
  exists existing t,
    read_existing p (disk w) = Returned existing /\
    b = needs_write existing c h f /\
    trace w' = trace w ++ t ++ [WriteIfChanged p c h f b] /\
    Forall (writer_event h) t /\
    written t = (if b then [(p, c)] else []) /\
    (if b then disk w' !! p = Some (File c) else disk w' = disk w).
Proof.
  rewrite writeIfChanged_run.
  destruct (read_existing p (disk w)) as [existing|e]; [|discriminate].
  cbv zeta. destruct (needs_write existing c h f) eqn:Hn.
  - destruct ((ensureDir (path_dirname p);; writeFile p c;; ret true) _)
      as [[b0|e] w2] eqn:Hw; [|discriminate].
    intros [= <- <-].
    apply write_Returned in Hw as (-> & Ht & Hp & _).
    exists existing,
      (ReadFile p :: comparison_digest existing h f ++
       [EnsureDir (path_dirname p); WriteFile p c]).
    split; [reflexivity | split; [symmetry; exact Hn | split; [|split; [|split]]]].
    + simpl. rewrite Ht. simpl. rewrite <- !app_assoc. reflexivity.
    + constructor; [exact I|]. apply Forall_app.
      split; [apply comparison_digest_writer | repeat constructor].
    + simpl. rewrite written_app, comparison_digest_written. reflexivity.
    + exact Hp.
  - intros [= <- <-].
    exists existing, (ReadFile p :: comparison_digest existing h f).
    split; [reflexivity | split; [symmetry; exact Hn | split; [|split; [|split]]]].
    + simpl. rewrite <- !app_assoc. reflexivity.
    + constructor; [exact I | apply comparison_digest_writer].
    + simpl. apply comparison_digest_written.
    + reflexivity.
Qed.

(** With [force], identical content and the parent directory in place,
    the write is performed all the same and resolves to [true]. *)
Lemma writeIfChanged_forced p c h f w :
  truthy f = true ->
  disk w !! p = Some (File c) ->
  disk w !! path_dirname p = Some Dir ->
  writeIfChanged p c h f w =
  (Returned true,
   record w [ReadFile p; EnsureDir (path_dirname p); WriteFile p c;
             WriteIfChanged p c h f true]).
Proof.
  intros Hf Hp Hd. rewrite writeIfChanged_run.
  unfold read_existing, read_node. rewrite Hp. cbv zeta.
  rewrite (needs_write_forced _ _ _ _ Hf).
  unfold comparison_digest. rewrite Hf.
  unfold bind. rewrite ensureDir_run. simpl disk. rewrite Hd.
  rewrite writeFile_run. simpl disk. rewrite Hp.
  unfold ret, record. simpl. rewrite (insert_id _ _ _ Hp).
  rewrite <- !app_assoc. reflexivity.
Qed.

(** Without [force], on a settled disk, nothing is written and the write
    resolves to [false]. *)
Lemma writeIfChanged_settled p c h f w :
  truthy f = false ->
  settled (disk w) p c h ->
  exists t,
    writeIfChanged p c h f w =
    (Returned false, record w (t ++ [WriteIfChanged p c h f false])) /\
    Forall (writer_event h) t /\
    written t = [].
Proof.
  intros Hf (existing & Hr & Hn). rewrite writeIfChanged_run, Hr. cbv zeta.
  rewrite (needs_write_falsy _ _ _ _ Hf), Hn.
  exists (ReadFile p :: comparison_digest existing h f).
  split; [|split].
  - rewrite record_record. reflexivity.
  - constructor; [exact I | apply comparison_digest_writer].
  - simpl. apply comparison_digest_written.
Qed.

(** After a change-detected write of content whose digest was supplied,
    the disk is settled. *)
Lemma writeIfChanged_settles p c h f w b w' :
  writeIfChanged p c h f w = (Returned b, w') ->
  (forall hh, h = Some hh -> hh = md5_hex c) ->
  settled (disk w') p c h.
Proof.
  intros Hrun Hh.
  apply writeIfChanged_Returned in Hrun
    as (existing & t & Hr & Hb & _ & _ & _ & Hd).
  destruct b.
  - exists (Some c). split.
    + unfold read_existing, read_node. rewrite Hd. reflexivity.
    + apply needs_write_same, Hh.
  - exists existing. rewrite Hd. split; [exact Hr|].
    symmetry in Hb. apply (needs_write_false _ _ _ _ Hb).
Qed.

Lemma settled_frame d d' p c h :
  d' !! p = d !! p -> settled d p c h -> settled d' p c h.
Proof.
  intros Heq (existing & Hr & Hn). exists existing. split; [|exact Hn].
  unfold read_existing, read_node in *. rewrite Heq. exact Hr.
Qed.

(** A change-detected write stays within its path, the parent directory
    and the ancestors of it. *)
Lemma footprint_writeIfChanged paths dirs p c h f :
  p ∈ paths ->
  (forall q, q ∈ path_dirname p :: ancestors (path_dirname p) -> q ∈ dirs) ->
  respects (footprint paths dirs) (writeIfChanged p c h f).
Proof.
  intros Hp Hd w r w' Hrun. rewrite writeIfChanged_run in Hrun.
  assert (Hrec : forall w0 e,
            match e with WriteFile _ _ => False | _ => True end ->
            footprint paths dirs w0 (record w0 [e])).
  { intros w0 e He. apply (footprint_emit paths dirs e) with (r := Returned tt).
    - destruct e; try exact I. contradiction.
    - reflexivity. }
  assert (Hcmp : forall existing,
            footprint paths dirs w
              (record w (ReadFile p :: comparison_digest existing h f))).
  { intros existing. unfold comparison_digest.
    destruct (truthy f), h, existing;
      try (apply (Hrec w (ReadFile p)); exact I).
    change (record w [ReadFile p; Md5 s0])
      with (record w ([ReadFile p] ++ [Md5 s0])).
    rewrite <- record_record.
    eapply footprint_trans; [apply (Hrec w (ReadFile p)); exact I|].
    apply Hrec. exact I. }
  assert (Hwr : respects (footprint paths dirs)
                  (ensureDir (path_dirname p);; writeFile p c;; ret true)).
  { apply respects_bind; [apply footprint_trans | |].
    - apply footprint_ensureDir, Hd.
    - intros _. apply respects_bind; [apply footprint_trans | |].
      + apply footprint_writeFile, Hp.
      + intros _. apply respects_ret, footprint_refl. }
  destruct (read_existing p (disk w)) as [existing|e].
  - cbv zeta in Hrun. destruct (needs_write existing c h f).
    + destruct ((ensureDir (path_dirname p);; writeFile p c;; ret true) _)
        as [[b0|e] w2] eqn:Hw.
      * injection Hrun as _ <-.
        eapply footprint_trans; [apply Hcmp|].
        eapply footprint_trans; [|apply Hrec; exact I].
        apply (Hwr _ _ _ Hw).
      * injection Hrun as _ <-.
        eapply footprint_trans; [apply Hcmp|].
        apply (Hwr _ _ _ Hw).
    + injection Hrun as _ <-.
      rewrite record_record.
      change (ReadFile p :: comparison_digest existing h f ++
              [WriteIfChanged p c h f false])
        with ((ReadFile p :: comparison_digest existing h f) ++
              [WriteIfChanged p c h f false]).
      rewrite <- record_record.
      eapply footprint_trans; [apply Hcmp | apply Hrec; exact I].
  - injection Hrun as _ <-. apply Hrec. exact I.
Qed.

End WriterFacts.

(** ** The regeneration path, step by step *)

Section Regeneration.

Context `{Externals}.

Import Js.

Lemma for_each_log {A} (line : A -> string) xs w :
  for_each (fun x => console_log (line x)) xs w =
  (Returned tt, record w (map (fun x => ConsoleLog (line x)) xs)).
Proof.
  revert w. induction xs as [|x xs IH]; intros w; simpl.
  - rewrite record_nil. reflexivity.
  - unfold bind. unfold console_log at 1. rewrite emit_run, IH.
    rewrite record_record. reflexivity.
Qed.

Lemma log_if (b : bool) line w :
  (if b then console_log line else ret tt) w =
  (Returned tt, record w (if b then [ConsoleLog line] else [])).
Proof. destruct b; [reflexivity | rewrite record_nil; reflexivity]. Qed.

Lemma report_sprite_run o output w :
  report_sprite o output (run_hash o output) w =
  (Returned tt, record w (sprite_report o output)).
Proof.
  unfold report_sprite, sprite_report, hashedSpritePath.
  unfold bind at 1. unfold console_log at 1. rewrite emit_run.
  unfold bind at 1. rewrite for_each_log, record_record.
  unfold bind at 1. unfold console_log at 1. rewrite emit_run, record_record.
  destruct (truthy (shouldHash o)).
  - unfold bind, console_log. rewrite !emit_run, !record_record.
    unfold record. simpl. rewrite <- !app_assoc. reflexivity.
  - unfold console_log. rewrite emit_run, record_record.
    unfold record. simpl. rewrite <- !app_assoc. reflexivity.
Qed.

Lemma report_if (b : bool) o output w :
  (if b then report_sprite o output (run_hash o output) else ret tt) w =
  (Returned tt, record w (if b then sprite_report o output else [])).
Proof.
  destruct b; [apply report_sprite_run | rewrite record_nil; reflexivity].
Qed.

Lemma hash_step o output w :
  (if truthy (shouldHash o)
   then let* h := md5 output in ret (Some h)
   else ret None) w =
  (Returned (run_hash o output),
   record w (if truthy (shouldHash o) then [Md5 output] else [])).
Proof.
  unfold run_hash. destruct (truthy (shouldHash o)).
  - reflexivity.
  - rewrite record_nil. reflexivity.
Qed.

Lemma summary_step o (b : bool) w :
  (if b
   then console_log ("Generated " +:+ pretty (length (files o)) +:+ " icons")
   else console_log "Icons are up to date") w =
  (Returned tt, record w [summary o b]).
Proof. destruct b; reflexivity. Qed.

(** [write_artifacts] as the sequence of its four change-detected
    writes. *)
Lemma write_artifacts_run o output w :
  write_artifacts o output w =
  match writeIfChanged (spriteFilepath o) output (run_hash o output) (force o)
          (record w (if truthy (shouldHash o) then [Md5 output] else []))
  with
  | (Thrown e, w1) => (Thrown e, w1)
  | (Returned b1, w1) =>
  match writeIfChanged (typeOutputFilepath o)
          (typeOutputContent (iconNames o)) None (force o)
          (record w1 (if b1 then sprite_report o output else []))
  with
  | (Thrown e, w2) => (Thrown e, w2)
  | (Returned b2, w2) =>
  match writeIfChanged (iconsOutputFilepath o)
          (iconsOutputContent (iconNames o)) None (force o)
          (record w2 (if b2 then [types_saved o] else []))
  with
  | (Thrown e, w3) => (Thrown e, w3)
  | (Returned b3, w3) =>
      if truthy (shouldHash o) then
        match writeIfChanged (hashOutputFilepath o)
                (hashFileContent (run_hash o output)) None (force o)
                (record w3 (if b3 then [icons_saved o] else []))
        with
        | (Thrown e, w4) => (Thrown e, w4)
        | (Returned b4, w4) =>
            (Returned tt,
             record w4 ((if b4 then [hash_saved o] else []) ++
                        [summary o (b1 || b2 || b3)]))
        end
      else
        (Returned tt,
         record w3 ((if b3 then [icons_saved o] else []) ++
                    [summary o (b1 || b2 || b3)]))
  end end end.
Proof.
  unfold write_artifacts.
  unfold bind at 1. rewrite hash_step.
  unfold bind at 1.
  destruct (writeIfChanged (spriteFilepath o) _ _ _ _) as [[b1|e] w1];
    [|reflexivity].
  unfold bind at 1. rewrite report_if.
  unfold bind at 1.
  destruct (writeIfChanged (typeOutputFilepath o) _ _ _ _) as [[b2|e] w2];
    [|reflexivity].
  unfold bind at 1. rewrite log_if.
  unfold bind at 1.
  destruct (writeIfChanged (iconsOutputFilepath o) _ _ _ _) as [[b3|e] w3];
    [|reflexivity].
  unfold bind at 1. rewrite log_if.
  unfold bind at 1.
  unfold types_saved, icons_saved, hash_saved.
  destruct (truthy (shouldHash o)).
  - unfold bind at 1.
    destruct (writeIfChanged (hashOutputFilepath o) _ _ _ _) as [[b4|e] w4];
      [|reflexivity].
    rewrite log_if, summary_step, record_record. reflexivity.
  - unfold ret at 1. rewrite summary_step, record_record. reflexivity.
Qed.

Lemma generateSvgSprite_run fs dir w :
  generateSvgSprite fs dir w =
  (assemble (disk w) fs dir, record w [GenerateSvgSprite fs dir]).
Proof. reflexivity. Qed.

(** [regenerate] as the assembly followed by [write_artifacts]. *)
Lemma regenerate_run o w :
  regenerate o w =
  match assemble (disk w) (files o) (inputDir o) with
  | Thrown e => (Thrown e, record w [GenerateSvgSprite (files o) (inputDir o)])
  | Returned raw =>
      if truthy (shouldOptimize o) then
        match load_config (disk w) with
        | Thrown e =>
            (Thrown e,
             record w [GenerateSvgSprite (files o) (inputDir o); LoadConfig])
        | Returned config =>
            match svgo_optimize raw config with
            | Thrown e => (Thrown e, record w (assembly_events o raw))
            | Returned output =>
                write_artifacts o output (record w (assembly_events o raw))
            end
        end
      else write_artifacts o raw (record w (assembly_events o raw))
  end.
Proof.
  unfold regenerate, assembly_events.
  unfold bind at 1. rewrite generateSvgSprite_run.
  destruct (assemble (disk w) (files o) (inputDir o)) as [raw|e];
    [|reflexivity].
  unfold bind at 1.
  destruct (truthy (shouldOptimize o)); [|reflexivity].
  unfold bind at 1, loadConfig at 1, bind at 1.
  rewrite emit_run, record_record. unfold on_disk at 1. simpl disk.
  destruct (load_config (disk w)) as [config|e]; [|reflexivity].
  unfold optimize at 1, bind at 1. rewrite emit_run, record_record.
  unfold on_disk at 1.
  destruct (svgo_optimize raw config) as [output|e]; reflexivity.
Qed.

(** A returning regeneration has assembled the final sprite content and
    then run [write_artifacts] on it. *)
Lemma regenerate_Returned o w w' :
  regenerate o w = (Returned tt, w') ->
  exists raw output,
    assemble (disk w) (files o) (inputDir o) = Returned raw /\
    final_sprite o (disk w) = Returned output /\
    write_artifacts o output (record w (assembly_events o raw))
      = (Returned tt, w').
Proof.
  rewrite regenerate_run. unfold final_sprite.
  destruct (assemble (disk w) (files o) (inputDir o)) as [raw|e];
    [|discriminate].
  destruct (truthy (shouldOptimize o)).
  - destruct (load_config (disk w)) as [config|e]; [|discriminate].
    destruct (svgo_optimize raw config) as [output|e]; [|discriminate].
    intros Hrun. exists raw, output. auto.
  - intros Hrun. exists raw, raw. auto.
Qed.

Lemma regenerate_assembled o w raw output :
  assemble (disk w) (files o) (inputDir o) = Returned raw ->
  final_sprite o (disk w) = Returned output ->
  regenerate o w = write_artifacts o output (record w (assembly_events o raw)).
Proof.
  unfold final_sprite. intros Ha. rewrite regenerate_run, Ha.
  destruct (truthy (shouldOptimize o)).
  - destruct (load_config (disk w)) as [config|e]; [|discriminate].
    intros ->. reflexivity.
  - intros [= ->]. reflexivity.
Qed.

End Regeneration.

(** ** The trace of a returning regeneration *)

Section RegenerationTrace.

Context `{Externals}.

Import Js.

Lemma writer_event_observed h t :
  Forall (writer_event h) t ->
  changes t = [] /\ calls t = [] /\ logged t = [].
Proof.
  induction 1 as [|e t He _ (IH1 & IH2 & IH3)]; [auto|].
  destruct e; simpl in *; try contradiction; auto.
Qed.

Lemma writer_event_no_digest t :
  Forall (writer_event None) t -> hashed t = [].
Proof.
  induction 1 as [|e t He _ IH]; [reflexivity|].
  destruct e; simpl in *; try contradiction; auto; congruence.
Qed.

Lemma console_lines_observed {A} (line : A -> string) xs :
  let t := map (fun x => ConsoleLog (line x)) xs in
  changes t = [] /\ calls t = [] /\ hashed t = [] /\ written t = [].
Proof. induction xs as [|x xs (I1 & I2 & I3 & I4)]; simpl; auto. Qed.

Lemma sprite_report_observed o output :
  changes (sprite_report o output) = [] /\
  calls (sprite_report o output) = [] /\
  hashed (sprite_report o output) = [] /\
  written (sprite_report o output) = [].
Proof.
  unfold sprite_report.
  destruct (console_lines_observed (fun file => "✅ " +:+ file) (files o))
    as (I1 & I2 & I3 & I4).
  cbv zeta in I1, I2, I3, I4.
  change (?e :: ?l ++ ?r) with ([e] ++ l ++ r).
  rewrite !changes_app, !calls_app, !hashed_app, !written_app.
  rewrite I1, I2, I3, I4.
  destruct (truthy (shouldHash o)); auto.
Qed.

(** The trace of a returning [write_artifacts] has the shape of
    [artifacts_trace]. *)
Lemma write_artifacts_trace o output w w' :
  write_artifacts o output w = (Returned tt, w') ->
  exists (b1 b2 b3 b4 : bool) (t1 t2 t3 t4 : list event),
    Forall (writer_event (run_hash o output)) t1 /\
    Forall (writer_event None) t2 /\
    Forall (writer_event None) t3 /\
    Forall (writer_event None) t4 /\
    written t1 = (if b1 then [(spriteFilepath o, output)] else []) /\
    written t2 =
      (if b2 then [(typeOutputFilepath o, typeOutputContent (iconNames o))]
       else []) /\
    written t3 =
      (if b3 then [(iconsOutputFilepath o, iconsOutputContent (iconNames o))]
       else []) /\
    written t4 =
      (if b4 then [(hashOutputFilepath o, hashFileContent (run_hash o output))]
       else []) /\
    trace w' = trace w ++ artifacts_trace o output b1 b2 b3 b4 t1 t2 t3 t4.
Proof.
  rewrite write_artifacts_run. unfold artifacts_trace.
  destruct (writeIfChanged (spriteFilepath o) _ _ _ _)
    as [[b1|e] w1] eqn:H1; [|discriminate].
  destruct (writeIfChanged (typeOutputFilepath o) _ _ _ _)
    as [[b2|e] w2] eqn:H2; [|discriminate].
  destruct (writeIfChanged (iconsOutputFilepath o) _ _ _ _)
    as [[b3|e] w3] eqn:H3; [|discriminate].
  apply writeIfChanged_Returned in H1 as (_ & t1 & _ & _ & T1 & F1 & W1 & _).
  apply writeIfChanged_Returned in H2 as (_ & t2 & _ & _ & T2 & F2 & W2 & _).
  apply writeIfChanged_Returned in H3 as (_ & t3 & _ & _ & T3 & F3 & W3 & _).
  simpl trace in T1, T2, T3.
  destruct (truthy (shouldHash o)).
  - destruct (writeIfChanged (hashOutputFilepath o) _ _ _ _)
      as [[b4|e] w4] eqn:H4; [|discriminate].
    apply writeIfChanged_Returned in H4 as (_ & t4 & _ & _ & T4 & F4 & W4 & _).
    simpl trace in T4.
    intros [= <-]. exists b1, b2, b3, b4, t1, t2, t3, t4.
    repeat (split; [assumption|]).
    simpl trace. rewrite T4, T3, T2, T1. rewrite <- !app_assoc. reflexivity.
  - intros [= <-]. exists b1, b2, b3, false, t1, t2, t3, [].
    repeat (split; [first [assumption | constructor | reflexivity]|]).
    simpl trace. rewrite T3, T2, T1. rewrite <- !app_assoc. reflexivity.
Qed.

Section Observed.

Variables (o : GenerateIconFilesOptions) (output : string).
Variables (b1 b2 b3 b4 : bool) (t1 t2 t3 t4 : list event).
Hypothesis F1 : Forall (writer_event (run_hash o output)) t1.
Hypothesis F2 : Forall (writer_event None) t2.
Hypothesis F3 : Forall (writer_event None) t3.
Hypothesis F4 : Forall (writer_event None) t4.

Let t := artifacts_trace o output b1 b2 b3 b4 t1 t2 t3 t4.

(** The physical writes are those of the artifacts whose flag is
    [true]. *)
Lemma artifacts_trace_written :
  written t =
  written t1 ++ written t2 ++ written t3 ++
  (if truthy (shouldHash o) then written t4 else []).
Proof.
  subst t. unfold artifacts_trace.
  destruct (sprite_report_observed o output) as (_ & _ & _ & S1).
  rewrite !written_app.
  destruct (truthy (shouldHash o)); rewrite ?written_app;
    destruct b1, b2, b3, b4; rewrite ?S1; simpl;
    rewrite ?app_nil_r; reflexivity.
Qed.

Lemma artifacts_trace_changes :
  changes t =
  [(spriteFilepath o, b1); (typeOutputFilepath o, b2);
   (iconsOutputFilepath o, b3)] ++
  (if truthy (shouldHash o) then [(hashOutputFilepath o, b4)] else []).
Proof.
  subst t. unfold artifacts_trace.
  destruct (writer_event_observed _ _ F1) as (C1 & _).
  destruct (writer_event_observed _ _ F2) as (C2 & _).
  destruct (writer_event_observed _ _ F3) as (C3 & _).
  destruct (writer_event_observed _ _ F4) as (C4 & _).
  destruct (sprite_report_observed o output) as (S1 & _).
  rewrite !changes_app.
  destruct (truthy (shouldHash o));
    rewrite ?changes_app, ?C1, ?C2, ?C3, ?C4;
    destruct b1, b2, b3, b4; rewrite ?S1; reflexivity.
Qed.

Lemma artifacts_trace_calls :
  calls t =
  [WriteIfChanged (spriteFilepath o) output (run_hash o output) (force o) b1;
   WriteIfChanged (typeOutputFilepath o) (typeOutputContent (iconNames o))
     None (force o) b2;
   WriteIfChanged (iconsOutputFilepath o) (iconsOutputContent (iconNames o))
     None (force o) b3] ++
  (if truthy (shouldHash o)
   then [WriteIfChanged (hashOutputFilepath o)
           (hashFileContent (run_hash o output)) None (force o) b4]
   else []).
Proof.
  subst t. unfold artifacts_trace.
  destruct (writer_event_observed _ _ F1) as (_ & C1 & _).
  destruct (writer_event_observed _ _ F2) as (_ & C2 & _).
  destruct (writer_event_observed _ _ F3) as (_ & C3 & _).
  destruct (writer_event_observed _ _ F4) as (_ & C4 & _).
  destruct (sprite_report_observed o output) as (_ & S1 & _).
  rewrite !calls_app.
  destruct (truthy (shouldHash o));
    rewrite ?calls_app, ?C1, ?C2, ?C3, ?C4;
    destruct b1, b2, b3, b4; rewrite ?S1; reflexivity.
Qed.

(** The last console line is the summary, decided by the first three
    flags. *)
Lemma artifacts_trace_summary :
  last (logged t) =
  Some (if b1 || b2 || b3
        then "Generated " +:+ pretty (length (files o)) +:+ " icons"
        else "Icons are up to date").
Proof.
  subst t. unfold artifacts_trace. rewrite !app_assoc.
  rewrite logged_app. unfold summary. simpl logged at 2.
  apply last_snoc.
Qed.

(** The digests of the run: the one of the final sprite content first
    when hashing, none at all otherwise. *)
Lemma artifacts_trace_hashed :
  if truthy (shouldHash o)
  then exists rest, hashed t = output :: rest
  else hashed t = [].
Proof.
  subst t. unfold artifacts_trace.
  destruct (sprite_report_observed o output) as (_ & _ & S1 & _).
  pose proof (writer_event_no_digest _ F2) as D2.
  pose proof (writer_event_no_digest _ F3) as D3.
  unfold run_hash in F1.
  destruct (truthy (shouldHash o)).
  - eexists. simpl. reflexivity.
  - pose proof (writer_event_no_digest _ F1) as D1.
    rewrite !hashed_app, D1, D2, D3.
    destruct b1, b2, b3; rewrite ?S1; reflexivity.
Qed.

End Observed.

End RegenerationTrace.

(** ** Runs without digest *)

Section NoDigest.

Context `{Externals}.

Import Js.

Lemma emits_only_refl P w : emits_only P w w.
Proof. exists []. split; [symmetry; apply app_nil_r | constructor]. Qed.

Lemma emits_only_trans P w1 w2 w3 :
  emits_only P w1 w2 -> emits_only P w2 w3 -> emits_only P w1 w3.
Proof.
  intros (t1 & Ht1 & Hp1) (t2 & Ht2 & Hp2). exists (t1 ++ t2). split.
  - rewrite Ht2, Ht1. symmetry. apply app_assoc.
  - apply Forall_app. split; assumption.
Qed.

Lemma emits_only_record P w t : Forall P t -> emits_only P w (record w t).
Proof. intros Ht. exists t. split; [reflexivity | exact Ht]. Qed.

Lemma emits_only_emit P e : P e -> respects (emits_only P) (emit e).
Proof.
  intros He w r w' [= _ <-]. apply (emits_only_record P w [e]).
  constructor; [exact He | constructor].
Qed.

Lemma emits_only_set_node P p n : respects (emits_only P) (set_node p n).
Proof.
  intros w r w' [= _ <-]. exists []. split; [|constructor].
  simpl. symmetry. apply app_nil_r.
Qed.

Ltac no_digest_steps :=
  repeat first
    [ apply respects_ret; apply emits_only_refl
    | apply respects_throw; apply emits_only_refl
    | apply respects_on_disk; apply emits_only_refl
    | apply emits_only_set_node
    | apply emits_only_emit; exact I
    | apply respects_for_each;
        [apply emits_only_refl | apply emits_only_trans | intros ?]
    | apply respects_bind; [apply emits_only_trans | | intros ?]
    | apply respects_catch; [apply emits_only_trans | | intros ?]
    | match goal with
      | |- respects _ (if ?b then _ else _) => destruct b
      | |- respects _ (match ?x with _ => _ end) => destruct x
      end ].

(** A change-detected write that is given no hash computes no digest. *)
Lemma no_digest_writeIfChanged p c f :
  respects (emits_only no_digest) (writeIfChanged p c None f).
Proof.
  unfold writeIfChanged, readFile, ensureDir, writeFile. cbv zeta.
  no_digest_steps.
Qed.

Lemma sprite_report_no_digest o output :
  Forall no_digest (sprite_report o output).
Proof.
  unfold sprite_report. constructor; [exact I|]. apply Forall_app. split.
  - apply Forall_forall. intros e He.
    apply list_elem_of_fmap in He as [file [-> _]]. exact I.
  - destruct (truthy (shouldHash o)); repeat constructor.
Qed.

(** Without [shouldHash], no step of the regeneration computes a digest,
    however the run ends. *)
Lemma no_digest_regenerate o :
  truthy (shouldHash o) = false ->
  respects (emits_only no_digest) (regenerate o).
Proof.
  intros Hh.
  assert (Hlog : forall (b : bool) e w,
            no_digest e ->
            emits_only no_digest w (record w (if b then [e] else []))).
  { intros b e w He. apply emits_only_record.
    destruct b; repeat constructor. exact He. }
  assert (Hrep : forall (b : bool) output w,
            emits_only no_digest w
              (record w (if b then sprite_report o output else []))).
  { intros b output w. apply emits_only_record.
    destruct b; [apply sprite_report_no_digest | constructor]. }
  assert (Hart : forall output,
            respects (emits_only no_digest) (write_artifacts o output)).
  { intros output w r w' Hrun. rewrite write_artifacts_run in Hrun.
    unfold run_hash in Hrun. rewrite Hh in Hrun.
    destruct (writeIfChanged (spriteFilepath o) _ _ _ _)
      as [[b1|e] w1] eqn:H1;
      pose proof (no_digest_writeIfChanged _ _ _ _ _ _ H1) as E1.
    2:{ injection Hrun as _ <-. rewrite record_nil in E1. exact E1. }
    rewrite record_nil in E1.
    destruct (writeIfChanged (typeOutputFilepath o) _ _ _ _)
      as [[b2|e] w2] eqn:H2;
      pose proof (no_digest_writeIfChanged _ _ _ _ _ _ H2) as E2.
    2:{ injection Hrun as _ <-.
        eapply emits_only_trans; [exact E1|].
        eapply emits_only_trans; [|exact E2].
        apply Hrep. }
    destruct (writeIfChanged (iconsOutputFilepath o) _ _ _ _)
      as [[b3|e] w3] eqn:H3;
      pose proof (no_digest_writeIfChanged _ _ _ _ _ _ H3) as E3.
    2:{ injection Hrun as _ <-.
        eapply emits_only_trans; [exact E1|].
        eapply emits_only_trans; [apply Hrep|].
        eapply emits_only_trans; [exact E2|].
        eapply emits_only_trans; [|exact E3].
        apply Hlog. exact I. }
    injection Hrun as _ <-.
    apply (emits_only_trans _ w w1); [exact E1|].
    apply (emits_only_trans _ w1
             (record w1 (if b1 then sprite_report o output else [])));
      [apply Hrep|].
    apply (emits_only_trans _ _ w2); [exact E2|].
    apply (emits_only_trans _ w2
             (record w2 (if b2 then [types_saved o] else [])));
      [apply Hlog; exact I|].
    apply (emits_only_trans _ _ w3); [exact E3|].
    apply emits_only_record. apply Forall_app. split.
    - destruct b3; repeat constructor.
    - repeat constructor. }
  unfold regenerate, generateSvgSprite, loadConfig, optimize.
  repeat first
    [ apply Hart
    | apply respects_ret; apply emits_only_refl
    | apply respects_on_disk; apply emits_only_refl
    | apply emits_only_emit; exact I
    | apply respects_for_each;
        [apply emits_only_refl | apply emits_only_trans | intros ?]
    | apply respects_bind; [apply emits_only_trans | | intros ?]
    | match goal with
      | |- respects _ (if ?b then _ else _) => destruct b
      end ].
Qed.

End NoDigest.

(** ** The summary and the hash module *)

Section Summary.

Context `{Externals}.

Import Js.

(** C1 (as amended): in a run that reaches the regeneration path and
    returns, the three or four change-detected writes resolve, in the order
    sprite, type declarations, identifier array and, when [shouldHash] is
    set, hash module; the summary that ends the run is the logical OR of
    the first three flags only: it reads generated when the sprite, the
    types or the identifier array changed and up to date otherwise,
    whatever the flag of the hash module. *)
Theorem summary_is_or_of_three_flags o w w' :
  regenerate o w = (Returned tt, w') ->
  exists t b1 b2 b3 b4,
    trace w' = trace w ++ t /\
    changes t =
      [(spriteFilepath o, b1); (typeOutputFilepath o, b2);
       (iconsOutputFilepath o, b3)] ++
      (if truthy (shouldHash o) then [(hashOutputFilepath o, b4)] else []) /\
    if b1 || b2 || b3
    then reports_generated (length (files o)) t
    else reports_up_to_date t.
Proof.
  intros Hrun.
  apply regenerate_Returned in Hrun as (raw & output & _ & _ & Hrun).
  apply write_artifacts_trace in Hrun
    as (b1 & b2 & b3 & b4 & t1 & t2 & t3 & t4 & F1 & F2 & F3 & F4 &
        _ & _ & _ & _ & Ht).
  exists (assembly_events o raw ++
          artifacts_trace o output b1 b2 b3 b4 t1 t2 t3 t4), b1, b2, b3, b4.
  split; [|split].
  - rewrite Ht. simpl. rewrite <- app_assoc. reflexivity.
  - rewrite changes_app, (artifacts_trace_changes _ _ _ _ _ _ _ _ _ _ F1 F2 F3 F4).
    unfold assembly_events. destruct (truthy (shouldOptimize o)); reflexivity.
  - pose proof (artifacts_trace_summary o output b1 b2 b3 b4 t1 t2 t3 t4) as Hs.
    assert (Hl : last (logged (assembly_events o raw ++
                   artifacts_trace o output b1 b2 b3 b4 t1 t2 t3 t4)) =
                 last (logged (artifacts_trace o output b1 b2 b3 b4 t1 t2 t3 t4))).
    { rewrite logged_app. unfold assembly_events.
      destruct (truthy (shouldOptimize o)); reflexivity. }
    unfold reports_generated, reports_up_to_date. rewrite Hl, Hs.
    destruct (b1 || b2 || b3); reflexivity.
Qed.

End Summary.

Section SummaryExamples.

Import Js.

#[local] Existing Instance Sample.externals.

Lemma summary_is_or_of_three_flags_witness :
  regenerate Sample.hashing Sample.fresh =
    (Returned tt, snd (regenerate Sample.hashing Sample.fresh)) /\
  exists t b1 b2 b3 b4,
    trace (snd (regenerate Sample.hashing Sample.fresh)) =
      trace Sample.fresh ++ t /\
    changes t =
      [(spriteFilepath Sample.hashing, b1);
       (typeOutputFilepath Sample.hashing, b2);
       (iconsOutputFilepath Sample.hashing, b3)] ++
      (if truthy (shouldHash Sample.hashing)
       then [(hashOutputFilepath Sample.hashing, b4)] else []) /\
    if b1 || b2 || b3
    then reports_generated (length (files Sample.hashing)) t
    else reports_up_to_date t.
Proof.
  assert (Hrun : regenerate Sample.hashing Sample.fresh =
                 (Returned tt, snd (regenerate Sample.hashing Sample.fresh)))
    by (vm_compute; reflexivity).
  split; [exact Hrun |].
  exact (summary_is_or_of_three_flags Sample.hashing Sample.fresh _ Hrun).
Defined.

(** C1, as stated, fails: when hashing is turned on for a project that was
    generated without it, the sprite, the types and the identifier array
    are unchanged and only the hash module is written; its flag is [true],
    yet the run reports up to date. *)
Lemma hash_module_change_is_not_reported :
  exists w',
    generateIconFiles Sample.hashing (Sample.generated Sample.plain)
      = (Returned tt, w') /\
    changes (trace w') =
      [("public/sprite.svg", false); ("out/types/icon-name.d.ts", false);
       ("out/icons.ts", false); ("out/hash.ts", true)] /\
    map fst (written (trace w')) = ["out/hash.ts"] /\
    reports_up_to_date (trace w') /\
    ~ reports_generated 1 (trace w').
Proof.
  eexists. split; [vm_compute; reflexivity |].
  split; [vm_compute; reflexivity |].
  split; [vm_compute; reflexivity |].
  split; [vm_compute; reflexivity |].
  vm_compute. discriminate.
Qed.

End SummaryExamples.

(** ** Path names *)

Section PathNames.

Import Js.

Lemma length_append a b :
  String.length (a +:+ b) = String.length a + String.length b.
Proof. induction a as [|c a IH]; simpl; [reflexivity | rewrite IH; reflexivity]. Qed.

Lemma append_assoc a b c : (a +:+ b) +:+ c = a +:+ b +:+ c.
Proof.
  induction a as [|x a IH]; [reflexivity|].
  change (String x (a +:+ b) +:+ c = String x (a +:+ b +:+ c)).
  change (String x ((a +:+ b) +:+ c) = String x (a +:+ b +:+ c)).
  rewrite IH. reflexivity.
Qed.

Lemma ends_with_split s t :
  ends_with s t = true -> exists u, s = u +:+ t.
Proof.
  induction s as [|c s IH]; cbn [ends_with].
  - rewrite orb_false_r. intros Heq%String.eqb_eq. exists EmptyString.
    exact Heq.
  - intros [Heq%String.eqb_eq | Hs]%orb_true_iff.
    + exists EmptyString. exact Heq.
    + destruct (IH Hs) as [u ->]. exists (String c u). reflexivity.
Qed.

Lemma append_empty a b : a +:+ b = EmptyString -> b = EmptyString.
Proof. destruct a; [intros Hb; exact Hb | discriminate]. Qed.

Lemma last_char_append a b :
  b <> EmptyString -> last_char (a +:+ b) = last_char b.
Proof.
  intros Hb. induction a as [|c a IH]; [reflexivity|].
  change (String c a +:+ b) with (String c (a +:+ b)).
  rewrite <- IH. destruct (a +:+ b) eqn:E; [|reflexivity].
  apply append_empty in E. contradiction.
Qed.

(** A final [.svg] is what the replacement of lines 88-91 replaces. *)
Lemma replace_svg_suffix_append u r :
  replace_svg_suffix (u +:+ ".svg") r = u +:+ r.
Proof.
  induction u as [|c u IH]; [reflexivity|].
  change (String c u +:+ ".svg") with (String c (u +:+ ".svg")).
  cbn [replace_svg_suffix].
  replace (String.eqb (String c (u +:+ ".svg")) ".svg") with false.
  - rewrite IH. reflexivity.
  - symmetry. apply String.eqb_neq. intros Heq.
    apply (f_equal String.length) in Heq. simpl in Heq.
    rewrite length_append in Heq. simpl in Heq. lia.
Qed.

(** The hash-suffixed name of a path that ends with [.svg] is longer than
    the path and still ends with [g]. *)
Lemma hashed_name s h :
  ends_with s "sprite.svg" = true ->
  let s' := replace_svg_suffix s ("." +:+ h +:+ ".svg") in
  String.length s < String.length s' /\ last_char s' = Some "g"%char.
Proof.
  intros [u ->]%ends_with_split. cbv zeta.
  change "sprite.svg" with ("sprite" +:+ ".svg").
  rewrite <- append_assoc, replace_svg_suffix_append. split.
  - rewrite !length_append. simpl. lia.
  - rewrite last_char_append by discriminate.
    change ("." +:+ h +:+ ".svg") with (String "." (h +:+ ".svg")).
    change (last_char (String "." (h +:+ ".svg")))
      with (match h +:+ ".svg" with
            | EmptyString => Some "."%char
            | String _ _ => last_char (h +:+ ".svg")
            end).
    destruct (h +:+ ".svg") eqn:E.
    + destruct h; discriminate.
    + rewrite <- E. apply last_char_append. discriminate.
Qed.

Lemma ends_with_last_char s t c :
  ends_with s t = true -> last_char t = Some c -> last_char s = Some c.
Proof.
  intros [u ->]%ends_with_split Ht. rewrite last_char_append; [exact Ht|].
  intros ->. discriminate.
Qed.

End PathNames.

Section Footprint.

Context `{Externals}.

Import Js.

Lemma elem_of_concat_map {A B} (f : A -> list B) l x y :
  x ∈ l -> y ∈ f x -> y ∈ concat (map f l).
Proof.
  intros Hx Hy. induction l as [|a l IH]; simpl.
  - apply elem_of_nil in Hx. destruct Hx.
  - apply elem_of_app. apply elem_of_cons in Hx as [<- | Hx]; auto.
Qed.

Lemma with_ancestors_closed (ds : list string) d q :
  d ∈ ds -> q ∈ d :: ancestors d -> q ∈ ds ++ concat (map ancestors ds).
Proof.
  intros Hd Hq. apply elem_of_app.
  apply elem_of_cons in Hq as [-> | Hq]; [left; exact Hd | right].
  apply (elem_of_concat_map ancestors ds d q Hd Hq).
Qed.

Lemma artifact_dirs_ensured o d q :
  d ∈ ensured_dirs o -> q ∈ d :: ancestors d -> q ∈ artifact_dirs o.
Proof. apply with_ancestors_closed. Qed.

Lemma artifact_dirs_types o q :
  q ∈ typesDir o :: ancestors (typesDir o) -> q ∈ artifact_dirs o.
Proof. apply artifact_dirs_ensured. apply list_elem_of_here. Qed.

Lemma artifact_dirs_parents o p q :
  p ∈ artifact_paths o ->
  q ∈ path_dirname p :: ancestors (path_dirname p) -> q ∈ artifact_dirs o.
Proof.
  intros Hp. apply artifact_dirs_ensured. apply list_elem_of_further.
  apply list_elem_of_fmap. exists p. split; [reflexivity | exact Hp].
Qed.

Lemma artifact_dirs_parent o p :
  p ∈ artifact_paths o -> path_dirname p ∈ artifact_dirs o.
Proof.
  intros Hp. apply (artifact_dirs_parents o p _ Hp). apply list_elem_of_here.
Qed.

Lemma footprint_write_artifacts o output :
  respects (footprint (artifact_paths o) (artifact_dirs o))
    (write_artifacts o output).
Proof.
  assert (Hw : forall p c h f, p ∈ artifact_paths o ->
            respects (footprint (artifact_paths o) (artifact_dirs o))
              (writeIfChanged p c h f)).
  { intros p c h f Hp. apply footprint_writeIfChanged;
      [exact Hp | intros q; apply artifact_dirs_parents, Hp]. }
  unfold write_artifacts, report_sprite, md5.
  repeat first
    [ apply respects_ret; apply footprint_refl
    | apply footprint_console_log
    | apply footprint_emit; exact I
    | apply Hw; unfold artifact_paths; set_solver
    | apply respects_for_each;
        [apply footprint_refl | apply footprint_trans | intros ?]
    | apply respects_bind; [apply footprint_trans | | intros ?]
    | match goal with
      | |- respects _ (if ?b then _ else _) => destruct b
      end ].
Qed.

Lemma footprint_regenerate o :
  respects (footprint (artifact_paths o) (artifact_dirs o)) (regenerate o).
Proof.
  unfold regenerate, generateSvgSprite, loadConfig, optimize.
  repeat first
    [ apply footprint_write_artifacts
    | apply respects_ret; apply footprint_refl
    | apply respects_on_disk; apply footprint_refl
    | apply footprint_emit; exact I
    | apply respects_bind; [apply footprint_trans | | intros ?]
    | match goal with
      | |- respects _ (if ?b then _ else _) => destruct b
      end ].
Qed.

(** A run writes at the four artifact paths only and creates directories
    at the types directory and at the parents of the artifacts only. *)
Lemma footprint_generateIconFiles o :
  respects (footprint (artifact_paths o) (artifact_dirs o))
    (generateIconFiles o).
Proof.
  unfold generateIconFiles.
  apply respects_bind; [apply footprint_trans | |].
  { apply footprint_ensureDir. apply artifact_dirs_types. }
  intros _.
  repeat first
    [ apply footprint_regenerate
    | apply footprint_console_log
    | apply footprint_readFile
    | apply respects_ret; apply footprint_refl
    | apply respects_bind; [apply footprint_trans | | intros ?]
    | apply respects_catch; [apply footprint_trans | | intros ?]
    | match goal with
      | |- respects _ (if ?b then _ else _) => destruct b
      end ].
Qed.

End Footprint.

(** ** The hash module *)

Section HashModule.

Context `{Externals}.

Import Js.

Lemma no_digest_hashed t : Forall no_digest t -> hashed t = [].
Proof.
  induction 1 as [|e t He _ IH]; [reflexivity|].
  destruct e; simpl in *; try contradiction; exact IH.
Qed.

(** C7: in a run that reaches the regeneration path, without [shouldHash]
    no digest is computed at all, however the run ends. When the run
    returns, with [output] the final sprite content (the assembled
    document, optimized when [shouldOptimize] is set): the sprite write is
    handed [output]; with [shouldHash] the digest of [output] is computed,
    handed to the sprite write, and a fourth change-detected write targets
    the hash module with the single exported constant holding that digest;
    without [shouldHash] there are three change-detected writes, none of
    them for the hash module. *)
Theorem hash_module_iff_shouldHash o w r w' :
  regenerate o w = (r, w') ->
  exists t,
    trace w' = trace w ++ t /\
    (truthy (shouldHash o) = false -> hashed t = []) /\
    (r = Returned tt ->
     exists output b1 b2 b3 b4,
       final_sprite o (disk w) = Returned output /\
       if truthy (shouldHash o) then
         calls t =
           [WriteIfChanged (spriteFilepath o) output (Some (md5_hex output))
              (force o) b1;
            WriteIfChanged (typeOutputFilepath o)
              (typeOutputContent (iconNames o)) None (force o) b2;
            WriteIfChanged (iconsOutputFilepath o)
              (iconsOutputContent (iconNames o)) None (force o) b3;
            WriteIfChanged (hashOutputFilepath o)
              ("export const hash = '" +:+ md5_hex output +:+ "';" +:+ LF)
              None (force o) b4] /\
         exists rest, hashed t = output :: rest
       else
         calls t =
           [WriteIfChanged (spriteFilepath o) output None (force o) b1;
            WriteIfChanged (typeOutputFilepath o)
              (typeOutputContent (iconNames o)) None (force o) b2;
            WriteIfChanged (iconsOutputFilepath o)
              (iconsOutputContent (iconNames o)) None (force o) b3]).
Proof.
  intros Hrun.
  destruct (footprint_regenerate o _ _ _ Hrun) as ([t [Ht _]] & _).
  exists t. split; [exact Ht | split].
  - intros Hh.
    destruct (no_digest_regenerate o Hh _ _ _ Hrun) as (t' & Ht' & Hnd).
    rewrite Ht in Ht'. apply app_inv_head in Ht'. subst t'.
    apply no_digest_hashed, Hnd.
  - intros ->.
    apply regenerate_Returned in Hrun as (raw & output & _ & Hout & Hrun).
    apply write_artifacts_trace in Hrun
      as (b1 & b2 & b3 & b4 & t1 & t2 & t3 & t4 & F1 & F2 & F3 & F4 &
          _ & _ & _ & _ & Hrun).
    simpl in Hrun. rewrite Ht, <- app_assoc in Hrun.
    apply app_inv_head in Hrun. subst t.
    exists output, b1, b2, b3, b4. split; [exact Hout|].
    pose proof (artifacts_trace_calls _ _ b1 b2 b3 b4 _ _ _ _ F1 F2 F3 F4) as Hc.
    pose proof (artifacts_trace_hashed o output b1 b2 b3 b4 t1 t2 t3 t4 F1 F2 F3)
      as Hh.
    assert (Ha : calls (assembly_events o raw) = [] /\
                 hashed (assembly_events o raw) = []).
    { unfold assembly_events. destruct (truthy (shouldOptimize o)); auto. }
    destruct Ha as [Ha1 Ha2].
    rewrite calls_app, hashed_app, Ha1, Ha2, Hc. simpl app.
    unfold run_hash, hashFileContent in *.
    destruct (truthy (shouldHash o)); auto.
Qed.

End HashModule.

Section HashModuleExamples.

Import Js.

#[local] Existing Instance Sample.externals.

Lemma hash_module_iff_shouldHash_witness :
  regenerate Sample.hashing Sample.fresh =
    (Returned tt, snd (regenerate Sample.hashing Sample.fresh)) /\
  exists t,
    trace (snd (regenerate Sample.hashing Sample.fresh)) =
      trace Sample.fresh ++ t /\
    exists output b1 b2 b3 b4,
      final_sprite Sample.hashing (disk Sample.fresh) = Returned output /\
      calls t =
        [WriteIfChanged "public/sprite.svg" output (Some (md5_hex output))
           None b1;
         WriteIfChanged "out/types/icon-name.d.ts"
           (typeOutputContent ["home"]) None None b2;
         WriteIfChanged "out/icons.ts"
           (iconsOutputContent ["home"]) None None b3;
         WriteIfChanged "out/hash.ts"
           ("export const hash = '" +:+ md5_hex output +:+ "';" +:+ LF)
           None None b4] /\
      exists rest, hashed t = output :: rest.
Proof.
  assert (Hrun : regenerate Sample.hashing Sample.fresh =
                 (Returned tt, snd (regenerate Sample.hashing Sample.fresh)))
    by (vm_compute; reflexivity).
  split; [exact Hrun |].
  destruct (hash_module_iff_shouldHash Sample.hashing Sample.fresh _ _ Hrun)
    as (t & Ht & _ & Hcalls).
  exists t. split; [exact Ht | exact (Hcalls eq_refl)].
Defined.

End HashModuleExamples.

(** ** Where the sprite is written *)

Section SpritePath.

Context `{Externals}.

Import Js.

(** With base names kept by [path.join], the sprite path differs from the
    three other artifact paths. *)
Lemma sprite_path_apart o :
  joined_names o ->
  spriteFilepath o <> typeOutputFilepath o /\
  spriteFilepath o <> iconsOutputFilepath o /\
  spriteFilepath o <> hashOutputFilepath o.
Proof.
  intros (Hs & Ht & Hi & Hh).
  pose proof (ends_with_last_char _ _ "g" Hs eq_refl) as Ls.
  pose proof (ends_with_last_char _ _ "s" Ht eq_refl) as Lt.
  pose proof (ends_with_last_char _ _ "s" Hi eq_refl) as Li.
  pose proof (ends_with_last_char _ _ "s" Hh eq_refl) as Lh.
  repeat split; intros Heq; rewrite Heq in Ls; congruence.
Qed.

(** The hash-suffixed name of the report is none of the artifact paths. *)
Lemma hashed_path_fresh o output :
  joined_names o -> hashedSpritePath o output ∉ artifact_paths o.
Proof.
  intros (Hs & Ht & Hi & Hh). unfold hashedSpritePath.
  destruct (hashed_name (spriteFilepath o) (interpolate (run_hash o output)) Hs)
    as [Hlen Hlast].
  pose proof (ends_with_last_char _ _ "s" Ht eq_refl) as Lt.
  pose proof (ends_with_last_char _ _ "s" Hi eq_refl) as Li.
  pose proof (ends_with_last_char _ _ "s" Hh eq_refl) as Lh.
  unfold artifact_paths. rewrite !not_elem_of_cons.
  repeat split; try (intros Heq; rewrite Heq in Hlast; congruence).
  - intros Heq. rewrite Heq in Hlen. lia.
  - apply not_elem_of_nil.
Qed.

Lemma writes_within_refl w : writes_within [] w w.
Proof. exists []. split; [symmetry; apply app_nil_r | constructor]. Qed.

Lemma writes_within_record l w w1 t :
  written t = [] -> writes_within l w w1 -> writes_within l w (record w1 t).
Proof.
  intros Hw (t1 & Ht & Hs). exists (t1 ++ t). split.
  - cbn [record trace]. rewrite Ht. symmetry. apply app_assoc.
  - rewrite written_app, Hw, app_nil_r. exact Hs.
Qed.

Lemma writes_within_sublist l l' w w' :
  l `sublist_of` l' -> writes_within l w w' -> writes_within l' w w'.
Proof.
  intros Hl (t & Ht & Hs). exists t. split; [exact Ht|].
  transitivity l; assumption.
Qed.

(** The write branch records the call that ensures the parent directory
    and, when that has returned, the physical write. *)
Lemma write_trace d p c w r w' :
  (ensureDir d;; writeFile p c;; ret true) w = (r, w') ->
  trace w' = trace w ++ [EnsureDir d] \/
  trace w' = trace w ++ [EnsureDir d; WriteFile p c].
Proof.
  unfold bind. destruct (ensureDir d w) as [[[]|e] w1] eqn:He;
    destruct (ensureDir_effect _ _ _ _ He) as (Ht1 & _).
  - rewrite writeFile_run.
    destruct (disk w1 !! p) as [[c0| |e]|]; intros [= _ <-];
      right; cbn [trace]; rewrite Ht1, <- app_assoc; reflexivity.
  - intros [= _ <-]. left. exact Ht1.
Qed.

(** However it ends, a change-detected write attempts at most one
    physical write: of the content it is given, at the path it is
    given. *)
Lemma writes_within_writeIfChanged p c h f :
  respects (writes_within [(p, c)]) (writeIfChanged p c h f).
Proof.
  intros w r w' Hrun. rewrite writeIfChanged_run in Hrun.
  destruct (read_existing p (disk w)) as [existing|e].
  - cbv zeta in Hrun.
    assert (Hread : writes_within [(p, c)] w
              (record w (ReadFile p :: comparison_digest existing h f))).
    { apply (writes_within_sublist []); [apply sublist_nil_l|].
      apply writes_within_record; [|apply writes_within_refl].
      simpl. apply comparison_digest_written. }
    destruct (needs_write existing c h f).
    + destruct ((ensureDir (path_dirname p);; writeFile p c;; ret true) _)
        as [r2 w2] eqn:Hw.
      assert (Hwr : writes_within [(p, c)] w w2).
      { apply write_trace in Hw. cbn [record trace] in Hw.
        destruct Hw as [Hw | Hw]; eexists; (split; [rewrite Hw, <- app_assoc;
          reflexivity|]); rewrite written_app; simpl;
          rewrite comparison_digest_written; simpl.
        - apply sublist_nil_l.
        - reflexivity. }
      destruct r2 as [b|e]; injection Hrun as _ <-; [|exact Hwr].
      apply writes_within_record; [reflexivity | exact Hwr].
    + injection Hrun as _ <-.
      apply writes_within_record; [reflexivity | exact Hread].
  - injection Hrun as _ <-.
    apply (writes_within_sublist []); [apply sublist_nil_l|].
    apply writes_within_record; [reflexivity | apply writes_within_refl].
Qed.

Lemma writes_within_step l w w0 t p c h f r w1 :
  writes_within l w w0 ->
  written t = [] ->
  writeIfChanged p c h f (record w0 t) = (r, w1) ->
  writes_within (l ++ [(p, c)]) w w1.
Proof.
  intros H0 Ht Hrun.
  apply (writes_within_record l w w0 t Ht) in H0.
  destruct H0 as (t0 & Ht0 & Hs0).
  destruct (writes_within_writeIfChanged _ _ _ _ _ _ _ Hrun)
    as (t1 & Ht1 & Hs1).
  exists (t0 ++ t1). split.
  - rewrite Ht1, Ht0. symmetry. apply app_assoc.
  - rewrite written_app. apply sublist_app; assumption.
Qed.

(** However it ends, [write_artifacts] attempts no other physical write
    than those of its artifacts, path and content, each at most once and
    in their order: the final sprite content goes to the sprite path and
    nowhere else. *)
Lemma writes_within_write_artifacts o output :
  respects (writes_within (artifacts o output)) (write_artifacts o output).
Proof.
  intros w r w' Hrun. rewrite write_artifacts_run in Hrun.
  assert (Hif : forall (b : bool) t, written t = [] ->
            written (if b then t else []) = []).
  { intros [] t Ht; [exact Ht | reflexivity]. }
  assert (Hrep : written (sprite_report o output) = [])
    by apply (sprite_report_observed o output).
  set (a1 := (spriteFilepath o, output)) in *.
  set (a2 := (typeOutputFilepath o, typeOutputContent (iconNames o))) in *.
  set (a3 := (iconsOutputFilepath o, iconsOutputContent (iconNames o))) in *.
  set (a4 := (hashOutputFilepath o, hashFileContent (run_hash o output))) in *.
  assert (Hall : forall l, l `sublist_of` [a1; a2; a3] ->
            l `sublist_of` artifacts o output).
  { intros l Hl. unfold artifacts. fold a1 a2 a3.
    apply sublist_inserts_r, Hl. }
  destruct (writeIfChanged (spriteFilepath o) _ _ _ _) as [r1 w1] eqn:H1.
  assert (R1 : writes_within [a1] w w1).
  { refine (writes_within_step [] w w _ _ _ _ _ _ _
              (writes_within_refl w) _ H1).
    destruct (truthy (shouldHash o)); reflexivity. }
  destruct r1 as [b1|e].
  2:{ injection Hrun as _ <-. apply (writes_within_sublist [a1]); [|exact R1].
      apply Hall. apply sublist_skip, sublist_nil_l. }
  destruct (writeIfChanged (typeOutputFilepath o) _ _ _ _) as [r2 w2] eqn:H2.
  assert (R2 : writes_within [a1; a2] w w2).
  { refine (writes_within_step [a1] w w1 _ _ _ _ _ _ _ R1 _ H2).
    apply Hif, Hrep. }
  destruct r2 as [b2|e].
  2:{ injection Hrun as _ <-.
      apply (writes_within_sublist [a1; a2]); [|exact R2].
      apply Hall. do 2 apply sublist_skip. apply sublist_nil_l. }
  destruct (writeIfChanged (iconsOutputFilepath o) _ _ _ _) as [r3 w3] eqn:H3.
  assert (R3 : writes_within [a1; a2; a3] w w3).
  { refine (writes_within_step [a1; a2] w w2 _ _ _ _ _ _ _ R2 _ H3).
    apply Hif. reflexivity. }
  destruct r3 as [b3|e].
  2:{ injection Hrun as _ <-.
      apply (writes_within_sublist [a1; a2; a3]); [|exact R3].
      apply Hall. reflexivity. }
  unfold artifacts. fold a1 a2 a3 a4.
  destruct (truthy (shouldHash o)).
  - destruct (writeIfChanged (hashOutputFilepath o) _ _ _ _)
      as [r4 w4] eqn:H4.
    assert (R4 : writes_within ([a1; a2; a3] ++ [a4]) w w4).
    { refine (writes_within_step [a1; a2; a3] w w3 _ _ _ _ _ _ _ R3 _ H4).
      apply Hif. reflexivity. }
    destruct r4 as [b4|e]; injection Hrun as _ <-; [|exact R4].
    apply writes_within_record; [|exact R4].
    rewrite written_app. destruct b4; reflexivity.
  - injection Hrun as _ <-. rewrite app_nil_r.
    apply writes_within_record; [|exact R3].
    rewrite written_app. destruct b3; reflexivity.
Qed.

(** The physical writes of a regeneration, however it ends, are among the
    artifacts of the final sprite content; when there is any, the final
    sprite content has been assembled. *)
Lemma regenerate_writes o w r w' :
  regenerate o w = (r, w') ->
  exists t output,
    trace w' = trace w ++ t /\
    written t `sublist_of` artifacts o output /\
    (written t <> [] -> final_sprite o (disk w) = Returned output).
Proof.
  assert (Hnone : forall t,
            written t = [] ->
            exists t0 output,
              trace (record w t) = trace w ++ t0 /\
              written t0 `sublist_of` artifacts o output /\
              (written t0 <> [] ->
               final_sprite o (disk w) = Returned output)).
  { intros t Ht. exists t, EmptyString.
    split; [reflexivity | rewrite Ht; split; [apply sublist_nil_l|]].
    intros Hne. destruct (Hne eq_refl). }
  assert (Hass : forall raw, written (assembly_events o raw) = []).
  { intros raw. unfold assembly_events.
    destruct (truthy (shouldOptimize o)); reflexivity. }
  assert (Hart : forall raw output,
            final_sprite o (disk w) = Returned output ->
            write_artifacts o output (record w (assembly_events o raw))
              = (r, w') ->
            exists t output,
              trace w' = trace w ++ t /\
              written t `sublist_of` artifacts o output /\
              (written t <> [] ->
               final_sprite o (disk w) = Returned output)).
  { intros raw output Hfin Hw.
    destruct (writes_within_write_artifacts o output _ _ _ Hw)
      as (t & Ht & Hs).
    exists (assembly_events o raw ++ t), output.
    split; [rewrite Ht; symmetry; apply app_assoc | split].
    - rewrite written_app, Hass. exact Hs.
    - intros _. exact Hfin. }
  rewrite regenerate_run. unfold final_sprite in *.
  destruct (assemble (disk w) (files o) (inputDir o)) as [raw|e].
  - destruct (truthy (shouldOptimize o)) eqn:Ho.
    + destruct (load_config (disk w)) as [config|e].
      * destruct (svgo_optimize raw config) as [output|e] eqn:Hopt.
        -- apply (Hart raw output eq_refl).
        -- intros [= _ <-]. apply Hnone, Hass.
      * intros [= _ <-]. apply Hnone. reflexivity.
    + apply (Hart raw raw eq_refl).
  - intros [= _ <-]. apply Hnone. reflexivity.
Qed.

(** C6: whatever a run with [shouldHash] does and however it ends, every
    physical write it attempts is the write of one of its artifacts, path
    and content, each at most once and in their order: the final sprite
    content [output] is written at [spriteOutputDir/sprite.svg] and
    nowhere else, and every other write is that of the type declarations,
    of the identifier array or of the hash module, with its own content at
    its own path. The hash-suffixed name [sprite.<hash>.svg] is none of
    the artifact paths, is never the target of a write, and no file
    appears under it. When the run returns and the sprite write has
    reported a change, the final sprite content has been written at the
    sprite path, and the run has reported the hash-suffixed name of that
    content on the console. *)
Theorem sprite_is_written_at_sprite_svg_only o w r w' :
  truthy (shouldHash o) = true ->
  joined_names o ->
  generateIconFiles o w = (r, w') ->
  exists t output,
    trace w' = trace w ++ t /\
    written t `sublist_of` artifacts o output /\
    (written t <> [] ->
     exists w1,
       ensureDir (typesDir o) w = (Returned tt, w1) /\
       final_sprite o (disk w1) = Returned output) /\
    (forall p c,
       (p, c) ∈ written t ->
       (p = spriteFilepath o /\ c = output) \/
       (p <> spriteFilepath o /\
        (p, c) ∈ [(typeOutputFilepath o, typeOutputContent (iconNames o));
                  (iconsOutputFilepath o, iconsOutputContent (iconNames o));
                  (hashOutputFilepath o,
                   hashFileContent (Some (md5_hex output)))])) /\
    (forall output',
       (hashedSpritePath o output' ∉ artifact_paths o) /\
       (hashedSpritePath o output' ∉ map fst (written t)) /\
       forall c,
         disk w' !! hashedSpritePath o output' = Some (File c) ->
         disk w !! hashedSpritePath o output' = Some (File c)) /\
    (r = Returned tt ->
     (spriteFilepath o, true) ∈ changes t ->
     (spriteFilepath o, output) ∈ written t /\
     ConsoleLog ("Saved to " +:+
                 path_relative cwd (hashedSpritePath o output)) ∈ t).
Proof.
  intros Hhash Hnames Hrun.
  destruct (sprite_path_apart o Hnames) as (N2 & N3 & N4).
  destruct (footprint_generateIconFiles o _ _ _ Hrun)
    as ([t [Ht Hw]] & _ & Hnew & _).
  assert (Hmain : exists output,
            written t `sublist_of` artifacts o output /\
            (written t <> [] ->
             exists w1,
               ensureDir (typesDir o) w = (Returned tt, w1) /\
               final_sprite o (disk w1) = Returned output) /\
            (r = Returned tt ->
             (spriteFilepath o, true) ∈ changes t ->
             (spriteFilepath o, output) ∈ written t /\
             ConsoleLog ("Saved to " +:+
                         path_relative cwd (hashedSpritePath o output)) ∈ t)).
  { rewrite generateIconFiles_run in Hrun.
    destruct (ensureDir (typesDir o) w) as [[[]|e] w1] eqn:He.
    2:{ injection Hrun as <- <-.
        destruct (ensureDir_effect _ _ _ _ He) as (Ht1 & _).
        rewrite Ht1 in Ht. apply app_inv_head in Ht. subst t.
        exists EmptyString. split; [apply sublist_nil_l | split].
        - intros Hne. destruct (Hne eq_refl).
        - discriminate. }
    pose proof (ensureDir_trace _ _ _ He) as Ht1. cbv zeta in Hrun.
    destruct (_ && _).
    - injection Hrun as _ <-. simpl in Ht. rewrite Ht1, <- app_assoc in Ht.
      apply app_inv_head in Ht. subst t.
      exists EmptyString. split; [apply sublist_nil_l | split].
      + intros Hne. destruct (Hne eq_refl).
      + intros _ Hc. simpl in Hc. apply elem_of_nil in Hc. destruct Hc.
    - destruct (regenerate_writes o _ _ _ Hrun)
        as (t2 & output & Ht2 & Hs2 & Hfin2).
      cbn [disk trace] in Ht2, Hfin2.
      assert (Hsame : t = [EnsureDir (typesDir o);
                           ReadFile (spriteFilepath o);
                           ReadFile (typeOutputFilepath o)] ++ t2).
      { rewrite Ht, Ht1, <- !app_assoc in Ht2.
        apply app_inv_head in Ht2. exact Ht2. }
      exists output. split; [|split].
      + rewrite Hsame, written_app. exact Hs2.
      + intros Hne. exists w1. split; [reflexivity|]. apply Hfin2.
        rewrite Hsame, written_app in Hne. exact Hne.
      + intros -> Hc.
        apply regenerate_Returned in Hrun
          as (raw & output' & _ & Hfin' & Hrun).
        cbn [disk] in Hfin'.
        apply write_artifacts_trace in Hrun
          as (b1 & b2 & b3 & b4 & t1 & t2' & t3 & t4 & F1 & F2 & F3 & F4 &
              W1 & W2 & W3 & W4 & Hrun).
        simpl in Hrun. rewrite Ht, Ht1, <- !app_assoc in Hrun.
        apply app_inv_head in Hrun.
        assert (Ha : written (assembly_events o raw) = [] /\
                     changes (assembly_events o raw) = []).
        { unfold assembly_events.
          destruct (truthy (shouldOptimize o)); split; reflexivity. }
        destruct Ha as [Haw Hac].
        assert (Hb1 : b1 = true).
        { rewrite Hrun in Hc.
          change (?a :: ?b :: ?c :: ?l) with ([a; b; c] ++ l) in Hc.
          rewrite !changes_app, Hac,
            (artifacts_trace_changes o output' b1 b2 b3 b4 t1 t2' t3 t4
               F1 F2 F3 F4), Hhash in Hc.
          simpl in Hc. rewrite !elem_of_cons, elem_of_nil in Hc.
          clear -Hc N2 N3 N4. intuition congruence. }
        subst b1.
        assert (Hout : output' = output).
        { assert (Hin : (spriteFilepath o, output') ∈ written t).
          { rewrite Hrun.
            change (?a :: ?b :: ?c :: ?l) with ([a; b; c] ++ l).
            rewrite !written_app, Haw,
              (artifacts_trace_written o output' true b2 b3 b4
                 t1 t2' t3 t4), W1.
            simpl. apply list_elem_of_here. }
          assert (Hne : written t <> []).
          { intros Hnil. rewrite Hnil in Hin. apply elem_of_nil in Hin.
            destruct Hin. }
          rewrite Hsame, written_app in Hne. simpl in Hne.
          specialize (Hfin2 Hne). congruence. }
        subst output'. split.
        * rewrite Hrun.
          change (?a :: ?b :: ?c :: ?l) with ([a; b; c] ++ l).
          rewrite !written_app, Haw,
            (artifacts_trace_written o output true b2 b3 b4 t1 t2' t3 t4),
            W1.
          simpl. apply list_elem_of_here.
        * rewrite Hrun.
          do 3 apply list_elem_of_further.
          apply elem_of_app; right.
          unfold artifacts_trace. rewrite Hhash.
          do 3 (apply elem_of_app; right). apply elem_of_app. left.
          unfold sprite_report. rewrite Hhash.
          apply list_elem_of_further. apply elem_of_app. right.
          apply list_elem_of_further. apply list_elem_of_further.
          apply list_elem_of_here. }
  destruct Hmain as (output & Hsub & Hfin & Hret).
  exists t, output.
  split; [exact Ht | split; [exact Hsub | split; [exact Hfin | split;
    [|split; [|exact Hret]]]]].
  - intros p c Hin.
    apply (fun H => elem_of_sublist _ _ _ H Hsub) in Hin.
    unfold artifacts, run_hash in Hin. rewrite Hhash in Hin.
    simpl in Hin. rewrite !elem_of_cons, elem_of_nil in Hin.
    destruct Hin as [[= -> ->] | Hin]; [left; auto | right].
    split.
    + destruct Hin as [[= -> _] | [[= -> _] | [[= -> _] | []]]]; auto.
    + rewrite !elem_of_cons. tauto.
  - intros output'.
    pose proof (hashed_path_fresh o output' Hnames) as Hfresh.
    split; [exact Hfresh | split].
    + intros Hin. apply list_elem_of_fmap in Hin as [[p c] [Hp Hpc]].
      rewrite Forall_forall in Hw. apply Hfresh.
      rewrite Hp. apply (Hw _ Hpc).
    + intros c. apply Hnew, Hfresh.
Qed.

End SpritePath.

(** ** The force flag *)

Section Force.

Context `{Externals}.

Import Js.

(** C4: with a non-empty [files] list, [force] set and a disk on which
    every artifact of the run already holds exactly its freshly computed
    content, the run is not cut short by the up-to-date pre-check: it
    returns after writing every artifact (four with [shouldHash], three
    without) with its content, in order; every change-detected write
    resolves to [true] and the run reports generated. *)
Theorem force_rewrites_identical_artifacts o w output :
  files o <> [] ->
  truthy (force o) = true ->
  disk w !! typesDir o = Some Dir ->
  final_sprite o (disk w) = Returned output ->
  Forall (fun pc => disk w !! pc.1 = Some (File pc.2) /\
                    disk w !! path_dirname pc.1 = Some Dir)
         (artifacts o output) ->
  exists t,
    generateIconFiles o w = (Returned tt, World (disk w) (trace w ++ t)) /\
    written t = artifacts o output /\
    changes t = map (fun pc => (pc.1, true)) (artifacts o output) /\
    reports_generated (length (files o)) t.
Proof.
  intros Hne Hf Hdir Hfin Hdisk.
  unfold artifacts in Hdisk. apply Forall_app in Hdisk as [H123 H4].
  apply Forall_cons in H123 as [[D1 P1] H123].
  apply Forall_cons in H123 as [[D2 P2] H123].
  apply Forall_cons in H123 as [[D3 P3] _].
  simpl in D1, P1, D2, P2, D3, P3.
  assert (Ha : exists raw, assemble (disk w) (files o) (inputDir o) = Returned raw).
  { unfold final_sprite in Hfin.
    destruct (assemble (disk w) (files o) (inputDir o)) as [raw|e];
      [eauto | discriminate]. }
  destruct Ha as [raw Ha].
  assert (Hrun : generateIconFiles o w =
                 write_artifacts o output
                   (record w ([EnsureDir (typesDir o);
                               ReadFile (spriteFilepath o);
                               ReadFile (typeOutputFilepath o)] ++
                              assembly_events o raw))).
  { rewrite generateIconFiles_run, ensureDir_run, Hdir. cbv zeta.
    cbn [disk trace].
    assert (Htxt : text_of (read_node (typeOutputFilepath o) (disk w)) =
                   typeOutputContent (iconNames o)).
    { unfold read_node. rewrite D2. reflexivity. }
    rewrite Htxt, typesUpToDate_own_output by (apply iconNames_nonempty, Hne).
    rewrite andb_false_r.
    erewrite regenerate_assembled; [| exact Ha | exact Hfin].
    unfold record. cbn [disk trace]. rewrite <- !app_assoc. reflexivity. }
  rewrite Hrun, write_artifacts_run.
  rewrite (writeIfChanged_forced (spriteFilepath o)) by assumption.
  rewrite (writeIfChanged_forced (typeOutputFilepath o)) by assumption.
  rewrite (writeIfChanged_forced (iconsOutputFilepath o)) by assumption.
  pose proof (artifacts_trace_written o output) as Hwritten.
  pose proof (artifacts_trace_changes o output) as Hchanges.
  pose proof (artifacts_trace_summary o output true true true) as Hsummary.
  assert (Hpre : forall raw0,
            written ([EnsureDir (typesDir o); ReadFile (spriteFilepath o);
                      ReadFile (typeOutputFilepath o)] ++
                     assembly_events o raw0) = [] /\
            changes ([EnsureDir (typesDir o); ReadFile (spriteFilepath o);
                      ReadFile (typeOutputFilepath o)] ++
                     assembly_events o raw0) = [] /\
            logged ([EnsureDir (typesDir o); ReadFile (spriteFilepath o);
                     ReadFile (typeOutputFilepath o)] ++
                    assembly_events o raw0) = []).
  { intros raw0. unfold assembly_events.
    destruct (truthy (shouldOptimize o)); auto. }
  destruct (Hpre raw) as (Pw & Pc & Pl).
  assert (Fw : forall h p c, Forall (writer_event h) (forced_write p c)).
  { intros h p c. repeat constructor. }
  unfold artifacts.
  destruct (truthy (shouldHash o)) eqn:Hh.
  - apply Forall_cons in H4 as [[D4 P4] _]. simpl in D4, P4.
    rewrite (writeIfChanged_forced (hashOutputFilepath o)) by assumption.
    exists (([EnsureDir (typesDir o); ReadFile (spriteFilepath o);
              ReadFile (typeOutputFilepath o)] ++ assembly_events o raw) ++
            artifacts_trace o output true true true true
              (forced_write (spriteFilepath o) output)
              (forced_write (typeOutputFilepath o)
                 (typeOutputContent (iconNames o)))
              (forced_write (iconsOutputFilepath o)
                 (iconsOutputContent (iconNames o)))
              (forced_write (hashOutputFilepath o)
                 (hashFileContent (run_hash o output)))).
    split; [|split; [|split]].
    + rewrite !record_record. unfold record. do 3 f_equal.
      unfold artifacts_trace. rewrite Hh, <- !app_assoc. reflexivity.
    + rewrite written_app, Pw, Hwritten. reflexivity.
    + rewrite changes_app, Pc, Hchanges by apply Fw. reflexivity.
    + unfold reports_generated. rewrite logged_app, Pl. apply Hsummary.
  - exists (([EnsureDir (typesDir o); ReadFile (spriteFilepath o);
              ReadFile (typeOutputFilepath o)] ++ assembly_events o raw) ++
            artifacts_trace o output true true true false
              (forced_write (spriteFilepath o) output)
              (forced_write (typeOutputFilepath o)
                 (typeOutputContent (iconNames o)))
              (forced_write (iconsOutputFilepath o)
                 (iconsOutputContent (iconNames o)))
              []).
    split; [|split; [|split]].
    + rewrite !record_record. unfold record. do 3 f_equal.
      unfold artifacts_trace. rewrite Hh, <- !app_assoc. reflexivity.
    + rewrite written_app, Pw, Hwritten. reflexivity.
    + rewrite changes_app, Pc, Hchanges by first [apply Fw | constructor].
      reflexivity.
    + unfold reports_generated. rewrite logged_app, Pl. apply Hsummary.
Qed.

End Force.

(** ** Running the generator twice *)

Section Idempotence.

Context `{Externals}.

Import Js.

Lemma writeIfChanged_frame p c h f w r w' q :
  writeIfChanged p c h f w = (r, w') ->
  q <> p -> q ∉ path_dirname p :: ancestors (path_dirname p) ->
  disk w' !! q = disk w !! q.
Proof.
  intros Hrun Hp Hd.
  destruct (footprint_writeIfChanged [p]
              (path_dirname p :: ancestors (path_dirname p)) p c h f
              ltac:(apply list_elem_of_here) ltac:(auto)
              _ _ _ Hrun) as (_ & Hframe & _).
  apply Hframe; [|exact Hd]. rewrite elem_of_cons, elem_of_nil. tauto.
Qed.

Lemma layout_distinct o :
  layout_ok o ->
  spriteFilepath o <> typeOutputFilepath o /\
  spriteFilepath o <> iconsOutputFilepath o /\
  spriteFilepath o <> hashOutputFilepath o /\
  typeOutputFilepath o <> iconsOutputFilepath o /\
  typeOutputFilepath o <> hashOutputFilepath o /\
  iconsOutputFilepath o <> hashOutputFilepath o.
Proof.
  intros [Hnd _]. unfold artifact_paths in Hnd.
  rewrite !NoDup_cons, !not_elem_of_cons in Hnd. tauto.
Qed.

Lemma layout_no_parent o p q :
  layout_ok o -> p ∈ artifact_paths o -> q ∈ artifact_paths o ->
  p ∉ path_dirname q :: ancestors (path_dirname q).
Proof.
  intros [_ Hd] Hp Hq Hin. rewrite Forall_forall in Hd.
  apply (Hd p Hp). apply (artifact_dirs_parents o q p Hq Hin).
Qed.

Lemma final_sprite_same_sources o d d' :
  sources_apart o d -> same_sources o d d' ->
  assemble d' (files o) (inputDir o) = assemble d (files o) (inputDir o) /\
  final_sprite o d' = final_sprite o d.
Proof.
  intros Hs Hd. destruct (Hs d' Hd) as [Ha Hc].
  split; [exact Ha|]. unfold final_sprite. rewrite Ha, Hc. reflexivity.
Qed.

Lemma run_hash_digest o output hh :
  run_hash o output = Some hh -> hh = md5_hex output.
Proof. unfold run_hash. destruct (truthy (shouldHash o)); congruence. Qed.

(** After a returning [write_artifacts], with artifact paths laid out
    apart, every artifact of the run is settled on the disk. *)
Lemma write_artifacts_settles o output w w' :
  layout_ok o ->
  write_artifacts o output w = (Returned tt, w') ->
  settled (disk w') (spriteFilepath o) output (run_hash o output) /\
  settled (disk w') (typeOutputFilepath o) (typeOutputContent (iconNames o))
    None /\
  settled (disk w') (iconsOutputFilepath o)
    (iconsOutputContent (iconNames o)) None /\
  (truthy (shouldHash o) = true ->
   settled (disk w') (hashOutputFilepath o)
     (hashFileContent (run_hash o output)) None).
Proof.
  intros Hlay.
  destruct (layout_distinct o Hlay) as (N12 & N13 & N14 & N23 & N24 & N34).
  assert (Hin : forall p, p ∈ artifact_paths o ->
            forall q, q ∈ artifact_paths o ->
            p ∉ path_dirname q :: ancestors (path_dirname q)).
  { intros p Hp q Hq. apply (layout_no_parent o p q Hlay Hp Hq). }
  assert (I1 : spriteFilepath o ∈ artifact_paths o)
    by (unfold artifact_paths; rewrite !elem_of_cons; tauto).
  assert (I2 : typeOutputFilepath o ∈ artifact_paths o)
    by (unfold artifact_paths; rewrite !elem_of_cons; tauto).
  assert (I3 : iconsOutputFilepath o ∈ artifact_paths o)
    by (unfold artifact_paths; rewrite !elem_of_cons; tauto).
  assert (I4 : hashOutputFilepath o ∈ artifact_paths o)
    by (unfold artifact_paths; rewrite !elem_of_cons; tauto).
  rewrite write_artifacts_run.
  destruct (writeIfChanged (spriteFilepath o) _ _ _ _)
    as [[b1|e] w1] eqn:H1; [|discriminate].
  destruct (writeIfChanged (typeOutputFilepath o) _ _ _ _)
    as [[b2|e] w2] eqn:H2; [|discriminate].
  destruct (writeIfChanged (iconsOutputFilepath o) _ _ _ _)
    as [[b3|e] w3] eqn:H3; [|discriminate].
  pose proof (writeIfChanged_settles _ _ _ _ _ _ _ H1 (run_hash_digest o output))
    as S1.
  pose proof (writeIfChanged_settles _ _ _ _ _ _ _ H2
                ltac:(intros hh [=])) as S2.
  pose proof (writeIfChanged_settles _ _ _ _ _ _ _ H3
                ltac:(intros hh [=])) as S3.
  pose proof (fun q => writeIfChanged_frame _ _ _ _ _ _ _ q H2) as F2.
  pose proof (fun q => writeIfChanged_frame _ _ _ _ _ _ _ q H3) as F3.
  cbn [disk record] in F2, F3.
  destruct (truthy (shouldHash o)).
  - destruct (writeIfChanged (hashOutputFilepath o) _ _ _ _)
      as [[b4|e] w4] eqn:H4; [|discriminate].
    pose proof (writeIfChanged_settles _ _ _ _ _ _ _ H4
                  ltac:(intros hh [=])) as S4.
    pose proof (fun q => writeIfChanged_frame _ _ _ _ _ _ _ q H4) as F4.
    cbn [disk record] in F4.
    intros [= <-]. cbn [disk record].
    split; [|split; [|split]].
    + apply (settled_frame (disk w1)); [|exact S1].
      rewrite F4, F3, F2; auto.
    + apply (settled_frame (disk w2)); [|exact S2].
      rewrite F4, F3; auto.
    + apply (settled_frame (disk w3)); [|exact S3].
      rewrite F4; auto.
    + intros _. exact S4.
  - intros [= <-]. cbn [disk record].
    split; [|split; [|split]].
    + apply (settled_frame (disk w1)); [|exact S1].
      rewrite F3, F2; auto.
    + apply (settled_frame (disk w2)); [|exact S2].
      rewrite F3; auto.
    + exact S3.
    + discriminate.
Qed.

(** On a disk where every artifact is settled, [write_artifacts] without
    [force] writes nothing: every change-detected write resolves to
    [false]. *)
Lemma write_artifacts_settled o output w :
  truthy (force o) = false ->
  settled (disk w) (spriteFilepath o) output (run_hash o output) ->
  settled (disk w) (typeOutputFilepath o) (typeOutputContent (iconNames o))
    None ->
  settled (disk w) (iconsOutputFilepath o)
    (iconsOutputContent (iconNames o)) None ->
  (truthy (shouldHash o) = true ->
   settled (disk w) (hashOutputFilepath o)
     (hashFileContent (run_hash o output)) None) ->
  exists t1 t2 t3 t4,
    Forall (writer_event (run_hash o output)) t1 /\
    Forall (writer_event None) t2 /\
    Forall (writer_event None) t3 /\
    Forall (writer_event None) t4 /\
    written t1 = [] /\ written t2 = [] /\ written t3 = [] /\
    written t4 = [] /\
    write_artifacts o output w =
    (Returned tt,
     record w (artifacts_trace o output false false false false t1 t2 t3 t4)).
Proof.
  intros Hf S1 S2 S3 S4. rewrite write_artifacts_run.
  destruct (writeIfChanged_settled (spriteFilepath o) output
              (run_hash o output) (force o)
              (record w (if truthy (shouldHash o) then [Md5 output] else []))
              Hf S1) as (t1 & E1 & F1 & W1).
  rewrite E1. cbv iota.
  destruct (writeIfChanged_settled (typeOutputFilepath o)
              (typeOutputContent (iconNames o)) None (force o)
              (record (record (record w
                 (if truthy (shouldHash o) then [Md5 output] else []))
                 (t1 ++ [WriteIfChanged (spriteFilepath o) output
                           (run_hash o output) (force o) false])) [])
              Hf S2) as (t2 & E2 & F2 & W2).
  rewrite E2. cbv iota.
  match goal with
  | |- context [writeIfChanged (iconsOutputFilepath o) ?c ?h ?f ?w0] =>
      destruct (writeIfChanged_settled (iconsOutputFilepath o) c h f w0 Hf S3)
        as (t3 & E3 & F3 & W3)
  end.
  rewrite E3. cbv iota.
  destruct (truthy (shouldHash o)) eqn:Hh.
  - match goal with
    | |- context [writeIfChanged (hashOutputFilepath o) ?c ?h ?f ?w0] =>
        destruct (writeIfChanged_settled (hashOutputFilepath o) c h f w0 Hf
                    (S4 eq_refl)) as (t4 & E4 & F4 & W4)
    end.
    rewrite E4. cbv iota.
    exists t1, t2, t3, t4. repeat (split; [assumption|]).
    rewrite !record_nil, !record_record. unfold artifacts_trace.
    rewrite Hh. cbn [orb].
    apply (f_equal (fun t => (Returned tt, record w t))).
    rewrite <- ?app_assoc. reflexivity.
  - exists t1, t2, t3, []. repeat (split; [first [assumption | constructor]|]).
    rewrite !record_nil, !record_record. unfold artifacts_trace.
    rewrite Hh. cbn [orb].
    apply (f_equal (fun t => (Returned tt, record w t))).
    rewrite <- ?app_assoc. reflexivity.
Qed.

(** C3 (as amended): without [force], with artifact paths laid out apart
    and sources that are not among the artifacts, a run that returns
    leaves a disk on which a second run with the same options returns
    too, performs no physical write, leaves the disk as it is, resolves
    every change-detected write it makes to [false] and reports up to
    date. *)
Theorem second_run_writes_nothing o w0 w1 :
  truthy (force o) = false ->
  layout_ok o ->
  sources_apart o (disk w0) ->
  generateIconFiles o w0 = (Returned tt, w1) ->
  exists t,
    generateIconFiles o w1 = (Returned tt, World (disk w1) (trace w1 ++ t)) /\
    written t = [] /\
    Forall (fun pb => pb.2 = false) (changes t) /\
    reports_up_to_date t.
Proof.
  intros Hf Hlay Hsrc Hrun1.
  destruct (footprint_generateIconFiles o _ _ _ Hrun1) as (_ & Hframe1 & _).
  assert (Hsame1 : same_sources o (disk w0) (disk w1)).
  { intros p Hp Hd. apply Hframe1; assumption. }
  rewrite generateIconFiles_run in Hrun1.
  destruct (ensureDir (typesDir o) w0) as [[[]|e] wa] eqn:He; [|discriminate].
  destruct (ensureDir_disk _ _ _ He) as [Hdir Hframe_a]. cbv zeta in Hrun1.
  assert (Hsame_a : same_sources o (disk w0) (disk wa)).
  { intros p _ Hd. apply Hframe_a.
    - intros ->. apply Hd, artifact_dirs_types, list_elem_of_here.
    - intros Hin. apply Hd, artifact_dirs_types, list_elem_of_further, Hin. }
  set (reads := [ReadFile (spriteFilepath o); ReadFile (typeOutputFilepath o)])
    in *.
  assert (Hshort : forall d tr,
            d !! typesDir o = Some Dir ->
            spriteUpToDate (iconNames o)
              (text_of (read_node (spriteFilepath o) d))
            && typesUpToDate (iconNames o)
                 (text_of (read_node (typeOutputFilepath o) d)) = true ->
            exists t,
              generateIconFiles o (World d tr) =
                (Returned tt, World d (tr ++ t)) /\
              written t = [] /\
              Forall (fun pb => pb.2 = false) (changes t) /\
              reports_up_to_date t).
  { intros d tr Hd Hcheck.
    exists ([EnsureDir (typesDir o)] ++ reads ++
            [ConsoleLog "Icons are up to date"]).
    split; [|split; [reflexivity | split; [constructor | reflexivity]]].
    rewrite generateIconFiles_run, ensureDir_run. cbn [disk trace].
    rewrite Hd. cbv zeta. cbn [disk trace]. fold reads.
    rewrite Hcheck, <- !app_assoc. reflexivity. }
  destruct (_ && _) eqn:Hcheck.
  - injection Hrun1 as <-. cbn [disk trace].
    apply Hshort; [exact Hdir | exact Hcheck].
  - destruct (footprint_regenerate o _ _ _ Hrun1) as (_ & _ & _ & Hdirs).
    pose proof (Hdirs _ Hdir) as Hdir1.
    apply regenerate_Returned in Hrun1 as (raw & output & Ha & Hfin & Hwa).
    cbn [disk] in Ha, Hfin.
    destruct (write_artifacts_settles o output _ _ Hlay Hwa)
      as (S1 & S2 & S3 & S4).
    destruct (final_sprite_same_sources o _ _ Hsrc Hsame_a) as [Ha_a Hfin_a].
    destruct (final_sprite_same_sources o _ _ Hsrc Hsame1) as [Ha_1 Hfin_1].
    assert (Ha1 : assemble (disk w1) (files o) (inputDir o) = Returned raw).
    { rewrite Ha_1, <- Ha_a. exact Ha. }
    assert (Hfin1 : final_sprite o (disk w1) = Returned output).
    { rewrite Hfin_1, <- Hfin_a. exact Hfin. }
    destruct w1 as [d1 tr1]. cbn [disk trace] in *.
    destruct (spriteUpToDate (iconNames o)
                (text_of (read_node (spriteFilepath o) d1))
              && typesUpToDate (iconNames o)
                   (text_of (read_node (typeOutputFilepath o) d1)))
      eqn:Hcheck2.
    + apply Hshort; [exact Hdir1 | exact Hcheck2].
    + destruct (write_artifacts_settled o output
                  (record (World d1 (tr1 ++ [EnsureDir (typesDir o)] ++ reads))
                     (assembly_events o raw)) Hf S1 S2 S3 S4)
        as (t1 & t2 & t3 & t4 & F1 & F2 & F3 & F4 & W1 & W2 & W3 & W4 & E).
      exists (([EnsureDir (typesDir o)] ++ reads ++ assembly_events o raw) ++
              artifacts_trace o output false false false false t1 t2 t3 t4).
      assert (Hpre : written ([EnsureDir (typesDir o)] ++ reads ++
                              assembly_events o raw) = [] /\
                     changes ([EnsureDir (typesDir o)] ++ reads ++
                              assembly_events o raw) = [] /\
                     logged ([EnsureDir (typesDir o)] ++ reads ++
                             assembly_events o raw) = []).
      { unfold assembly_events. destruct (truthy (shouldOptimize o)); auto. }
      destruct Hpre as (Pw & Pc & Pl).
      split; [|split; [|split]].
      * rewrite generateIconFiles_run, ensureDir_run. cbn [disk trace].
        rewrite Hdir1. cbv zeta. cbn [disk trace]. fold reads.
        rewrite Hcheck2.
        erewrite regenerate_assembled; [| exact Ha1 | exact Hfin1].
        rewrite <- app_assoc, E. unfold record. cbn [disk trace].
        rewrite <- !app_assoc. reflexivity.
      * rewrite written_app, Pw,
          (artifacts_trace_written o output false false false false
             t1 t2 t3 t4), W1, W2, W3, W4.
        destruct (truthy (shouldHash o)); reflexivity.
      * rewrite changes_app, Pc,
          (artifacts_trace_changes o output false false false false
             t1 t2 t3 t4 F1 F2 F3 F4).
        destruct (truthy (shouldHash o)); repeat constructor.
      * unfold reports_up_to_date. rewrite logged_app, Pl.
        apply (artifacts_trace_summary o output false false false false
                 t1 t2 t3 t4).
Qed.

End Idempotence.

(** ** Writes on concrete projects *)

Section WriteExamples.

Import Js.

#[local] Existing Instance Sample.externals.

Lemma sample_layout_ok fs h f : layout_ok (Sample.options fs h f).
Proof.
  split.
  - apply (bool_decide_eq_true_1 _). vm_compute. reflexivity.
  - apply (bool_decide_eq_true_1 _). vm_compute. reflexivity.
Qed.

Lemma sample_joined_names fs h f : joined_names (Sample.options fs h f).
Proof. repeat split. Qed.

(** The sample assembly reads the source icon only. *)
Lemma sample_sources_apart h f d :
  sources_apart (Sample.options ["home.svg"] h f) d.
Proof.
  intros d' Hs. split; [|reflexivity].
  assert (Hsrc : d' !! "src/home.svg" = d !! "src/home.svg").
  { apply Hs; apply (bool_decide_eq_true_1 _); vm_compute; reflexivity. }
  cbn [assemble Sample.externals files inputDir Sample.options].
  cbn [Sample.symbols]. unfold read_node.
  change ("src" +:+ "/" +:+ "home.svg") with "src/home.svg".
  rewrite Hsrc. reflexivity.
Qed.

Lemma second_run_writes_nothing_witness :
  truthy (force Sample.hashing) = false /\
  generateIconFiles Sample.hashing Sample.fresh =
    (Returned tt, Sample.first_run Sample.hashing) /\
  exists t,
    generateIconFiles Sample.hashing (Sample.first_run Sample.hashing) =
      (Returned tt,
       World (disk (Sample.first_run Sample.hashing))
         (trace (Sample.first_run Sample.hashing) ++ t)) /\
    written t = [] /\
    Forall (fun pb => pb.2 = false) (changes t) /\
    reports_up_to_date t.
Proof.
  assert (Hrun : generateIconFiles Sample.hashing Sample.fresh =
                 (Returned tt, Sample.first_run Sample.hashing))
    by (vm_compute; reflexivity).
  split; [reflexivity | split; [exact Hrun |]].
  exact (second_run_writes_nothing Sample.hashing Sample.fresh
           (Sample.first_run Sample.hashing) eq_refl
           (sample_layout_ok _ _ _) (sample_sources_apart _ _ _) Hrun).
Defined.

(** C3, as stated for every options value, fails: with [force] set, the
    second of two runs in succession with identical options and unchanged
    sources writes the four artifacts again; every change-detected write
    resolves to [true] and the run reports generated, not up to date. *)
Lemma forced_second_run_writes_again :
  files Sample.forcing <> [] /\
  generateIconFiles Sample.forcing Sample.fresh =
    (Returned tt, Sample.first_run Sample.forcing) /\
  exists w2,
    generateIconFiles Sample.forcing (Sample.generated Sample.forcing) =
      (Returned tt, w2) /\
    disk w2 = disk (Sample.first_run Sample.forcing) /\
    map fst (written (trace w2)) =
      ["public/sprite.svg"; "out/types/icon-name.d.ts"; "out/icons.ts";
       "out/hash.ts"] /\
    changes (trace w2) =
      [("public/sprite.svg", true); ("out/types/icon-name.d.ts", true);
       ("out/icons.ts", true); ("out/hash.ts", true)] /\
    reports_generated 1 (trace w2) /\
    ~ reports_up_to_date (trace w2).
Proof.
  split; [discriminate | split; [vm_compute; reflexivity |]].
  eexists. split; [vm_compute; reflexivity |].
  split; [vm_compute; reflexivity |].
  split; [vm_compute; reflexivity |].
  split; [vm_compute; reflexivity |].
  split; [vm_compute; reflexivity |].
  vm_compute. discriminate.
Qed.

Lemma force_rewrites_identical_artifacts_witness :
  files Sample.forcing <> [] /\
  truthy (force Sample.forcing) = true /\
  final_sprite Sample.forcing (disk (Sample.generated Sample.forcing)) =
    Returned Sample.sprite /\
  Forall (fun pc =>
            disk (Sample.generated Sample.forcing) !! pc.1 = Some (File pc.2) /\
            disk (Sample.generated Sample.forcing) !! path_dirname pc.1
              = Some Dir)
         (artifacts Sample.forcing Sample.sprite) /\
  exists t,
    generateIconFiles Sample.forcing (Sample.generated Sample.forcing) =
      (Returned tt,
       World (disk (Sample.generated Sample.forcing))
         (trace (Sample.generated Sample.forcing) ++ t)) /\
    written t = artifacts Sample.forcing Sample.sprite /\
    changes t =
      map (fun pc => (pc.1, true)) (artifacts Sample.forcing Sample.sprite) /\
    reports_generated (length (files Sample.forcing)) t.
Proof.
  assert (Hne : files Sample.forcing <> []) by discriminate.
  assert (Hdir : disk (Sample.generated Sample.forcing)
                   !! typesDir Sample.forcing = Some Dir)
    by (vm_compute; reflexivity).
  assert (Hfin : final_sprite Sample.forcing
                   (disk (Sample.generated Sample.forcing)) =
                 Returned Sample.sprite)
    by (vm_compute; reflexivity).
  assert (Hdisk : Forall (fun pc =>
            disk (Sample.generated Sample.forcing) !! pc.1 = Some (File pc.2) /\
            disk (Sample.generated Sample.forcing) !! path_dirname pc.1
              = Some Dir)
         (artifacts Sample.forcing Sample.sprite)).
  { repeat constructor; vm_compute; reflexivity. }
  split; [exact Hne | split; [reflexivity | split; [exact Hfin |]]].
  split; [exact Hdisk |].
  exact (force_rewrites_identical_artifacts Sample.forcing
           (Sample.generated Sample.forcing) Sample.sprite
           Hne eq_refl Hdir Hfin Hdisk).
Defined.

Lemma sprite_is_written_at_sprite_svg_only_witness :
  truthy (shouldHash Sample.hashing) = true /\
  joined_names Sample.hashing /\
  generateIconFiles Sample.hashing Sample.fresh =
    (Returned tt, Sample.first_run Sample.hashing) /\
  exists t output,
    trace (Sample.first_run Sample.hashing) = trace Sample.fresh ++ t /\
    written t `sublist_of` artifacts Sample.hashing output /\
    (written t <> [] ->
     exists w1,
       ensureDir (typesDir Sample.hashing) Sample.fresh = (Returned tt, w1) /\
       final_sprite Sample.hashing (disk w1) = Returned output) /\
    (forall p c,
       (p, c) ∈ written t ->
       (p = spriteFilepath Sample.hashing /\ c = output) \/
       (p <> spriteFilepath Sample.hashing /\
        (p, c) ∈ [(typeOutputFilepath Sample.hashing,
                   typeOutputContent (iconNames Sample.hashing));
                  (iconsOutputFilepath Sample.hashing,
                   iconsOutputContent (iconNames Sample.hashing));
                  (hashOutputFilepath Sample.hashing,
                   hashFileContent (Some (md5_hex output)))])) /\
    (forall output',
       (hashedSpritePath Sample.hashing output'
          ∉ artifact_paths Sample.hashing) /\
       (hashedSpritePath Sample.hashing output' ∉ map fst (written t)) /\
       forall c,
         disk (Sample.first_run Sample.hashing)
           !! hashedSpritePath Sample.hashing output' = Some (File c) ->
         disk Sample.fresh !! hashedSpritePath Sample.hashing output'
           = Some (File c)) /\
    (Returned tt = Returned tt ->
     (spriteFilepath Sample.hashing, true) ∈ changes t ->
     (spriteFilepath Sample.hashing, output) ∈ written t /\
     ConsoleLog ("Saved to " +:+
                 path_relative cwd (hashedSpritePath Sample.hashing output))
       ∈ t).
Proof.
  assert (Hrun : generateIconFiles Sample.hashing Sample.fresh =
                 (Returned tt, Sample.first_run Sample.hashing))
    by (vm_compute; reflexivity).
  split; [reflexivity | split; [apply sample_joined_names |]].
  split; [exact Hrun |].
  exact (sprite_is_written_at_sprite_svg_only Sample.hashing Sample.fresh
           (Returned tt) (Sample.first_run Sample.hashing) eq_refl
           (sample_joined_names _ _ _) Hrun).
Defined.

End WriteExamples.

(** ** What the type declarations and the identifier array list *)

Section Listing.

Import Js Literal.

Lemma replace_dq_app a b :
  replace_dq (a +:+ b) = replace_dq a +:+ replace_dq b.
Proof.
  induction a as [|c a IH]; [reflexivity|].
  change (String c a +:+ b) with (String c (a +:+ b)).
  cbn [replace_dq]. rewrite IH. reflexivity.
Qed.

Lemma replace_dq_if_app q a b :
  replace_dq_if q (a +:+ b) = replace_dq_if q a +:+ replace_dq_if q b.
Proof.
  unfold replace_dq_if. destruct (Ascii.eqb q "'");
    [apply replace_dq_app | reflexivity].
Qed.

Lemma replace_dq_id s : has_char "034" s = false -> replace_dq s = s.
Proof.
  induction s as [|c s IH]; [reflexivity|]. cbn [has_char replace_dq].
  intros [Hc Hs]%orb_false_iff. rewrite Hc, (IH Hs). reflexivity.
Qed.

(** Decoding undoes the escape of one character. *)
Lemma unescape_escape_char c rest :
  unescape (json_escape c +:+ rest) = prepend c (unescape rest).
Proof. destruct c as [[] [] [] [] [] [] [] []]; reflexivity. Qed.

Lemma unescape_escape s : unescape (json_escape_all s) = Some s.
Proof.
  induction s as [|c s IH]; [reflexivity|].
  cbn [json_escape_all]. rewrite unescape_escape_char, IH. reflexivity.
Qed.

Lemma unescape_all_escape names :
  unescape_all (map json_escape_all names) = Some names.
Proof.
  induction names as [|n names IH]; [reflexivity|].
  cbn [map unescape_all]. rewrite unescape_escape, IH. reflexivity.
Qed.

(** Only the escape of a double quote holds a double quote. *)
Lemma json_escape_no_dq c :
  Ascii.eqb c "034" = false -> has_char "034" (json_escape c) = false.
Proof.
  destruct c as [[] [] [] [] [] [] [] []]; intros Hc;
    first [discriminate Hc | reflexivity].
Qed.

Lemma json_escape_all_no_dq s :
  has_char "034" s = false -> replace_dq (json_escape_all s) = json_escape_all s.
Proof.
  intros Hs. apply replace_dq_id.
  induction s as [|c s IH]; [reflexivity|].
  cbn [has_char] in Hs. apply orb_false_iff in Hs as [Hc Hs].
  cbn [json_escape_all]. rewrite has_char_app, (json_escape_no_dq c Hc), (IH Hs).
  reflexivity.
Qed.

Ltac eval_escape :=
  match goal with
  | |- context [replace_dq_if ?q (json_escape ?c)] =>
      let e := eval vm_compute in (replace_dq_if q (json_escape c)) in
      change (replace_dq_if q (json_escape c)) with e
  end.

(** The escape of a character is read as part of a literal, whatever
    follows: of a double-quoted literal always, of a single-quoted one
    unless the character is a single quote. *)
Lemma lex_escape_char q c rest :
  q = "034"%char \/ (q = "'"%char /\ Ascii.eqb c "'" = false) ->
  lex q Inside (replace_dq_if q (json_escape c) +:+ rest) =
  (replace_dq_if q (json_escape c) +:+ fst (lex q Inside rest),
   snd (lex q Inside rest)).
Proof.
  intros [-> | [-> Hc]].
  - destruct c as [[] [] [] [] [] [] [] []];
      eval_escape; cbv [String.append]; simpl;
      destruct (lex "034" Inside rest); reflexivity.
  - destruct c as [[] [] [] [] [] [] [] []];
      try discriminate Hc;
      eval_escape; cbv [String.append]; simpl;
      destruct (lex "'" Inside rest); reflexivity.
Qed.

(** The escapes of a string, followed by the closing quote, are read as
    one literal body. *)
Lemma lex_body q s rest :
  q = "034"%char \/ (q = "'"%char /\ has_char "'" s = false) ->
  lex q Inside (replace_dq_if q (json_escape_all s) +:+ String q rest) =
  (replace_dq_if q (json_escape_all s), literals q rest).
Proof.
  intros Hq. induction s as [|c s IH].
  - assert (He : replace_dq_if q (json_escape_all EmptyString) = EmptyString).
    { unfold replace_dq_if. destruct (Ascii.eqb q "'"); reflexivity. }
    rewrite He. change (EmptyString +:+ String q rest) with (String q rest).
    cbn [lex]. rewrite Ascii.eqb_refl. reflexivity.
  - cbn [json_escape_all]. rewrite replace_dq_if_app, append_assoc.
    rewrite lex_escape_char.
    + rewrite IH; [reflexivity|].
      destruct Hq as [Hq | [Hq Hs]]; [left; exact Hq | right].
      cbn [has_char] in Hs. apply orb_false_iff in Hs as [_ Hs]. auto.
    + destruct Hq as [Hq | [Hq Hs]]; [left; exact Hq | right].
      cbn [has_char] in Hs. apply orb_false_iff in Hs as [Hc _]. auto.
Qed.

Lemma lex_outside_skip q pre s :
  has_char q pre = false -> lex q Outside (pre +:+ s) = lex q Outside s.
Proof.
  induction pre as [|c pre IH]; [reflexivity|].
  cbn [has_char]. intros [Hc Hp]%orb_false_iff.
  change (String c pre +:+ s) with (String c (pre +:+ s)).
  cbn [lex]. rewrite Hc. apply IH, Hp.
Qed.

Lemma literals_none q s : has_char q s = false -> literals q s = [].
Proof.
  unfold literals. induction s as [|c s IH]; [reflexivity|].
  cbn [has_char lex]. intros [Hc Hs]%orb_false_iff. rewrite Hc. apply IH, Hs.
Qed.

Lemma literals_quoted q b rest :
  (forall r, lex q Inside (b +:+ String q r) = (b, literals q r)) ->
  literals q (quoted q b +:+ rest) = b :: literals q rest.
Proof.
  intros Hb. unfold literals at 1, quoted.
  change (String q (b +:+ String q EmptyString) +:+ rest)
    with (String q ((b +:+ String q EmptyString) +:+ rest)).
  cbn [lex]. rewrite Ascii.eqb_refl, append_assoc.
  change (String q EmptyString +:+ rest) with (String q rest).
  rewrite Hb. reflexivity.
Qed.

(** The literals of a text made of a header, quoted bodies joined by a
    separator and a footer, without quote but around the bodies, are the
    bodies in their order. *)
Lemma literals_join q header sep footer bs :
  has_char q header = false ->
  has_char q sep = false ->
  has_char q footer = false ->
  Forall (fun b => forall r, lex q Inside (b +:+ String q r) = (b, literals q r))
         bs ->
  literals q (header +:+ join sep (map (quoted q) bs) +:+ footer) = bs.
Proof.
  intros Hh Hs Hf Hb. unfold literals at 1.
  rewrite lex_outside_skip by exact Hh.
  change (literals q (join sep (map (quoted q) bs) +:+ footer) = bs).
  induction Hb as [|b bs Hb Hbs IH].
  - apply literals_none, Hf.
  - destruct bs as [|b' bs'].
    + cbn [map join]. rewrite (literals_quoted q b footer Hb).
      rewrite (literals_none q footer Hf). reflexivity.
    + change (join sep (map (quoted q) (b :: b' :: bs')))
        with (quoted q b +:+ sep +:+ join sep (map (quoted q) (b' :: bs'))).
      rewrite !append_assoc, (literals_quoted q b _ Hb). f_equal.
      unfold literals at 1. rewrite lex_outside_skip by exact Hs.
      exact IH.
Qed.

Lemma replace_dq_join sep names :
  has_char "034" sep = false ->
  replace_dq (join sep (map JSON_stringify names)) =
  join sep (map single_quoted names).
Proof.
  intros Hsep.
  assert (Hq : forall n, replace_dq (JSON_stringify n) = single_quoted n).
  { intros n. unfold JSON_stringify, single_quoted.
    rewrite !replace_dq_app. reflexivity. }
  induction names as [|n names IH]; [reflexivity|].
  destruct names as [|n' names'].
  - apply Hq.
  - change (join sep (map JSON_stringify (n :: n' :: names')))
      with (JSON_stringify n +:+ sep +:+
            join sep (map JSON_stringify (n' :: names'))).
    rewrite !replace_dq_app, Hq, IH, (replace_dq_id sep Hsep). reflexivity.
Qed.

End Listing.

Section ListingOrder.

Context `{Externals}.

Import Js Literal.

(** C5: whatever the [files] list, the identifier array lists, as its
    double-quoted literals decoded, exactly the identifiers derived from
    the files, in the order of the files; the type union is the sequence
    of the same identifiers as single-quoted literals, one per file and in
    the order of the files; for identifiers without quote character, the
    single-quoted literals of the type union decoded are exactly the
    identifiers, in the order of the files, so both artifacts list the
    same sequence. Nothing sorts or reorders. *)
Theorem artifacts_list_identifiers_in_file_order o :
  listed "034" (iconsOutputContent (iconNames o)) =
    Some (map iconName (files o)) /\
  typeOutputContent (iconNames o) =
    "export type IconName =" +:+ LF +:+ "    " +:+ TAB +:+ "| " +:+
    join (LF +:+ TAB +:+ "| ") (map single_quoted (map iconName (files o))) +:+
    ";" +:+ LF +:+ "    " /\
  (Forall quote_free (map iconName (files o)) ->
   listed "'" (typeOutputContent (iconNames o)) =
     Some (map iconName (files o))).
Proof.
  unfold iconNames. set (names := map iconName (files o)).
  assert (Htypes : typeOutputContent names =
            "export type IconName =" +:+ LF +:+ "    " +:+ TAB +:+ "| " +:+
            join (LF +:+ TAB +:+ "| ") (map single_quoted names) +:+
            ";" +:+ LF +:+ "    ").
  { unfold typeOutputContent, stringifiedIconNames.
    rewrite replace_dq_join by reflexivity. reflexivity. }
  split; [|split; [exact Htypes|]].
  - unfold listed, iconsOutputContent, stringifiedIconNames.
    assert (Hq : map JSON_stringify names =
                 map (quoted "034") (map json_escape_all names)).
    { rewrite map_map. reflexivity. }
    rewrite Hq.
    change (unescape_all
              (literals "034"
                 (("import { IconName } from './types/icon-name';" +:+ LF +:+
                   "  " +:+ LF +:+ "  export const icons = [" +:+ LF +:+
                   "  " +:+ TAB) +:+
                  join ("," +:+ LF +:+ TAB)
                    (map (quoted "034") (map json_escape_all names)) +:+
                  ("," +:+ LF +:+ "  ] satisfies Array<IconName>;" +:+ LF +:+
                   "  "))) = Some names).
    rewrite (literals_join "034"
               ("import { IconName } from './types/icon-name';" +:+ LF +:+
                "  " +:+ LF +:+ "  export const icons = [" +:+ LF +:+
                "  " +:+ TAB)
               ("," +:+ LF +:+ TAB)
               ("," +:+ LF +:+ "  ] satisfies Array<IconName>;" +:+ LF +:+
                "  ")
               (map json_escape_all names)); try reflexivity.
    + apply unescape_all_escape.
    + apply Forall_forall. intros b Hb r.
      apply list_elem_of_fmap in Hb as [n [-> _]].
      apply (lex_body "034" n r). left. reflexivity.
  - intros Hfree. unfold listed. rewrite Htypes.
    assert (Hq : map single_quoted names =
                 map (quoted "'") (map json_escape_all names)).
    { rewrite map_map. apply map_ext_Forall.
      eapply Forall_impl; [exact Hfree|]. intros n [Hdq _].
      unfold single_quoted, quoted. cbv beta.
      rewrite (json_escape_all_no_dq n Hdq). reflexivity. }
    rewrite Hq.
    change (unescape_all
              (literals "'"
                 (("export type IconName =" +:+ LF +:+ "    " +:+ TAB +:+ "| ")
                  +:+ join (LF +:+ TAB +:+ "| ")
                        (map (quoted "'") (map json_escape_all names)) +:+
                  (";" +:+ LF +:+ "    "))) = Some names).
    rewrite (literals_join "'"
               ("export type IconName =" +:+ LF +:+ "    " +:+ TAB +:+ "| ")
               (LF +:+ TAB +:+ "| ")
               (";" +:+ LF +:+ "    ")
               (map json_escape_all names)); try reflexivity.
    + apply unescape_all_escape.
    + apply Forall_forall. intros b Hb r.
      apply list_elem_of_fmap in Hb as [n [-> Hn]].
      rewrite Forall_forall in Hfree. destruct (Hfree n Hn) as [Hdq Hsq].
      pose proof (lex_body "'" n r (or_intror (conj eq_refl Hsq))) as Hl.
      unfold replace_dq_if in Hl. cbn [Ascii.eqb Bool.eqb] in Hl.
      rewrite (json_escape_all_no_dq n Hdq) in Hl. exact Hl.
Qed.

End ListingOrder.

Section ListingExamples.

Import Js Literal.

#[local] Existing Instance Sample.externals.

Lemma artifacts_list_identifiers_in_file_order_witness :
  Forall quote_free
    (map iconName (files (Sample.options ["c.svg"; "a.svg"; "b.svg"] None None)))
  /\
  listed "034" (iconsOutputContent ["c"; "a"; "b"]) = Some ["c"; "a"; "b"] /\
  listed "'" (typeOutputContent ["c"; "a"; "b"]) = Some ["c"; "a"; "b"].
Proof.
  assert (Hfree : Forall quote_free
            (map iconName
               (files (Sample.options ["c.svg"; "a.svg"; "b.svg"] None None))))
    by (repeat constructor).
  destruct (artifacts_list_identifiers_in_file_order
              (Sample.options ["c.svg"; "a.svg"; "b.svg"] None None))
    as (Harray & _ & Hunion).
  split; [exact Hfree | split; [exact Harray | exact (Hunion Hfree)]].
Defined.

End ListingExamples.

(** ** The staleness pre-check as a test of occurrence *)

Section Occurrence.

Import Js.

Lemma starts_with_spec s t :
  starts_with s t = true <-> exists b, s = t +:+ b.
Proof.
  revert s. induction t as [|c t IH]; intros s.
  - split; [intros _; exists s; reflexivity | intros _; destruct s; reflexivity].
  - destruct s as [|a s]; cbn [starts_with].
    + split; [discriminate | intros [b Hb]; discriminate].
    + rewrite andb_true_iff, Ascii.eqb_eq, IH. split.
      * intros [-> [b ->]]. exists b. reflexivity.
      * intros [b Hb]. injection Hb as -> ->. eauto.
Qed.

(** [s.includes(t)] holds exactly when [t] occurs in [s]. *)
Lemma includes_spec s t : includes s t = true <-> occurs_in t s.
Proof.
  unfold occurs_in. induction s as [|c s IH]; cbn [includes].
  - rewrite orb_false_r, starts_with_spec. split.
    + intros [b Hb]. exists EmptyString, b. exact Hb.
    + intros (a & b & Hab). destruct a; [|discriminate]. eauto.
  - rewrite orb_true_iff, starts_with_spec, IH. split.
    + intros [[b Hb] | (a & b & Hab)].
      * exists EmptyString, b. exact Hb.
      * exists (String c a), b. rewrite Hab. reflexivity.
    + intros (a & b & Hab). destruct a as [|x a].
      * left. exists b. exact Hab.
      * right. injection Hab as _ ->. eauto.
Qed.

End Occurrence.

Section PreCheck.

Context `{Externals}.

Import Js.

(** The two halves of the pre-check hold exactly when every file is
    listed by the two texts. *)
Lemma precheck_spec o d :
  spriteUpToDate (iconNames o) (text_of (read_node (spriteFilepath o) d))
  && typesUpToDate (iconNames o)
       (text_of (read_node (typeOutputFilepath o) d)) = true
  <-> listed_in_artifacts o d.
Proof.
  unfold listed_in_artifacts, iconNames, spriteUpToDate, typesUpToDate.
  induction (files o) as [|f fs IH]; cbn [map forallb].
  - split; [constructor | reflexivity].
  - rewrite Forall_cons, <- IH, !andb_true_iff, !includes_spec. tauto.
Qed.

(** Whatever its outcome, a regeneration starts by recording the
    assembly. *)
Lemma regenerate_trace_head o w r w' :
  regenerate o w = (r, w') ->
  exists t, trace w' = trace w ++ GenerateSvgSprite (files o) (inputDir o) :: t.
Proof.
  intros Hrun.
  assert (Hart : forall output raw,
            write_artifacts o output (record w (assembly_events o raw))
              = (r, w') ->
            exists t, trace w' =
              trace w ++ GenerateSvgSprite (files o) (inputDir o) :: t).
  { intros output raw Hw.
    destruct (footprint_write_artifacts o output _ _ _ Hw) as ([t [Ht _]] & _).
    cbn [trace record] in Ht. unfold assembly_events in Ht.
    rewrite Ht, <- app_assoc. eexists. reflexivity. }
  rewrite regenerate_run in Hrun.
  destruct (assemble (disk w) (files o) (inputDir o)) as [raw|e].
  - destruct (truthy (shouldOptimize o)) eqn:Ho.
    + destruct (load_config (disk w)) as [config|e].
      * destruct (svgo_optimize raw config) as [output|e].
        -- apply (Hart output raw Hrun).
        -- injection Hrun as _ <-. unfold assembly_events. rewrite Ho.
           eexists. reflexivity.
      * injection Hrun as _ <-. eexists. reflexivity.
    + apply (Hart raw raw Hrun).
  - injection Hrun as _ <-. eexists. reflexivity.
Qed.

(** A run is cut short by the pre-check exactly when the pre-check
    holds. *)
Lemma cut_short_iff o w w1 :
  ensureDir (typesDir o) w = (Returned tt, w1) ->
  generateIconFiles o w =
    (Returned tt, World (disk w1) (trace w ++ short_trace o))
  <-> listed_in_artifacts o (disk w1).
Proof.
  intros He. rewrite <- precheck_spec.
  pose proof (ensureDir_trace _ _ _ He) as Ht.
  rewrite generateIconFiles_run, He. cbv zeta.
  destruct (_ && _).
  - split; [reflexivity | intros _].
    rewrite Ht, <- !app_assoc. reflexivity.
  - split; [|discriminate]. intros Hrun.
    apply regenerate_trace_head in Hrun as [t Hrun].
    cbn [trace] in Hrun. rewrite Ht, <- !app_assoc in Hrun.
    apply app_inv_head in Hrun. discriminate Hrun.
Qed.

(** When some file is not listed, the run goes on with the
    regeneration. *)
Lemma unlisted_regenerates o w w1 :
  ensureDir (typesDir o) w = (Returned tt, w1) ->
  ~ listed_in_artifacts o (disk w1) ->
  generateIconFiles o w =
    regenerate o (World (disk w1) (trace w ++ check_trace o)).
Proof.
  intros He. rewrite <- precheck_spec. intros Hno.
  rewrite generateIconFiles_run, He. cbv zeta.
  destruct (_ && _); [contradiction Hno; reflexivity|].
  rewrite (ensureDir_trace _ _ _ He), <- app_assoc. reflexivity.
Qed.

(** X1: once the types directory is ensured, a run is cut short, with
    nothing but its two reads and the up-to-date report, when every file
    is listed by the artifacts on disk: its identifier occurs behind [id=]
    in the sprite and between double quotes in the type declarations. This
    holds whatever the flags: [force] does not bypass the pre-check. When
    some file is not listed so, the run goes on with the regeneration. *)
Theorem run_is_cut_short_when_listed o w w1 :
  ensureDir (typesDir o) w = (Returned tt, w1) ->
  (listed_in_artifacts o (disk w1) ->
   generateIconFiles o w =
     (Returned tt, World (disk w1) (trace w ++ short_trace o))) /\
  (~ listed_in_artifacts o (disk w1) ->
   generateIconFiles o w =
     regenerate o (World (disk w1) (trace w ++ check_trace o))).
Proof.
  intros He. split.
  - apply (cut_short_iff o w w1 He).
  - apply (unlisted_regenerates o w w1 He).
Qed.

(** X2: the pre-check only asks that the identifiers of the files occur in
    the artifacts. When a run is cut short, so is, on the same disk, every
    run with the same directories whose files have identifiers among those
    of the first: files that were removed, reordered or repeated are not
    detected, and the artifacts are left as they are. *)
Theorem removed_files_are_not_detected o o' w w1 :
  outputDir o' = outputDir o ->
  spriteOutputDir o' = spriteOutputDir o ->
  (forall file', file' ∈ files o' ->
     exists file, file ∈ files o /\ iconName file = iconName file') ->
  ensureDir (typesDir o) w = (Returned tt, w1) ->
  generateIconFiles o w =
    (Returned tt, World (disk w1) (trace w ++ short_trace o)) ->
  generateIconFiles o' w =
    (Returned tt, World (disk w1) (trace w ++ short_trace o)).
Proof.
  intros Hout Hsprite Hsub He Hrun.
  assert (Hs : spriteFilepath o' = spriteFilepath o)
    by (unfold spriteFilepath; rewrite Hsprite; reflexivity).
  assert (Hd : typesDir o' = typesDir o)
    by (unfold typesDir; rewrite Hout; reflexivity).
  assert (Ht : typeOutputFilepath o' = typeOutputFilepath o)
    by (unfold typeOutputFilepath; rewrite Hd; reflexivity).
  assert (Hshort : short_trace o' = short_trace o)
    by (unfold short_trace; rewrite Hs, Hd, Ht; reflexivity).
  rewrite <- Hshort. rewrite <- Hd in He.
  apply (cut_short_iff o' w w1 He).
  rewrite Hd in He. apply (cut_short_iff o w w1 He) in Hrun.
  unfold listed_in_artifacts in *. rewrite Hs, Ht.
  rewrite Forall_forall in Hrun. apply Forall_forall. intros file' Hf.
  destruct (Hsub file' Hf) as (file & Hin & Hname).
  rewrite <- Hname. apply (Hrun file Hin).
Qed.

(** X3: the pre-check never accepts type declarations that the generator
    itself has generated, for whatever list of identifiers: with a
    non-empty [files] list and such a text on disk, the run is not cut
    short and goes on with the regeneration. *)
Theorem generated_types_are_never_up_to_date o w w1 names :
  files o <> [] ->
  ensureDir (typesDir o) w = (Returned tt, w1) ->
  read_node (typeOutputFilepath o) (disk w1)
    = Returned (typeOutputContent names) ->
  ~ listed_in_artifacts o (disk w1) /\
  generateIconFiles o w =
    regenerate o (World (disk w1) (trace w ++ check_trace o)).
Proof.
  intros Hne He Hread.
  assert (Hcheck : spriteUpToDate (iconNames o)
                     (text_of (read_node (spriteFilepath o) (disk w1)))
                   && typesUpToDate (iconNames o)
                        (text_of (read_node (typeOutputFilepath o) (disk w1)))
                   = false).
  { rewrite Hread. cbn [text_of].
    rewrite typesUpToDate_own_output by (apply iconNames_nonempty, Hne).
    apply andb_false_r. }
  split.
  - rewrite <- precheck_spec, Hcheck. discriminate.
  - rewrite generateIconFiles_run, He. cbv zeta. rewrite Hcheck.
    rewrite (ensureDir_trace _ _ _ He), <- app_assoc. reflexivity.
Qed.

End PreCheck.

Section PreCheckExamples.

Import Js.

#[local] Existing Instance Sample.externals.

Lemma sample_handwritten_listed h f :
  listed_in_artifacts (Sample.options ["home.svg"; "about.svg"] h f)
    (disk Sample.handwritten).
Proof. apply precheck_spec. vm_compute. reflexivity. Qed.

Lemma run_is_cut_short_when_listed_witness :
  force (Sample.options ["home.svg"; "about.svg"] (Some true) (Some true))
    = Some true /\
  generateIconFiles
    (Sample.options ["home.svg"; "about.svg"] (Some true) (Some true))
    Sample.handwritten =
    (Returned tt,
     World (disk Sample.handwritten)
       [EnsureDir "out/types"; ReadFile "public/sprite.svg";
        ReadFile "out/types/icon-name.d.ts";
        ConsoleLog "Icons are up to date"]).
Proof.
  split; [reflexivity |].
  refine (proj1 (run_is_cut_short_when_listed
                   (Sample.options ["home.svg"; "about.svg"]
                      (Some true) (Some true))
                   Sample.handwritten
                   (World (disk Sample.handwritten) [EnsureDir "out/types"])
                   _)
            (sample_handwritten_listed _ _)).
  vm_compute. reflexivity.
Defined.

Lemma removed_files_are_not_detected_witness :
  generateIconFiles Sample.both Sample.handwritten =
    (Returned tt,
     World (disk Sample.handwritten) (short_trace Sample.both)) /\
  generateIconFiles (Sample.options ["about.svg"; "about.svg"] None None)
    Sample.handwritten =
    (Returned tt,
     World (disk Sample.handwritten) (short_trace Sample.both)).
Proof.
  assert (He : ensureDir (typesDir Sample.both) Sample.handwritten =
               (Returned tt,
                World (disk Sample.handwritten) [EnsureDir "out/types"]))
    by (vm_compute; reflexivity).
  assert (Hrun : generateIconFiles Sample.both Sample.handwritten =
                 (Returned tt,
                  World (disk Sample.handwritten) (short_trace Sample.both)))
    by (vm_compute; reflexivity).
  split; [exact Hrun |].
  refine (removed_files_are_not_detected Sample.both
            (Sample.options ["about.svg"; "about.svg"] None None)
            Sample.handwritten _ eq_refl eq_refl _ He Hrun).
  intros file' Hf. exists "about.svg". split.
  - apply elem_of_cons. right. apply elem_of_cons. left. reflexivity.
  - cbn [files Sample.options] in Hf.
    rewrite !elem_of_cons, elem_of_nil in Hf.
    destruct Hf as [-> | [-> | []]]; reflexivity.
Defined.

Lemma generated_types_are_never_up_to_date_witness :
  files Sample.plain <> [] /\
  read_node (typeOutputFilepath Sample.plain) (disk Sample.listed)
    = Returned (typeOutputContent ["home"]) /\
  ~ listed_in_artifacts Sample.plain (disk Sample.listed) /\
  generateIconFiles Sample.plain Sample.listed =
    regenerate Sample.plain
      (World (disk Sample.listed)
         [EnsureDir "out/types"; ReadFile "public/sprite.svg";
          ReadFile "out/types/icon-name.d.ts"]).
Proof.
  assert (Hr : read_node (typeOutputFilepath Sample.plain)
                 (disk Sample.listed)
               = Returned (typeOutputContent ["home"])) by reflexivity.
  split; [discriminate | split; [exact Hr |]].
  refine (generated_types_are_never_up_to_date Sample.plain Sample.listed
            (World (disk Sample.listed) [EnsureDir "out/types"]) ["home"]
            _ _ Hr).
  - discriminate.
  - vm_compute. reflexivity.
Defined.

End PreCheckExamples.

(** ** Failures of the assembly, the optimizer and the console report *)

Section Pipeline.

Context `{Externals}.

Import Js.

(** X4: when the assembly, the loading of the optimizer configuration or
    the optimization rejects, a run that is not cut short rejects with the
    same error before any change-detected write: nothing is written,
    nothing is printed, no digest is computed, and the disk is the one the
    initial [ensureDir] left. *)
Theorem failed_assembly_writes_nothing o w w1 e :
  ensureDir (typesDir o) w = (Returned tt, w1) ->
  ~ listed_in_artifacts o (disk w1) ->
  final_sprite o (disk w1) = Thrown e ->
  exists t,
    generateIconFiles o w =
      (Thrown e, World (disk w1) (trace w ++ check_trace o ++ t)) /\
    written t = [] /\ calls t = [] /\ hashed t = [] /\ logged t = [].
Proof.
  intros He Hno Hfin.
  rewrite (unlisted_regenerates o w w1 He Hno), regenerate_run.
  unfold final_sprite in Hfin. cbn [disk] in *.
  destruct (assemble (disk w1) (files o) (inputDir o)) as [raw|e0].
  - unfold assembly_events. destruct (truthy (shouldOptimize o)).
    + destruct (load_config (disk w1)) as [config|e0].
      * rewrite Hfin. exists [GenerateSvgSprite (files o) (inputDir o);
                              LoadConfig; Optimize raw].
        unfold record. cbn [disk trace]. rewrite <- app_assoc. auto.
      * injection Hfin as ->.
        exists [GenerateSvgSprite (files o) (inputDir o); LoadConfig].
        unfold record. cbn [disk trace]. rewrite <- app_assoc. auto.
    + discriminate.
  - injection Hfin as ->.
    exists [GenerateSvgSprite (files o) (inputDir o)].
    unfold record. cbn [disk trace]. rewrite <- app_assoc. auto.
Qed.

Lemma sprite_report_no_svgo o output :
  Forall no_svgo (sprite_report o output).
Proof.
  unfold sprite_report. constructor; [exact I|]. apply Forall_app. split.
  - apply Forall_forall. intros e He.
    apply list_elem_of_fmap in He as [file [-> _]]. exact I.
  - destruct (truthy (shouldHash o)); repeat constructor.
Qed.

Lemma no_svgo_writeIfChanged p c h f :
  respects (emits_only no_svgo) (writeIfChanged p c h f).
Proof.
  unfold writeIfChanged, readFile, ensureDir, writeFile, md5. cbv zeta.
  repeat first
    [ apply respects_ret; apply emits_only_refl
    | apply respects_throw; apply emits_only_refl
    | apply respects_on_disk; apply emits_only_refl
    | apply emits_only_set_node
    | apply emits_only_emit; exact I
    | apply respects_for_each;
        [apply emits_only_refl | apply emits_only_trans | intros ?]
    | apply respects_bind; [apply emits_only_trans | | intros ?]
    | apply respects_catch; [apply emits_only_trans | | intros ?]
    | match goal with
      | |- respects _ (if ?b then _ else _) => destruct b
      | |- respects _ (match ?x with _ => _ end) => destruct x
      end ].
Qed.

Lemma no_svgo_write_artifacts o output :
  respects (emits_only no_svgo) (write_artifacts o output).
Proof.
  unfold write_artifacts, report_sprite, md5, console_log.
  repeat first
    [ apply no_svgo_writeIfChanged
    | apply respects_ret; apply emits_only_refl
    | apply emits_only_emit; exact I
    | apply respects_for_each;
        [apply emits_only_refl | apply emits_only_trans | intros ?]
    | apply respects_bind; [apply emits_only_trans | | intros ?]
    | match goal with
      | |- respects _ (if ?b then _ else _) => destruct b
      end ].
Qed.

(** X5: without [shouldOptimize] the optimizer library is never called:
    however the run ends, it neither loads the optimizer configuration nor
    optimizes anything. *)
Theorem optimizer_needs_shouldOptimize o w r w' :
  truthy (shouldOptimize o) = false ->
  generateIconFiles o w = (r, w') ->
  exists t, trace w' = trace w ++ t /\ Forall no_svgo t.
Proof.
  intros Ho.
  assert (Hall : respects (emits_only no_svgo) (generateIconFiles o)).
  { unfold generateIconFiles, regenerate, generateSvgSprite, readFile,
      ensureDir, console_log.
    rewrite Ho.
    repeat first
      [ apply no_svgo_write_artifacts
      | apply respects_ret; apply emits_only_refl
      | apply respects_throw; apply emits_only_refl
      | apply respects_on_disk; apply emits_only_refl
      | apply emits_only_set_node
      | apply emits_only_emit; exact I
      | apply respects_for_each;
          [apply emits_only_refl | apply emits_only_trans | intros ?]
      | apply respects_bind; [apply emits_only_trans | | intros ?]
      | apply respects_catch; [apply emits_only_trans | | intros ?]
      | match goal with
        | |- respects _ (if ?b then _ else _) => destruct b
        | |- respects _ (match ?x with _ => _ end) => destruct x
        end ]. }
  intros Hrun. apply (Hall _ _ _ Hrun).
Qed.

Lemma logged_lines {A} (line : A -> string) xs :
  logged (map (fun x => ConsoleLog (line x)) xs) = map line xs.
Proof. induction xs as [|x xs IH]; simpl; [|rewrite <- IH]; reflexivity. Qed.

Lemma sprite_report_logged o output :
  logged (sprite_report o output) = sprite_lines o output.
Proof.
  unfold sprite_report, sprite_lines, hashedSpritePath, run_hash.
  change (?e :: ?l ++ ?r) with ([e] ++ l ++ r).
  rewrite !logged_app, (logged_lines (fun file => "✅ " +:+ file)).
  destruct (truthy (shouldHash o)); reflexivity.
Qed.

Lemma writer_event_logged h t : Forall (writer_event h) t -> logged t = [].
Proof. intros Ht. apply (writer_event_observed h t Ht). Qed.

(** X6: the console lines of a returning regeneration follow the flags of
    its change-detected writes: the sprite lines (a header, one line per
    file in file order, the size, and the place, which names the
    hash-suffixed file when hashing) are printed exactly when the sprite
    write reports a change, each of the three other saved lines exactly
    when its write reports a change, and the summary ends the report. *)
Theorem console_report_follows_the_flags o w w' :
  regenerate o w = (Returned tt, w') ->
  exists t output b1 b2 b3 b4,
    trace w' = trace w ++ t /\
    final_sprite o (disk w) = Returned output /\
    changes t =
      [(spriteFilepath o, b1); (typeOutputFilepath o, b2);
       (iconsOutputFilepath o, b3)] ++
      (if truthy (shouldHash o) then [(hashOutputFilepath o, b4)] else []) /\
    logged t =
      (if b1 then sprite_lines o output else []) ++
      (if b2 then ["Types saved to " +:+
                   path_relative cwd (typeOutputFilepath o)] else []) ++
      (if b3 then ["Icons names saved to " +:+
                   path_relative cwd (iconsOutputFilepath o)] else []) ++
      (if truthy (shouldHash o) && b4
       then ["Hash file saved to " +:+
             path_relative cwd (hashOutputFilepath o)] else []) ++
      [if b1 || b2 || b3
       then "Generated " +:+ pretty (length (files o)) +:+ " icons"
       else "Icons are up to date"].
Proof.
  intros Hrun.
  apply regenerate_Returned in Hrun as (raw & output & _ & Hfin & Hrun).
  apply write_artifacts_trace in Hrun
    as (b1 & b2 & b3 & b4 & t1 & t2 & t3 & t4 & F1 & F2 & F3 & F4 &
        _ & _ & _ & _ & Ht).
  exists (assembly_events o raw ++
          artifacts_trace o output b1 b2 b3 b4 t1 t2 t3 t4),
    output, b1, b2, b3, b4.
  split; [|split; [exact Hfin | split]].
  - rewrite Ht. simpl. rewrite <- app_assoc. reflexivity.
  - rewrite changes_app,
      (artifacts_trace_changes _ _ _ _ _ _ _ _ _ _ F1 F2 F3 F4).
    unfold assembly_events. destruct (truthy (shouldOptimize o)); reflexivity.
  - rewrite logged_app.
    assert (Ha : logged (assembly_events o raw) = []).
    { unfold assembly_events.
      destruct (truthy (shouldOptimize o)); reflexivity. }
    rewrite Ha. cbn [app]. unfold artifacts_trace.
    rewrite !logged_app.
    rewrite (writer_event_logged _ _ F1), (writer_event_logged _ _ F2),
      (writer_event_logged _ _ F3).
    assert (Hrep : logged (if b1 then sprite_report o output else [])
                   = if b1 then sprite_lines o output else []).
    { destruct b1; [apply sprite_report_logged | reflexivity]. }
    rewrite Hrep.
    destruct (truthy (shouldHash o)); rewrite ?logged_app,
      ?(writer_event_logged _ _ F4);
      destruct b1, b2, b3, b4; reflexivity.
Qed.

End Pipeline.

Section PipelineExamples.

Import Js.

#[local] Existing Instance Sample.externals.

Lemma failed_assembly_writes_nothing_witness :
  final_sprite (Sample.options ["gone.svg"] (Some true) None)
    (<["out/types" := Dir]> (<["out" := Dir]> (disk Sample.fresh))) = Thrown ENOENT /\
  exists t,
    generateIconFiles (Sample.options ["gone.svg"] (Some true) None)
      Sample.fresh =
      (Thrown ENOENT,
       World (<["out/types" := Dir]> (<["out" := Dir]> (disk Sample.fresh)))
         ([EnsureDir "out/types"; ReadFile "public/sprite.svg";
           ReadFile "out/types/icon-name.d.ts"] ++ t)) /\
    written t = [] /\ calls t = [] /\ hashed t = [] /\ logged t = [].
Proof.
  assert (Hfin : final_sprite (Sample.options ["gone.svg"] (Some true) None)
                   (<["out/types" := Dir]> (<["out" := Dir]> (disk Sample.fresh)))
                 = Thrown ENOENT) by (vm_compute; reflexivity).
  split; [exact Hfin |].
  refine (failed_assembly_writes_nothing
            (Sample.options ["gone.svg"] (Some true) None) Sample.fresh
            (World (<["out/types" := Dir]> (<["out" := Dir]> (disk Sample.fresh)))
               [EnsureDir "out/types"]) ENOENT _ _ Hfin).
  - reflexivity.
  - rewrite <- precheck_spec. vm_compute. discriminate.
Defined.

Lemma optimizer_needs_shouldOptimize_witness :
  truthy (shouldOptimize Sample.hashing) = false /\
  exists t,
    trace (snd (generateIconFiles Sample.hashing Sample.fresh)) =
      trace Sample.fresh ++ t /\
    Forall no_svgo t.
Proof.
  split; [reflexivity |].
  apply (optimizer_needs_shouldOptimize Sample.hashing Sample.fresh
           (fst (generateIconFiles Sample.hashing Sample.fresh)) _ eq_refl).
  apply surjective_pairing.
Defined.

Lemma console_report_follows_the_flags_witness :
  regenerate Sample.hashing Sample.fresh =
    (Returned tt, snd (regenerate Sample.hashing Sample.fresh)) /\
  exists t output b1 b2 b3 b4,
    trace (snd (regenerate Sample.hashing Sample.fresh)) =
      trace Sample.fresh ++ t /\
    final_sprite Sample.hashing (disk Sample.fresh) = Returned output /\
    changes t =
      [(spriteFilepath Sample.hashing, b1);
       (typeOutputFilepath Sample.hashing, b2);
       (iconsOutputFilepath Sample.hashing, b3)] ++
      (if truthy (shouldHash Sample.hashing)
       then [(hashOutputFilepath Sample.hashing, b4)] else []) /\
    logged t =
      (if b1 then sprite_lines Sample.hashing output else []) ++
      (if b2 then ["Types saved to " +:+
                   path_relative cwd (typeOutputFilepath Sample.hashing)]
       else []) ++
      (if b3 then ["Icons names saved to " +:+
                   path_relative cwd (iconsOutputFilepath Sample.hashing)]
       else []) ++
      (if truthy (shouldHash Sample.hashing) && b4
       then ["Hash file saved to " +:+
             path_relative cwd (hashOutputFilepath Sample.hashing)]
       else []) ++
      [if b1 || b2 || b3
       then "Generated " +:+
            pretty (length (files Sample.hashing)) +:+ " icons"
       else "Icons are up to date"].
Proof.
  assert (Hrun : regenerate Sample.hashing Sample.fresh =
                 (Returned tt, snd (regenerate Sample.hashing Sample.fresh)))
    by (vm_compute; reflexivity).
  split; [exact Hrun |].
  exact (console_report_follows_the_flags Sample.hashing Sample.fresh _ Hrun).
Defined.

End PipelineExamples.

(** ** What a run leaves on the disk *)

Section Disk.

Context `{Externals}.

Import Js.

Lemma creates_only_refl paths dirs w : creates_only paths dirs w w.
Proof. intros q _. left. reflexivity. Qed.

Lemma creates_only_trans paths dirs w1 w2 w3 :
  creates_only paths dirs w1 w2 -> creates_only paths dirs w2 w3 ->
  creates_only paths dirs w1 w3.
Proof.
  intros H12 H23 q Hq.
  destruct (H12 q Hq) as [E12 | (N1 & D2 & Hd)];
    destruct (H23 q Hq) as [E23 | (N2 & D3 & Hd')].
  - left. congruence.
  - right. rewrite <- E12. auto.
  - right. rewrite E23. auto.
  - congruence.
Qed.

Lemma creates_only_emit paths dirs e :
  respects (creates_only paths dirs) (emit e).
Proof. intros w r w' [= _ <-] q _. left. reflexivity. Qed.

Lemma creates_only_ensureDir paths dirs p :
  (forall q, q ∈ p :: ancestors p -> q ∈ dirs) ->
  respects (creates_only paths dirs) (ensureDir p).
Proof.
  intros Hp w r w' Hrun q _.
  destruct (ensureDir_effect _ _ _ _ Hrun) as (_ & Hm & _).
  destruct (Hm q) as [Heq | (Hn & Hd & Hin)]; [left; exact Heq | right].
  auto.
Qed.

Lemma creates_only_writeFile paths dirs p c :
  p ∈ paths -> respects (creates_only paths dirs) (writeFile p c).
Proof.
  intros Hp w r w' Hrun q Hq. left. rewrite writeFile_run in Hrun.
  assert (Hne : p <> q) by (intros ->; contradiction).
  destruct (disk w !! p) as [[c0| |e]|]; injection Hrun as _ <-;
    cbn [disk]; rewrite ?lookup_insert_ne by exact Hne; reflexivity.
Qed.

Lemma creates_only_writeIfChanged paths dirs p c h f :
  p ∈ paths ->
  (forall q, q ∈ path_dirname p :: ancestors (path_dirname p) -> q ∈ dirs) ->
  respects (creates_only paths dirs) (writeIfChanged p c h f).
Proof.
  intros Hp Hd. unfold writeIfChanged, readFile, md5. cbv zeta.
  repeat first
    [ apply respects_ret; apply creates_only_refl
    | apply respects_throw; apply creates_only_refl
    | apply respects_on_disk; apply creates_only_refl
    | apply creates_only_emit
    | apply creates_only_ensureDir; exact Hd
    | apply creates_only_writeFile; exact Hp
    | apply respects_bind; [apply creates_only_trans | | intros ?]
    | apply respects_catch; [apply creates_only_trans | | intros ?]
    | match goal with
      | |- respects _ (if ?b then _ else _) => destruct b
      | |- respects _ (match ?x with _ => _ end) => destruct x
      end ].
Qed.

Lemma creates_only_generateIconFiles o :
  respects (creates_only (artifact_paths o) (artifact_dirs o))
    (generateIconFiles o).
Proof.
  assert (Hw : forall p c h f, p ∈ artifact_paths o ->
            respects (creates_only (artifact_paths o) (artifact_dirs o))
              (writeIfChanged p c h f)).
  { intros p c h f Hp. apply creates_only_writeIfChanged; [exact Hp|].
    intros q. apply artifact_dirs_parents, Hp. }
  unfold generateIconFiles, regenerate, write_artifacts, report_sprite,
    generateSvgSprite, loadConfig, optimize, md5, readFile, console_log.
  repeat first
    [ apply respects_ret; apply creates_only_refl
    | apply respects_on_disk; apply creates_only_refl
    | apply creates_only_emit
    | apply creates_only_ensureDir; apply artifact_dirs_types
    | apply Hw; unfold artifact_paths; rewrite !elem_of_cons; tauto
    | apply respects_for_each;
        [apply creates_only_refl | apply creates_only_trans | intros ?]
    | apply respects_bind; [apply creates_only_trans | | intros ?]
    | apply respects_catch; [apply creates_only_trans | | intros ?]
    | match goal with
      | |- respects _ (if ?b then _ else _) => destruct b
      end ].
Qed.

(** X7: outside the four artifact paths, the only change a run makes to
    the disk, however it ends, is that missing paths become directories,
    and only at the directories it ensures (the types directory and the
    parents of the artifacts) and at their ancestors: whatever was on the
    disk before the run, the source icons and the optimizer configuration
    included, is there after it as it was, and no regular file appears.
    A directory stays a directory, at the artifact paths too. *)
Theorem run_leaves_other_paths_alone o w r w' :
  generateIconFiles o w = (r, w') ->
  (forall q, q ∉ artifact_paths o ->
     disk w' !! q = disk w !! q \/
     (disk w !! q = None /\ disk w' !! q = Some Dir /\
      q ∈ artifact_dirs o)) /\
  (forall q n, q ∉ artifact_paths o ->
     disk w !! q = Some n -> disk w' !! q = Some n) /\
  (forall q, disk w !! q = Some Dir -> disk w' !! q = Some Dir).
Proof.
  intros Hrun.
  pose proof (creates_only_generateIconFiles o _ _ _ Hrun) as Hc.
  destruct (footprint_generateIconFiles o _ _ _ Hrun) as (_ & _ & _ & Hd).
  split; [exact Hc | split; [|exact Hd]].
  intros q n Hq Hn. destruct (Hc q Hq) as [Heq | (Hnone & _)].
  - rewrite Heq. exact Hn.
  - rewrite Hnone in Hn. discriminate.
Qed.

Lemma with_ancestors_elem (ds : list string) q :
  q ∈ ds ++ concat (map ancestors ds) ->
  exists d, d ∈ ds /\ q ∈ d :: ancestors d.
Proof.
  intros Hq. apply elem_of_app in Hq as [Hq | Hq].
  - exists q. split; [exact Hq | apply list_elem_of_here].
  - induction ds as [|d ds IH]; simpl in Hq.
    + apply elem_of_nil in Hq. destruct Hq.
    + apply elem_of_app in Hq as [Hq | Hq].
      * exists d. split; [apply list_elem_of_here|].
        apply list_elem_of_further, Hq.
      * destruct (IH Hq) as (d' & Hd' & Hq').
        exists d'. split; [apply list_elem_of_further, Hd' | exact Hq'].
Qed.

Lemma plain_dirs_artifact_dirs o q :
  q ∈ plain_dirs o -> q ∈ artifact_dirs o.
Proof.
  intros Hq. apply with_ancestors_elem in Hq as (d & Hd & Hq).
  apply (artifact_dirs_ensured o d q); [|exact Hq].
  unfold ensured_dirs, plain_paths, artifact_paths in *. cbn [map] in *.
  rewrite !elem_of_cons in *. tauto.
Qed.

Lemma footprint_plain o :
  truthy (shouldHash o) = false ->
  respects (footprint (plain_paths o) (plain_dirs o)) (generateIconFiles o).
Proof.
  intros Hh.
  assert (Hw : forall p c h f, p ∈ plain_paths o ->
            respects (footprint (plain_paths o) (plain_dirs o))
              (writeIfChanged p c h f)).
  { intros p c h f Hp. apply footprint_writeIfChanged; [exact Hp|].
    intros q. unfold plain_dirs. apply with_ancestors_closed.
    apply list_elem_of_further.
    apply list_elem_of_fmap. exists p. split; [reflexivity | exact Hp]. }
  unfold generateIconFiles.
  apply respects_bind; [apply footprint_trans | |].
  { apply footprint_ensureDir. intros q. unfold plain_dirs.
    apply with_ancestors_closed. apply list_elem_of_here. }
  intros _.
  unfold regenerate, write_artifacts, report_sprite, generateSvgSprite,
    loadConfig, optimize, md5.
  rewrite Hh.
  repeat first
    [ apply footprint_console_log
    | apply footprint_readFile
    | apply respects_ret; apply footprint_refl
    | apply respects_on_disk; apply footprint_refl
    | apply footprint_emit; exact I
    | apply Hw; unfold plain_paths; rewrite !elem_of_cons; tauto
    | apply respects_for_each;
        [apply footprint_refl | apply footprint_trans | intros ?]
    | apply respects_bind; [apply footprint_trans | | intros ?]
    | apply respects_catch; [apply footprint_trans | | intros ?]
    | match goal with
      | |- respects _ (if ?b then _ else _) => destruct b
      end ].
Qed.

(** X8: a run without [shouldHash] does not touch the hash module: with
    the artifact paths laid out apart, whatever is at [hash.ts] before the
    run, a hash module of an earlier run with [shouldHash] included, is
    there after it, however the run ends, and no physical write targets
    it. *)
Theorem hash_module_is_left_alone_without_shouldHash o w r w' :
  truthy (shouldHash o) = false ->
  layout_ok o ->
  generateIconFiles o w = (r, w') ->
  disk w' !! hashOutputFilepath o = disk w !! hashOutputFilepath o /\
  exists t, trace w' = trace w ++ t /\
            hashOutputFilepath o ∉ map fst (written t).
Proof.
  intros Hh Hlay Hrun.
  destruct (layout_distinct o Hlay) as (_ & _ & N14 & _ & N24 & N34).
  assert (Hp : hashOutputFilepath o ∉ plain_paths o).
  { unfold plain_paths. rewrite !not_elem_of_cons. repeat split; auto.
    apply not_elem_of_nil. }
  assert (Hd : hashOutputFilepath o ∉ plain_dirs o).
  { destruct Hlay as [_ Hdirs]. rewrite Forall_forall in Hdirs.
    assert (Hin : hashOutputFilepath o ∈ artifact_paths o)
      by (unfold artifact_paths; rewrite !elem_of_cons; tauto).
    intros Hc. apply (Hdirs _ Hin). apply plain_dirs_artifact_dirs, Hc. }
  destruct (footprint_plain o Hh _ _ _ Hrun) as ([t [Ht Hw]] & Hframe & _).
  split; [apply (Hframe _ Hp Hd) |].
  exists t. split; [exact Ht |].
  intros Hin. apply list_elem_of_fmap in Hin as [[p c] [Hpc Hin]].
  rewrite Forall_forall in Hw. apply Hp. rewrite Hpc. apply (Hw _ Hin).
Qed.

(** X9: after every returning run, one that the pre-check cuts short
    included, the types directory is a directory. *)
Theorem types_directory_exists_after_a_run o w w' :
  generateIconFiles o w = (Returned tt, w') ->
  disk w' !! typesDir o = Some Dir.
Proof.
  rewrite generateIconFiles_run.
  destruct (ensureDir (typesDir o) w) as [[[]|e] w1] eqn:He; [|discriminate].
  destruct (ensureDir_disk _ _ _ He) as [Hd _]. cbv zeta.
  destruct (_ && _).
  - intros [= <-]. exact Hd.
  - intros Hrun.
    destruct (footprint_regenerate o _ _ _ Hrun) as (_ & _ & _ & Hdir).
    apply Hdir. exact Hd.
Qed.

End Disk.

Section DiskExamples.

Import Js.

#[local] Existing Instance Sample.externals.

Lemma run_leaves_other_paths_alone_witness :
  generateIconFiles Sample.forcing Sample.fresh =
    (Returned tt, Sample.first_run Sample.forcing) /\
  (forall q, q ∉ artifact_paths Sample.forcing ->
     disk (Sample.first_run Sample.forcing) !! q = disk Sample.fresh !! q \/
     (disk Sample.fresh !! q = None /\
      disk (Sample.first_run Sample.forcing) !! q = Some Dir /\
      q ∈ artifact_dirs Sample.forcing)) /\
  (forall q n, q ∉ artifact_paths Sample.forcing ->
     disk Sample.fresh !! q = Some n ->
     disk (Sample.first_run Sample.forcing) !! q = Some n) /\
  (forall q, disk Sample.fresh !! q = Some Dir ->
     disk (Sample.first_run Sample.forcing) !! q = Some Dir).
Proof.
  assert (Hrun : generateIconFiles Sample.forcing Sample.fresh =
                 (Returned tt, Sample.first_run Sample.forcing))
    by (vm_compute; reflexivity).
  split; [exact Hrun |].
  exact (run_leaves_other_paths_alone Sample.forcing Sample.fresh _ _ Hrun).
Defined.

Lemma hash_module_is_left_alone_without_shouldHash_witness :
  disk (Sample.generated Sample.hashing) !! hashOutputFilepath Sample.plain
    = Some (File (hashFileContent (Some (md5_hex Sample.sprite)))) /\
  disk (snd (generateIconFiles Sample.plain (Sample.generated Sample.hashing)))
    !! hashOutputFilepath Sample.plain
  = disk (Sample.generated Sample.hashing) !! hashOutputFilepath Sample.plain /\
  exists t,
    trace (snd (generateIconFiles Sample.plain
                  (Sample.generated Sample.hashing)))
    = trace (Sample.generated Sample.hashing) ++ t /\
    hashOutputFilepath Sample.plain ∉ map fst (written t).
Proof.
  split; [vm_compute; reflexivity |].
  apply (hash_module_is_left_alone_without_shouldHash Sample.plain
           (Sample.generated Sample.hashing)
           (fst (generateIconFiles Sample.plain
                   (Sample.generated Sample.hashing))) _
           eq_refl (sample_layout_ok _ _ _)).
  apply surjective_pairing.
Defined.

Lemma types_directory_exists_after_a_run_witness :
  disk Sample.fresh !! typesDir Sample.plain = None /\
  disk (Sample.first_run Sample.plain) !! typesDir Sample.plain = Some Dir.
Proof.
  split; [reflexivity |].
  apply (types_directory_exists_after_a_run Sample.plain Sample.fresh).
  vm_compute. reflexivity.
Defined.

End DiskExamples.

(** ** The artifacts at the end of a run *)

Section Resolved.

Context `{Externals}.

Import Js.

Lemma resolved_at_record o S w w1 t :
  Forall no_call t ->
  resolved_at o S w w1 -> resolved_at o S w (record w1 t).
Proof.
  intros Hno (t1 & Ht & Hcalls & Hframe). exists (t1 ++ t).
  split; [|split].
  - cbn [record trace]. rewrite Ht. symmetry. apply app_assoc.
  - intros p c h f b Hin. cbn [record disk].
    apply elem_of_app in Hin as [Hin | Hin]; [apply (Hcalls _ _ _ _ _ Hin)|].
    rewrite Forall_forall in Hno. destruct (Hno _ Hin).
  - exact Hframe.
Qed.

Lemma resolved_at_refl o w : resolved_at o [] w w.
Proof.
  exists []. split; [symmetry; apply app_nil_r | split].
  - intros p c h f b Hin. apply elem_of_nil in Hin. destruct Hin.
  - reflexivity.
Qed.

Lemma writer_event_no_call h t : Forall (writer_event h) t -> Forall no_call t.
Proof.
  intros Ht. eapply Forall_impl; [exact Ht|].
  intros e. destruct e; simpl; auto.
Qed.

(** A change-detected write that rejects has resolved nothing. *)
Lemma writeIfChanged_Thrown p c h f w e w' :
  writeIfChanged p c h f w = (Thrown e, w') ->
  exists t, trace w' = trace w ++ t /\ Forall no_call t.
Proof.
  rewrite writeIfChanged_run.
  destruct (read_existing p (disk w)) as [existing|e0].
  - cbv zeta. destruct (needs_write existing c h f); [|discriminate].
    destruct ((ensureDir (path_dirname p);; writeFile p c;; ret true) _)
      as [[b|e0] w2] eqn:Hw; [discriminate|].
    intros [= _ <-].
    assert (Hwr : respects (emits_only no_call)
                    (ensureDir (path_dirname p);; writeFile p c;; ret true)).
    { unfold ensureDir, writeFile.
      repeat first
        [ apply respects_ret; apply emits_only_refl
        | apply respects_throw; apply emits_only_refl
        | apply respects_on_disk; apply emits_only_refl
        | apply emits_only_set_node
        | apply emits_only_emit; exact I
        | apply respects_for_each;
            [apply emits_only_refl | apply emits_only_trans | intros ?]
        | apply respects_bind; [apply emits_only_trans | | intros ?]
        | match goal with
          | |- respects _ (match ?x with _ => _ end) => destruct x
          end ]. }
    destruct (Hwr _ _ _ Hw) as (t & Ht & Hno). cbn [record trace] in Ht.
    exists ((ReadFile p :: comparison_digest existing h f) ++ t).
    split; [rewrite Ht; symmetry; apply app_assoc |].
    apply Forall_app. split; [|exact Hno].
    constructor; [exact I|].
    apply (writer_event_no_call h), comparison_digest_writer.
  - intros [= _ <-]. exists [ReadFile p].
    split; [reflexivity | repeat constructor].
Qed.

(** One change-detected write at an artifact path not written before. *)
Lemma resolved_at_step o S w w1 p c h f r w2 :
  layout_ok o ->
  (forall q, q ∈ S -> q ∈ artifact_paths o) ->
  p ∈ artifact_paths o -> p ∉ S ->
  resolved_at o S w w1 ->
  writeIfChanged p c h f w1 = (r, w2) ->
  resolved_at o (p :: S) w w2.
Proof.
  intros Hlay HS Hp HpS (t1 & Ht1 & Hcalls & Hframe) Hrun.
  assert (Hother : forall q, q ∈ artifact_paths o -> q <> p ->
            disk w2 !! q = disk w1 !! q).
  { intros q Hq Hne.
    apply (writeIfChanged_frame _ _ _ _ _ _ _ q Hrun Hne).
    apply (layout_no_parent o q p Hlay Hq Hp). }
  assert (Hold : forall p0 c0 h0 f0 (b0 : bool),
            WriteIfChanged p0 c0 h0 f0 b0 ∈ t1 ->
            p0 ∈ p :: S /\
            if b0 then disk w2 !! p0 = Some (File c0)
            else disk w2 !! p0 = disk w !! p0).
  { intros p0 c0 h0 f0 b0 Hin.
    destruct (Hcalls _ _ _ _ _ Hin) as [HinS Hb].
    split; [apply list_elem_of_further, HinS|].
    assert (Hne : p0 <> p) by (intros ->; contradiction).
    rewrite (Hother p0 (HS _ HinS) Hne). exact Hb. }
  assert (Hrest : forall q, q ∈ artifact_paths o -> q ∉ p :: S ->
            disk w2 !! q = disk w !! q).
  { intros q Hq Hn. apply not_elem_of_cons in Hn as [Hne HnS].
    rewrite (Hother q Hq Hne). apply (Hframe q Hq HnS). }
  destruct r as [b|e].
  - apply writeIfChanged_Returned in Hrun
      as (existing & t & _ & _ & Ht & Hev & _ & Hd).
    exists (t1 ++ t ++ [WriteIfChanged p c h f b]).
    split; [rewrite Ht, Ht1; symmetry; apply app_assoc | split].
    + intros p0 c0 h0 f0 b0 Hin.
      apply elem_of_app in Hin as [Hin | Hin]; [apply (Hold _ _ _ _ _ Hin)|].
      apply elem_of_app in Hin as [Hin | Hin].
      * apply writer_event_no_call in Hev. rewrite Forall_forall in Hev.
        destruct (Hev _ Hin).
      * apply list_elem_of_singleton in Hin. injection Hin as -> -> -> -> ->.
        split; [apply list_elem_of_here|].
        destruct b; [exact Hd|]. rewrite Hd. apply (Hframe p Hp HpS).
    + exact Hrest.
  - apply writeIfChanged_Thrown in Hrun as (t & Ht & Hno).
    exists (t1 ++ t).
    split; [rewrite Ht, Ht1; symmetry; apply app_assoc | split].
    + intros p0 c0 h0 f0 b0 Hin.
      apply elem_of_app in Hin as [Hin | Hin]; [apply (Hold _ _ _ _ _ Hin)|].
      rewrite Forall_forall in Hno. destruct (Hno _ Hin).
    + exact Hrest.
Qed.

Lemma sprite_report_no_call o output : Forall no_call (sprite_report o output).
Proof.
  unfold sprite_report. constructor; [exact I|]. apply Forall_app. split.
  - apply Forall_forall. intros e He.
    apply list_elem_of_fmap in He as [file [-> _]]. exact I.
  - destruct (truthy (shouldHash o)); repeat constructor.
Qed.

Lemma write_artifacts_resolved o output w0 w r w' :
  layout_ok o ->
  resolved_at o [] w0 w ->
  write_artifacts o output w = (r, w') ->
  exists S, resolved_at o S w0 w'.
Proof.
  intros Hlay Hstart.
  destruct (layout_distinct o Hlay) as (N12 & N13 & N14 & N23 & N24 & N34).
  assert (I1 : spriteFilepath o ∈ artifact_paths o)
    by (unfold artifact_paths; rewrite !elem_of_cons; tauto).
  assert (I2 : typeOutputFilepath o ∈ artifact_paths o)
    by (unfold artifact_paths; rewrite !elem_of_cons; tauto).
  assert (I3 : iconsOutputFilepath o ∈ artifact_paths o)
    by (unfold artifact_paths; rewrite !elem_of_cons; tauto).
  assert (I4 : hashOutputFilepath o ∈ artifact_paths o)
    by (unfold artifact_paths; rewrite !elem_of_cons; tauto).
  assert (Hif : forall (b : bool) t, Forall no_call t ->
            Forall no_call (if b then t else [])).
  { intros [] t Ht; [exact Ht | constructor]. }
  rewrite write_artifacts_run.
  destruct (writeIfChanged (spriteFilepath o) _ _ _ _)
    as [r1 w1] eqn:H1.
  assert (R1 : resolved_at o [spriteFilepath o] w0 w1).
  { refine (resolved_at_step o [] w0 _ _ _ _ _ _ _ Hlay _ I1 _ _ H1).
    - intros q Hq. apply elem_of_nil in Hq. destruct Hq.
    - apply not_elem_of_nil.
    - apply resolved_at_record; [|exact Hstart].
      destruct (truthy (shouldHash o)); repeat constructor. }
  destruct r1 as [b1|e]; [|intros [= _ <-]; eauto].
  destruct (writeIfChanged (typeOutputFilepath o) _ _ _ _)
    as [r2 w2] eqn:H2.
  assert (R2 : resolved_at o [typeOutputFilepath o; spriteFilepath o] w0 w2).
  { refine (resolved_at_step o _ w0 _ _ _ _ _ _ _ Hlay _ I2 _ _ H2).
    - intros q Hq. apply list_elem_of_singleton in Hq as ->. exact I1.
    - rewrite not_elem_of_cons. split; [auto | apply not_elem_of_nil].
    - apply resolved_at_record; [|exact R1].
      apply Hif, sprite_report_no_call. }
  destruct r2 as [b2|e]; [|intros [= _ <-]; eauto].
  destruct (writeIfChanged (iconsOutputFilepath o) _ _ _ _)
    as [r3 w3] eqn:H3.
  assert (R3 : resolved_at o [iconsOutputFilepath o; typeOutputFilepath o;
                              spriteFilepath o] w0 w3).
  { refine (resolved_at_step o _ w0 _ _ _ _ _ _ _ Hlay _ I3 _ _ H3).
    - intros q Hq. rewrite !elem_of_cons, elem_of_nil in Hq.
      destruct Hq as [-> | [-> | []]]; assumption.
    - rewrite !not_elem_of_cons. repeat split; auto. apply not_elem_of_nil.
    - apply resolved_at_record; [|exact R2].
      apply Hif. repeat constructor. }
  destruct r3 as [b3|e]; [|intros [= _ <-]; eauto].
  destruct (truthy (shouldHash o)).
  - destruct (writeIfChanged (hashOutputFilepath o) _ _ _ _)
      as [r4 w4] eqn:H4.
    assert (R4 : resolved_at o [hashOutputFilepath o; iconsOutputFilepath o;
                                typeOutputFilepath o; spriteFilepath o] w0 w4).
    { refine (resolved_at_step o _ w0 _ _ _ _ _ _ _ Hlay _ I4 _ _ H4).
      - intros q Hq. rewrite !elem_of_cons, elem_of_nil in Hq.
        destruct Hq as [-> | [-> | [-> | []]]]; assumption.
      - rewrite !not_elem_of_cons. repeat split; auto. apply not_elem_of_nil.
      - apply resolved_at_record; [|exact R3].
        apply Hif. repeat constructor. }
    destruct r4 as [b4|e]; [|intros [= _ <-]; eauto].
    intros [= _ <-]. eexists. apply resolved_at_record; [|exact R4].
    apply Forall_app. split; [apply Hif|]; repeat constructor.
  - intros [= _ <-]. eexists. apply resolved_at_record; [|exact R3].
    apply Forall_app. split; [apply Hif|]; repeat constructor.
Qed.

Lemma regenerate_resolved o w0 w r w' :
  layout_ok o ->
  resolved_at o [] w0 w ->
  regenerate o w = (r, w') ->
  exists S, resolved_at o S w0 w'.
Proof.
  intros Hlay Hstart.
  assert (Hrec : forall t, Forall no_call t ->
            resolved_at o [] w0 (record w t)).
  { intros t Ht. apply resolved_at_record; assumption. }
  assert (Hass : forall raw, Forall no_call (assembly_events o raw)).
  { intros raw. unfold assembly_events.
    destruct (truthy (shouldOptimize o)); repeat constructor. }
  rewrite regenerate_run.
  destruct (assemble (disk w) (files o) (inputDir o)) as [raw|e].
  - destruct (truthy (shouldOptimize o)) eqn:Ho.
    + destruct (load_config (disk w)) as [config|e].
      * destruct (svgo_optimize raw config) as [output|e].
        -- apply (write_artifacts_resolved o output w0 _ r w' Hlay).
           apply Hrec, Hass.
        -- intros [= _ <-]. eexists. apply Hrec, Hass.
      * intros [= _ <-]. eexists. apply Hrec. repeat constructor.
    + apply (write_artifacts_resolved o raw w0 _ r w' Hlay).
      apply Hrec, Hass.
  - intros [= _ <-]. eexists. apply Hrec. repeat constructor.
Qed.

(** X10: with the artifact paths laid out apart, the artifacts are, at the
    end of a run, as the flags of its change-detected writes say, however
    the run ends: an artifact whose write reported a change holds the
    content that was handed to that write, also when a later step has
    rejected (nothing is rolled back); an artifact whose write reported no
    change is as it was before the run. *)
Theorem artifacts_end_as_their_flags_say o w r w' :
  layout_ok o ->
  generateIconFiles o w = (r, w') ->
  exists t,
    trace w' = trace w ++ t /\
    forall p c h f (b : bool),
      WriteIfChanged p c h f b ∈ t ->
      if b then disk w' !! p = Some (File c)
      else disk w' !! p = disk w !! p.
Proof.
  intros Hlay Hrun.
  assert (Hfin : exists S, resolved_at o S w w').
  { rewrite generateIconFiles_run in Hrun.
    destruct (ensureDir (typesDir o) w) as [r1 w1] eqn:He.
    assert (R1 : resolved_at o [] w w1).
    { destruct (ensureDir_effect _ _ _ _ He) as (Ht1 & Hm & _).
      exists [EnsureDir (typesDir o)].
      split; [exact Ht1 | split].
      - intros p c h f b Hin. apply list_elem_of_singleton in Hin.
        discriminate.
      - intros q Hq _. destruct (Hm q) as [Heq | (_ & _ & Hin)];
          [exact Heq|].
        destruct Hlay as [_ Hdirs]. rewrite Forall_forall in Hdirs.
        destruct (Hdirs q Hq (artifact_dirs_types o q Hin)). }
    destruct r1 as [[]|e]; [|injection Hrun as _ <-; eauto].
    cbv zeta in Hrun.
    destruct (_ && _).
    - injection Hrun as _ <-. eexists.
      apply (resolved_at_record o [] w w1
               [ReadFile (spriteFilepath o); ReadFile (typeOutputFilepath o);
                ConsoleLog "Icons are up to date"]);
        [repeat constructor | exact R1].
    - refine (regenerate_resolved o w _ r w' Hlay _ Hrun).
      apply (resolved_at_record o [] w w1
               [ReadFile (spriteFilepath o); ReadFile (typeOutputFilepath o)]);
        [repeat constructor | exact R1]. }
  destruct Hfin as (S & t & Ht & Hcalls & _).
  exists t. split; [exact Ht|].
  intros p c h f b Hin. apply (Hcalls _ _ _ _ _ Hin).
Qed.

End Resolved.

Section ResolvedExamples.

Import Js.

#[local] Existing Instance Sample.externals.

Lemma artifacts_end_as_their_flags_say_witness :
  exists t,
    trace (snd (generateIconFiles Sample.hashing Sample.fresh))
      = trace Sample.fresh ++ t /\
    forall p c h f (b : bool),
      WriteIfChanged p c h f b ∈ t ->
      if b
      then disk (snd (generateIconFiles Sample.hashing Sample.fresh)) !! p
           = Some (File c)
      else disk (snd (generateIconFiles Sample.hashing Sample.fresh)) !! p
           = disk Sample.fresh !! p.
Proof.
  apply (artifacts_end_as_their_flags_say Sample.hashing Sample.fresh
           (fst (generateIconFiles Sample.hashing Sample.fresh)) _
           (sample_layout_ok _ _ _)).
  apply surjective_pairing.
Defined.

End ResolvedExamples.

(** ** The identifier lists and the decisions of the writes *)

Section Decoding.

Import Js Literal.

(** The double-quoted literals of the identifier array decode to the
    identifiers it was generated from. *)
Lemma iconsOutputContent_decodes names :
  listed "034" (iconsOutputContent names) = Some names.
Proof.
  unfold listed, iconsOutputContent, stringifiedIconNames.
  assert (Hq : map JSON_stringify names =
               map (quoted "034") (map json_escape_all names)).
  { rewrite map_map. reflexivity. }
  rewrite Hq.
  change (unescape_all
            (literals "034"
               (("import { IconName } from './types/icon-name';" +:+ LF +:+
                 "  " +:+ LF +:+ "  export const icons = [" +:+ LF +:+
                 "  " +:+ TAB) +:+
                join ("," +:+ LF +:+ TAB)
                  (map (quoted "034") (map json_escape_all names)) +:+
                ("," +:+ LF +:+ "  ] satisfies Array<IconName>;" +:+ LF +:+
                 "  "))) = Some names).
  rewrite (literals_join "034"
             ("import { IconName } from './types/icon-name';" +:+ LF +:+
              "  " +:+ LF +:+ "  export const icons = [" +:+ LF +:+
              "  " +:+ TAB)
             ("," +:+ LF +:+ TAB)
             ("," +:+ LF +:+ "  ] satisfies Array<IconName>;" +:+ LF +:+
              "  ")
             (map json_escape_all names)); try reflexivity.
  - apply unescape_all_escape.
  - apply Forall_forall. intros b Hb r.
    apply list_elem_of_fmap in Hb as [n [-> _]].
    apply (lex_body "034" n r). left. reflexivity.
Qed.

(** X11: the identifier array determines the identifiers: two lists of
    identifiers that differ in any way, by a renamed, added, removed or
    moved identifier, never give the same content of [icons.ts], whatever
    characters the identifiers hold. *)
Theorem identifier_array_determines_the_identifiers names names' :
  names <> names' ->
  iconsOutputContent names <> iconsOutputContent names'.
Proof.
  intros Hne Heq. apply Hne.
  pose proof (iconsOutputContent_decodes names) as Hd.
  rewrite Heq, iconsOutputContent_decodes in Hd.
  injection Hd as ->. reflexivity.
Qed.

Lemma identifier_array_determines_the_identifiers_witness :
  iconsOutputContent ["home"; "about"] <> iconsOutputContent ["about"; "home"].
Proof.
  apply identifier_array_determines_the_identifiers. discriminate.
Defined.

End Decoding.

Section Decisions.

Context `{Externals}.

Import Js.

Lemma read_existing_frame p d d' :
  d' !! p = d !! p -> read_existing p d' = read_existing p d.
Proof. intros Heq. unfold read_existing, read_node. rewrite Heq. reflexivity. Qed.

Lemma elem_of_calls e t : e ∈ calls t -> e ∈ t.
Proof.
  unfold calls. intros Hin. apply list_elem_of_omap in Hin as (x & Hx & Hf).
  destruct x; try discriminate. injection Hf as <-. exact Hx.
Qed.

(** With the artifact paths laid out apart, the flag of each
    change-detected write of a returning [write_artifacts] is the decision
    of the writer on what its own path held before the first write. *)
Lemma write_artifacts_decisions o output w w' :
  layout_ok o ->
  write_artifacts o output w = (Returned tt, w') ->
  exists (b1 b2 b3 b4 : bool) (t1 t2 t3 t4 : list event) ex1 ex2 ex3,
    Forall (writer_event (run_hash o output)) t1 /\
    Forall (writer_event None) t2 /\
    Forall (writer_event None) t3 /\
    Forall (writer_event None) t4 /\
    trace w' = trace w ++ artifacts_trace o output b1 b2 b3 b4 t1 t2 t3 t4 /\
    read_existing (spriteFilepath o) (disk w) = Returned ex1 /\
    b1 = needs_write ex1 output (run_hash o output) (force o) /\
    read_existing (typeOutputFilepath o) (disk w) = Returned ex2 /\
    b2 = needs_write ex2 (typeOutputContent (iconNames o)) None (force o) /\
    read_existing (iconsOutputFilepath o) (disk w) = Returned ex3 /\
    b3 = needs_write ex3 (iconsOutputContent (iconNames o)) None (force o) /\
    (truthy (shouldHash o) = true ->
     exists ex4,
       read_existing (hashOutputFilepath o) (disk w) = Returned ex4 /\
       b4 = needs_write ex4 (hashFileContent (run_hash o output)) None
              (force o)).
Proof.
  intros Hlay.
  destruct (layout_distinct o Hlay) as (N12 & N13 & N14 & N23 & N24 & N34).
  assert (Hin : forall p, p ∈ artifact_paths o ->
            forall q, q ∈ artifact_paths o ->
            p ∉ path_dirname q :: ancestors (path_dirname q)).
  { intros p Hp q Hq. apply (layout_no_parent o p q Hlay Hp Hq). }
  assert (I1 : spriteFilepath o ∈ artifact_paths o)
    by (unfold artifact_paths; rewrite !elem_of_cons; tauto).
  assert (I2 : typeOutputFilepath o ∈ artifact_paths o)
    by (unfold artifact_paths; rewrite !elem_of_cons; tauto).
  assert (I3 : iconsOutputFilepath o ∈ artifact_paths o)
    by (unfold artifact_paths; rewrite !elem_of_cons; tauto).
  assert (I4 : hashOutputFilepath o ∈ artifact_paths o)
    by (unfold artifact_paths; rewrite !elem_of_cons; tauto).
  rewrite write_artifacts_run. unfold artifacts_trace.
  destruct (writeIfChanged (spriteFilepath o) _ _ _ _)
    as [[b1|e] w1] eqn:H1; [|discriminate].
  destruct (writeIfChanged (typeOutputFilepath o) _ _ _ _)
    as [[b2|e] w2] eqn:H2; [|discriminate].
  destruct (writeIfChanged (iconsOutputFilepath o) _ _ _ _)
    as [[b3|e] w3] eqn:H3; [|discriminate].
  pose proof (fun q => writeIfChanged_frame _ _ _ _ _ _ _ q H1) as G1.
  pose proof (fun q => writeIfChanged_frame _ _ _ _ _ _ _ q H2) as G2.
  pose proof (fun q => writeIfChanged_frame _ _ _ _ _ _ _ q H3) as G3.
  cbn [disk record] in G1, G2, G3.
  apply writeIfChanged_Returned in H1 as (ex1 & t1 & R1 & B1 & T1 & F1 & _).
  apply writeIfChanged_Returned in H2 as (ex2 & t2 & R2 & B2 & T2 & F2 & _).
  apply writeIfChanged_Returned in H3 as (ex3 & t3 & R3 & B3 & T3 & F3 & _).
  cbn [trace disk record] in T1, T2, T3, R1, R2, R3.
  rewrite (read_existing_frame _ (disk w) (disk w1)) in R2
    by (apply G1; auto).
  rewrite (read_existing_frame _ (disk w) (disk w2)) in R3
    by (rewrite G2, G1; auto).
  destruct (truthy (shouldHash o)).
  - destruct (writeIfChanged (hashOutputFilepath o) _ _ _ _)
      as [[b4|e] w4] eqn:H4; [|discriminate].
    apply writeIfChanged_Returned in H4 as (ex4 & t4 & R4 & B4 & T4 & F4 & _).
    cbn [trace disk record] in T4, R4.
    rewrite (read_existing_frame _ (disk w) (disk w3)) in R4
      by (rewrite G3, G2, G1; auto).
    intros [= <-].
    exists b1, b2, b3, b4, t1, t2, t3, t4, ex1, ex2, ex3.
    repeat (split; [assumption|]).
    split; [|repeat (split; [assumption|]); intros _; exists ex4; auto].
    simpl trace. rewrite T4, T3, T2, T1. rewrite <- !app_assoc. reflexivity.
  - intros [= <-].
    exists b1, b2, b3, false, t1, t2, t3, [], ex1, ex2, ex3.
    repeat (split; [first [assumption | constructor]|]).
    split; [|repeat (split; [assumption|]); discriminate].
    simpl trace. rewrite T3, T2, T1. rewrite <- !app_assoc. reflexivity.
Qed.

Lemma icons_content_needs_write o ex :
  ex <> Some (iconsOutputContent (iconNames o)) ->
  needs_write ex (iconsOutputContent (iconNames o)) None (force o) = true.
Proof.
  intros Hne. unfold needs_write.
  destruct (truthy (force o)); [reflexivity|].
  apply negb_true_iff, String.eqb_neq. intros Heq. apply Hne.
  destruct ex as [c|]; simpl in Heq; [rewrite Heq; reflexivity|].
  discriminate Heq.
Qed.

(** X12: a stale identifier array is always rewritten and reported. With
    the artifact paths laid out apart, when [icons.ts] is missing or holds
    the array generated from other identifiers than those of the run, a
    returning regeneration, with or without [force], reports a change of
    the identifier array, ends with the generated summary and leaves at
    [icons.ts] the array of the identifiers of the run. *)
Theorem stale_identifier_array_is_rewritten o w w' :
  layout_ok o ->
  (disk w !! iconsOutputFilepath o = None \/
   exists names,
     names <> iconNames o /\
     disk w !! iconsOutputFilepath o
       = Some (File (iconsOutputContent names))) ->
  regenerate o w = (Returned tt, w') ->
  exists t,
    trace w' = trace w ++ t /\
    (iconsOutputFilepath o, true) ∈ changes t /\
    reports_generated (length (files o)) t /\
    disk w' !! iconsOutputFilepath o
      = Some (File (iconsOutputContent (iconNames o))).
Proof.
  intros Hlay Hold Hrun.
  destruct (regenerate_resolved o w w _ _ Hlay (resolved_at_refl o w) Hrun)
    as (S & t & Ht & Hcalls & _).
  apply regenerate_Returned in Hrun as (raw & output & _ & _ & Hw).
  apply (write_artifacts_decisions o output _ _ Hlay) in Hw
    as (b1 & b2 & b3 & b4 & t1 & t2 & t3 & t4 & ex1 & ex2 & ex3 &
        F1 & F2 & F3 & F4 & Ht' & _ & _ & _ & _ & R3 & B3 & _).
  cbn [trace disk record] in Ht', R3.
  assert (Hb3 : b3 = true).
  { rewrite B3. apply icons_content_needs_write.
    unfold read_existing, read_node in R3.
    destruct Hold as [Hnone | (names & Hne & Hsome)].
    - rewrite Hnone in R3. injection R3 as <-. discriminate.
    - rewrite Hsome in R3. injection R3 as <-. intros Hs.
      assert (Heq : iconsOutputContent names
                    = iconsOutputContent (iconNames o))
        by exact (f_equal (from_option (fun c => c) EmptyString) Hs).
      apply Hne.
      pose proof (iconsOutputContent_decodes names) as Hd.
      rewrite Heq, iconsOutputContent_decodes in Hd.
      injection Hd as ->. reflexivity. }
  clear B3. subst b3.
  assert (Hsame : t = assembly_events o raw ++
                      artifacts_trace o output b1 b2 true b4 t1 t2 t3 t4).
  { rewrite Ht, <- app_assoc in Ht'. apply app_inv_head in Ht'. exact Ht'. }
  assert (Hass : changes (assembly_events o raw) = [] /\
                 logged (assembly_events o raw) = []).
  { unfold assembly_events.
    destruct (truthy (shouldOptimize o)); split; reflexivity. }
  destruct Hass as [Hac Hal].
  exists t. split; [exact Ht | split; [|split]].
  - rewrite Hsame, changes_app, Hac,
      (artifacts_trace_changes _ _ _ _ _ _ _ _ _ _ F1 F2 F3 F4).
    cbn [app]. rewrite !elem_of_cons. tauto.
  - unfold reports_generated.
    rewrite Hsame, logged_app, Hal. cbn [app].
    rewrite (artifacts_trace_summary o output b1 b2 true b4 t1 t2 t3 t4).
    rewrite orb_true_r. reflexivity.
  - apply (Hcalls (iconsOutputFilepath o) (iconsOutputContent (iconNames o))
             None (force o) true).
    rewrite Hsame. apply elem_of_app. right. apply elem_of_calls.
    rewrite (artifacts_trace_calls _ _ _ _ _ _ _ _ _ _ F1 F2 F3 F4).
    cbn [app]. rewrite !elem_of_cons. tauto.
Qed.

(** X13: with the artifact paths laid out apart, the flags of a returning
    regeneration are decided by the disk before the run: each of them is
    the decision of the writer on what its own path held then, for the
    content the run generates; no write bears on the decision of
    another. *)
Theorem flags_are_decided_by_the_initial_disk o w w' :
  layout_ok o ->
  regenerate o w = (Returned tt, w') ->
  exists t output ex1 ex2 ex3,
    trace w' = trace w ++ t /\
    final_sprite o (disk w) = Returned output /\
    read_existing (spriteFilepath o) (disk w) = Returned ex1 /\
    read_existing (typeOutputFilepath o) (disk w) = Returned ex2 /\
    read_existing (iconsOutputFilepath o) (disk w) = Returned ex3 /\
    if truthy (shouldHash o) then
      exists ex4,
        read_existing (hashOutputFilepath o) (disk w) = Returned ex4 /\
        changes t =
          [(spriteFilepath o,
            needs_write ex1 output (Some (md5_hex output)) (force o));
           (typeOutputFilepath o,
            needs_write ex2 (typeOutputContent (iconNames o)) None (force o));
           (iconsOutputFilepath o,
            needs_write ex3 (iconsOutputContent (iconNames o)) None (force o));
           (hashOutputFilepath o,
            needs_write ex4 (hashFileContent (Some (md5_hex output))) None
              (force o))]
    else
      changes t =
        [(spriteFilepath o, needs_write ex1 output None (force o));
         (typeOutputFilepath o,
          needs_write ex2 (typeOutputContent (iconNames o)) None (force o));
         (iconsOutputFilepath o,
          needs_write ex3 (iconsOutputContent (iconNames o)) None (force o))].
Proof.
  intros Hlay Hrun.
  apply regenerate_Returned in Hrun as (raw & output & _ & Hfin & Hw).
  apply (write_artifacts_decisions o output _ _ Hlay) in Hw
    as (b1 & b2 & b3 & b4 & t1 & t2 & t3 & t4 & ex1 & ex2 & ex3 &
        F1 & F2 & F3 & F4 & Ht & R1 & B1 & R2 & B2 & R3 & B3 & H4).
  cbn [trace disk record] in Ht, R1, R2, R3, H4.
  exists (assembly_events o raw ++
          artifacts_trace o output b1 b2 b3 b4 t1 t2 t3 t4),
    output, ex1, ex2, ex3.
  split; [rewrite Ht; symmetry; apply app_assoc|].
  repeat (split; [assumption|]).
  assert (Hac : changes (assembly_events o raw) = []).
  { unfold assembly_events.
    destruct (truthy (shouldOptimize o)); reflexivity. }
  rewrite changes_app, Hac,
    (artifacts_trace_changes _ _ _ _ _ _ _ _ _ _ F1 F2 F3 F4).
  unfold run_hash in *. cbn [app].
  destruct (truthy (shouldHash o)).
  - destruct (H4 eq_refl) as (ex4 & R4 & B4). exists ex4.
    split; [exact R4|]. rewrite <- B1, <- B2, <- B3, <- B4. reflexivity.
  - rewrite <- B1, <- B2, <- B3. reflexivity.
Qed.

End Decisions.

(** ** The artifacts after a returning regeneration *)

Section Outcome.

Context `{Externals}.

Import Js.

(** The hash-suffixed name: the digest goes between [sprite] and the
    final [.svg]. *)
Lemma hashed_name_shape dir h :
  replace_svg_suffix (dir +:+ "sprite.svg") ("." +:+ h +:+ ".svg")
  = dir +:+ "sprite." +:+ h +:+ ".svg".
Proof.
  change "sprite.svg" with ("sprite" +:+ ".svg").
  rewrite <- append_assoc, replace_svg_suffix_append, append_assoc.
  reflexivity.
Qed.

(** The console lines of a returning [write_artifacts]. *)
Lemma artifacts_trace_logged o output (b1 b2 b3 b4 : bool) t1 t2 t3 t4 :
  Forall (writer_event (run_hash o output)) t1 ->
  Forall (writer_event None) t2 ->
  Forall (writer_event None) t3 ->
  Forall (writer_event None) t4 ->
  logged (artifacts_trace o output b1 b2 b3 b4 t1 t2 t3 t4) =
    (if b1 then sprite_lines o output else []) ++
    (if b2 then ["Types saved to " +:+
                 path_relative cwd (typeOutputFilepath o)] else []) ++
    (if b3 then ["Icons names saved to " +:+
                 path_relative cwd (iconsOutputFilepath o)] else []) ++
    (if truthy (shouldHash o) && b4
     then ["Hash file saved to " +:+
           path_relative cwd (hashOutputFilepath o)] else []) ++
    [if b1 || b2 || b3
     then "Generated " +:+ pretty (length (files o)) +:+ " icons"
     else "Icons are up to date"].
Proof.
  intros F1 F2 F3 F4. unfold artifacts_trace.
  rewrite !logged_app.
  rewrite (writer_event_logged _ _ F1), (writer_event_logged _ _ F2),
    (writer_event_logged _ _ F3).
  assert (Hrep : logged (if b1 then sprite_report o output else [])
                 = if b1 then sprite_lines o output else []).
  { destruct b1; [apply sprite_report_logged | reflexivity]. }
  rewrite Hrep.
  destruct (truthy (shouldHash o)); rewrite ?logged_app,
    ?(writer_event_logged _ _ F4);
    destruct b1, b2, b3, b4; reflexivity.
Qed.

(** X14: when hashing, the report of a returning regeneration names the
    sprite by its hash-suffixed name exactly when the sprite write, the
    first change-detected write of the run, reports a change: the line of
    the digest is then followed by the line [Saved to] with the sprite
    path in which the digest of the final sprite content is put between
    [sprite] and the final [.svg]; when the sprite write reports no
    change, no such line is printed. *)
Theorem reported_sprite_name o w w' dir :
  truthy (shouldHash o) = true ->
  spriteFilepath o = dir +:+ "sprite.svg" ->
  regenerate o w = (Returned tt, w') ->
  exists t output (b : bool),
    trace w' = trace w ++ t /\
    final_sprite o (disk w) = Returned output /\
    head (changes t) = Some (spriteFilepath o, b) /\
    let line :=
      "Saved to " +:+
      path_relative cwd
        (dir +:+ "sprite." +:+ md5_hex output +:+ ".svg") in
    if b
    then exists before after,
           logged t =
             before ++
             ["Generated sprite with hash " +:+ md5_hex output; line] ++
             after
    else line ∉ logged t.
Proof.
  intros Hh Hdir Hrun.
  apply regenerate_Returned in Hrun as (raw & output & _ & Hfin & Hrun).
  apply write_artifacts_trace in Hrun
    as (b1 & b2 & b3 & b4 & t1 & t2 & t3 & t4 & F1 & F2 & F3 & F4 &
        _ & _ & _ & _ & Ht).
  exists (assembly_events o raw ++
          artifacts_trace o output b1 b2 b3 b4 t1 t2 t3 t4), output, b1.
  assert (Ha : changes (assembly_events o raw) = [] /\
               logged (assembly_events o raw) = []).
  { unfold assembly_events.
    destruct (truthy (shouldOptimize o)); split; reflexivity. }
  destruct Ha as [Hac Hal].
  split; [rewrite Ht; symmetry; apply app_assoc | split; [exact Hfin|]].
  split.
  - rewrite changes_app, Hac,
      (artifacts_trace_changes _ _ _ _ _ _ _ _ _ _ F1 F2 F3 F4).
    reflexivity.
  - cbv zeta.
    rewrite logged_app, Hal,
      (artifacts_trace_logged _ _ _ _ _ _ _ _ _ _ F1 F2 F3 F4).
    cbn [app]. rewrite Hh. destruct b1.
    + unfold sprite_lines. rewrite Hh, Hdir, hashed_name_shape.
      exists (("Generating sprite for " +:+ inputDir o) ::
              map (fun file => "✅ " +:+ file) (files o) ++
              ["File size: " +:+ calculateFileSizeInKB output +:+ " KB"]).
      eexists. cbn [app]. rewrite <- !app_assoc. cbn [app]. reflexivity.
    + cbn [app orb andb]. intros Hin.
      destruct b2, b3, b4; cbn [app orb] in Hin;
        repeat (apply elem_of_cons in Hin as [Hin | Hin];
                [cbn in Hin; discriminate Hin|]);
        apply elem_of_nil in Hin; exact Hin.
Qed.

Lemma settled_content d p c :
  c <> EmptyString ->
  settled d p c None -> d !! p = Some (File c).
Proof.
  intros Hc (existing & Hr & Hn).
  unfold needs_write in Hn. cbn [truthy] in Hn.
  apply negb_false_iff, String.eqb_eq in Hn.
  destruct existing as [c0|]; simpl in Hn; [|congruence].
  subst c0. unfold read_existing, read_node in Hr.
  destruct (d !! p) as [[c0| |[]]|]; try discriminate.
  injection Hr as ->. reflexivity.
Qed.

(** X15: with the artifact paths laid out apart, after a returning
    regeneration the type declarations and the identifier array on disk
    are exactly the texts generated from the files of the run, and with
    [shouldHash] the hash module is exactly the module of the digest of
    the final sprite content, whether they were written by this run or
    found unchanged. The sprite on disk can be read and, when hashing, has
    the digest of the final sprite content; without hashing it is the
    final sprite content, unless that content is empty. *)
Theorem artifacts_hold_the_generated_content o w w' :
  layout_ok o ->
  regenerate o w = (Returned tt, w') ->
  exists output,
    final_sprite o (disk w) = Returned output /\
    disk w' !! typeOutputFilepath o
      = Some (File (typeOutputContent (iconNames o))) /\
    disk w' !! iconsOutputFilepath o
      = Some (File (iconsOutputContent (iconNames o))) /\
    if truthy (shouldHash o) then
      disk w' !! hashOutputFilepath o
        = Some (File ("export const hash = '" +:+ md5_hex output +:+
                      "';" +:+ LF)) /\
      exists sprite,
        disk w' !! spriteFilepath o = Some (File sprite) /\
        md5_hex sprite = md5_hex output
    else
      output <> EmptyString ->
      disk w' !! spriteFilepath o = Some (File output).
Proof.
  intros Hlay Hrun.
  apply regenerate_Returned in Hrun as (raw & output & _ & Hfin & Hw).
  destruct (write_artifacts_settles o output _ _ Hlay Hw)
    as (S1 & S2 & S3 & S4).
  exists output. split; [exact Hfin | split; [|split]].
  - apply settled_content; [|exact S2].
    intros Heq. apply (f_equal String.length) in Heq. discriminate Heq.
  - apply settled_content; [|exact S3].
    intros Heq. apply (f_equal String.length) in Heq. discriminate Heq.
  - unfold run_hash in *. destruct (truthy (shouldHash o)).
    + split.
      * apply (settled_content _ _ _) in S4; [exact S4 | | reflexivity].
        intros Heq. apply (f_equal String.length) in Heq. discriminate Heq.
      * destruct S1 as (existing & Hr & Hn).
        unfold needs_write in Hn. cbn [truthy] in Hn.
        destruct existing as [c0|]; [|discriminate].
        apply negb_false_iff, String.eqb_eq in Hn.
        exists c0. split; [|exact Hn].
        unfold read_existing, read_node in Hr.
        destruct (disk w' !! spriteFilepath o) as [[c1| |[]]|];
          try discriminate.
        injection Hr as ->. reflexivity.
    + intros Hne. apply settled_content; assumption.
Qed.

End Outcome.

Section OutcomeExamples.

Import Js.

#[local] Existing Instance Sample.externals.

Lemma stale_identifier_array_is_rewritten_witness :
  disk Sample.extended !! iconsOutputFilepath Sample.both
    = Some (File (iconsOutputContent ["home"])) /\
  regenerate Sample.both Sample.extended =
    (Returned tt, snd (regenerate Sample.both Sample.extended)) /\
  exists t,
    trace (snd (regenerate Sample.both Sample.extended))
      = trace Sample.extended ++ t /\
    (iconsOutputFilepath Sample.both, true) ∈ changes t /\
    reports_generated (length (files Sample.both)) t /\
    disk (snd (regenerate Sample.both Sample.extended))
      !! iconsOutputFilepath Sample.both
    = Some (File (iconsOutputContent (iconNames Sample.both))).
Proof.
  assert (Hold : disk Sample.extended !! iconsOutputFilepath Sample.both
                 = Some (File (iconsOutputContent ["home"])))
    by (vm_compute; reflexivity).
  assert (Hrun : regenerate Sample.both Sample.extended =
                 (Returned tt, snd (regenerate Sample.both Sample.extended)))
    by (vm_compute; reflexivity).
  split; [exact Hold | split; [exact Hrun |]].
  refine (stale_identifier_array_is_rewritten Sample.both Sample.extended _
            (sample_layout_ok _ _ _) _ Hrun).
  right. exists ["home"]. split; [discriminate | exact Hold].
Defined.

Lemma flags_are_decided_by_the_initial_disk_witness :
  exists t output ex1 ex2 ex3,
    trace (snd (regenerate Sample.plain Sample.extended))
      = trace Sample.extended ++ t /\
    final_sprite Sample.plain (disk Sample.extended) = Returned output /\
    read_existing (spriteFilepath Sample.plain) (disk Sample.extended)
      = Returned ex1 /\
    read_existing (typeOutputFilepath Sample.plain) (disk Sample.extended)
      = Returned ex2 /\
    read_existing (iconsOutputFilepath Sample.plain) (disk Sample.extended)
      = Returned ex3 /\
    if truthy (shouldHash Sample.plain) then
      exists ex4,
        read_existing (hashOutputFilepath Sample.plain)
          (disk Sample.extended) = Returned ex4 /\
        changes t =
          [(spriteFilepath Sample.plain,
            needs_write ex1 output (Some (md5_hex output))
              (force Sample.plain));
           (typeOutputFilepath Sample.plain,
            needs_write ex2 (typeOutputContent (iconNames Sample.plain))
              None (force Sample.plain));
           (iconsOutputFilepath Sample.plain,
            needs_write ex3 (iconsOutputContent (iconNames Sample.plain))
              None (force Sample.plain));
           (hashOutputFilepath Sample.plain,
            needs_write ex4 (hashFileContent (Some (md5_hex output))) None
              (force Sample.plain))]
    else
      changes t =
        [(spriteFilepath Sample.plain,
          needs_write ex1 output None (force Sample.plain));
         (typeOutputFilepath Sample.plain,
          needs_write ex2 (typeOutputContent (iconNames Sample.plain))
            None (force Sample.plain));
         (iconsOutputFilepath Sample.plain,
          needs_write ex3 (iconsOutputContent (iconNames Sample.plain))
            None (force Sample.plain))].
Proof.
  apply (flags_are_decided_by_the_initial_disk Sample.plain Sample.extended
           _ (sample_layout_ok _ _ _)).
  vm_compute. reflexivity.
Defined.

Lemma reported_sprite_name_witness :
  exists t output (b : bool),
    trace (snd (regenerate Sample.hashing Sample.fresh))
      = trace Sample.fresh ++ t /\
    final_sprite Sample.hashing (disk Sample.fresh) = Returned output /\
    head (changes t) = Some (spriteFilepath Sample.hashing, b) /\
    let line :=
      "Saved to " +:+
      path_relative cwd
        ("public/" +:+ "sprite." +:+ md5_hex output +:+ ".svg") in
    if b
    then exists before after,
           logged t =
             before ++
             ["Generated sprite with hash " +:+ md5_hex output; line] ++
             after
    else line ∉ logged t.
Proof.
  apply (reported_sprite_name Sample.hashing Sample.fresh _ "public/");
    [reflexivity | reflexivity |].
  vm_compute. reflexivity.
Defined.

Lemma artifacts_hold_the_generated_content_witness :
  exists output,
    final_sprite Sample.hashing (disk Sample.fresh) = Returned output /\
    disk (snd (regenerate Sample.hashing Sample.fresh))
      !! typeOutputFilepath Sample.hashing
      = Some (File (typeOutputContent (iconNames Sample.hashing))) /\
    disk (snd (regenerate Sample.hashing Sample.fresh))
      !! iconsOutputFilepath Sample.hashing
      = Some (File (iconsOutputContent (iconNames Sample.hashing))) /\
    if truthy (shouldHash Sample.hashing) then
      disk (snd (regenerate Sample.hashing Sample.fresh))
        !! hashOutputFilepath Sample.hashing
        = Some (File ("export const hash = '" +:+ md5_hex output +:+
                      "';" +:+ LF)) /\
      exists sprite,
        disk (snd (regenerate Sample.hashing Sample.fresh))
          !! spriteFilepath Sample.hashing = Some (File sprite) /\
        md5_hex sprite = md5_hex output
    else
      output <> EmptyString ->
      disk (snd (regenerate Sample.hashing Sample.fresh))
        !! spriteFilepath Sample.hashing = Some (File output).
Proof.
  apply (artifacts_hold_the_generated_content Sample.hashing Sample.fresh
           _ (sample_layout_ok _ _ _)).
  vm_compute. reflexivity.
Defined.

End OutcomeExamples.
